(** * prompt-manager-cli: the interactive selector and its fallback

    A shallow embedding of package [ui] (the selector model driven by
    bubbletea key events, and the numbered fallback selector) of
    hzionn/prompt-manager-cli, with the properties its design document
    states about it.

    Go values are modelled as follows.
    - [string] is a byte sequence: Rocq's [string] (a list of [ascii]).
    - [rune] (an [int32] code point) is a [Z]; no arithmetic is done on runes.
    - [int] is a [Z]; additions and subtractions wrap at 64 bits ([wrap]).
    - a slice is a [list]; [len] is the length as a [Z]; indexing outside the
      slice panics ([index] returns [None]). *)

From Stdlib Require Import ZArith List Bool Lia String Ascii.
From Stdlib Require Import Permutation Sorted.
Import ListNotations.

Local Open Scope string_scope.
Local Open Scope Z_scope.

(** ** Go basics *)

Module Go.

(** [int] on a 64-bit platform. *)
Definition MaxInt : Z := 9223372036854775807.
Definition MinInt : Z := -9223372036854775808.

Definition wrap (z : Z) : Z := (z + 9223372036854775808) mod 18446744073709551616 - 9223372036854775808.

Definition int_add (a b : Z) : Z := wrap (a + b).
Definition int_sub (a b : Z) : Z := wrap (a - b).

(** [a % b] truncates towards zero, like [Z.rem]. *)
Definition int_rem (a b : Z) : Z := Z.rem a b.

Definition len {A} (l : list A) : Z := Z.of_nat (List.length l).

(** [l[i]]: [None] stands for the index-out-of-range panic. *)
Definition index {A} (l : list A) (i : Z) : option A :=
  if i <? 0 then None else nth_error l (Z.to_nat i).

(** The value of a byte, and the byte of a value below 256. *)
Definition byteZ (a : ascii) : Z := Z.of_N (N_of_ascii a).
Definition zbyte (z : Z) : ascii := ascii_of_N (Z.to_N z).

(** *** UTF-8 ([unicode/utf8]) *)

Definition rune := Z.

Definition RuneError : rune := 65533.
Definition MaxRune : rune := 1114111.

Definition ValidRune (r : rune) : bool :=
  ((0 <=? r) && (r <? 55296)) || ((57343 <? r) && (r <=? MaxRune)).

(** What [string(r)] encodes: [r] itself, or U+FFFD for a value that is not
    a code point. *)
Definition scalar (r : rune) : rune := if ValidRune r then r else RuneError.

(** [string(rune)]: the UTF-8 encoding of one rune. *)
Definition encodeRune (r : rune) : string :=
  let c := scalar r in
  if c <? 128 then String (zbyte c) ""
  else if c <? 2048 then
    String (zbyte (192 + c / 64)) (String (zbyte (128 + c mod 64)) "")
  else if c <? 65536 then
    String (zbyte (224 + c / 4096))
      (String (zbyte (128 + (c / 64) mod 64)) (String (zbyte (128 + c mod 64)) ""))
  else
    String (zbyte (240 + c / 262144))
      (String (zbyte (128 + (c / 4096) mod 64))
         (String (zbyte (128 + (c / 64) mod 64)) (String (zbyte (128 + c mod 64)) ""))).

(** [string(runes)] for a [[]rune]. *)
Fixpoint runesToString (rs : list rune) : string :=
  match rs with
  | [] => ""
  | r :: rs' => encodeRune r ++ runesToString rs'
  end.

Definition isCont (b : Z) : bool := (128 <=? b) && (b <=? 191).

(** The accepted range of the second byte depends on the first one: no
    overlong forms, no surrogates, nothing above U+10FFFF. *)
Definition secondOk (b0 b1 : Z) : bool :=
  if b0 =? 224 then (160 <=? b1) && (b1 <=? 191)
  else if b0 =? 237 then (128 <=? b1) && (b1 <=? 159)
  else if b0 =? 240 then (144 <=? b1) && (b1 <=? 191)
  else if b0 =? 244 then (128 <=? b1) && (b1 <=? 143)
  else isCont b1.

(** [[]rune(s)]: decode rune by rune; a byte that does not start a
    well-formed sequence yields U+FFFD and is skipped alone. *)
Fixpoint stringToRunes (s : string) : list rune :=
  match s with
  | "" => []
  | String a0 s1 =>
    let b0 := byteZ a0 in
    if b0 <? 128 then b0 :: stringToRunes s1
    else if (194 <=? b0) && (b0 <=? 223) then
      match s1 with
      | String a1 s2 =>
        let b1 := byteZ a1 in
        if isCont b1 then ((b0 - 192) * 64 + (b1 - 128)) :: stringToRunes s2
        else RuneError :: stringToRunes s1
      | _ => RuneError :: stringToRunes s1
      end
    else if (224 <=? b0) && (b0 <=? 239) then
      match s1 with
      | String a1 (String a2 s3) =>
        let b1 := byteZ a1 in
        let b2 := byteZ a2 in
        if secondOk b0 b1 && isCont b2
        then ((b0 - 224) * 4096 + (b1 - 128) * 64 + (b2 - 128)) :: stringToRunes s3
        else RuneError :: stringToRunes s1
      | _ => RuneError :: stringToRunes s1
      end
    else if (240 <=? b0) && (b0 <=? 244) then
      match s1 with
      | String a1 (String a2 (String a3 s4)) =>
        let b1 := byteZ a1 in
        let b2 := byteZ a2 in
        let b3 := byteZ a3 in
        if secondOk b0 b1 && isCont b2 && isCont b3
        then ((b0 - 240) * 262144 + (b1 - 128) * 4096 + (b2 - 128) * 64 + (b3 - 128))
               :: stringToRunes s4
        else RuneError :: stringToRunes s1
      | _ => RuneError :: stringToRunes s1
      end
    else RuneError :: stringToRunes s1
  end.

(** [len(s)] of a string: its number of bytes. *)
Definition slen (s : string) : Z := Z.of_nat (String.length s).

Fixpoint revString (s acc : string) : string :=
  match s with
  | "" => acc
  | String a s' => revString s' (String a acc)
  end.

(** *** [strings.TrimSpace]

    [unicode.IsSpace]: the white space of Unicode's property list. *)
Definition IsSpace (r : rune) : bool :=
  ((9 <=? r) && (r <=? 13)) || (r =? 32) || (r =? 133) || (r =? 160)
  || (r =? 5760) || ((8192 <=? r) && (r <=? 8202))
  || (r =? 8232) || (r =? 8233) || (r =? 8239) || (r =? 8287) || (r =? 12288).

Definition asciiSpace (b : Z) : bool := ((9 <=? b) && (b <=? 13)) || (b =? 32).

(** The two-byte and three-byte encodings of the white space above U+007F:
    U+0085 and U+00A0; U+1680, U+2000..U+200A, U+2028, U+2029, U+202F, U+205F
    and U+3000. *)
Definition space2 (b0 b1 : Z) : bool :=
  (b0 =? 194) && ((b1 =? 133) || (b1 =? 160)).

Definition space3 (b0 b1 b2 : Z) : bool :=
  ((b0 =? 225) && (b1 =? 154) && (b2 =? 128))
  || ((b0 =? 226) && (b1 =? 128)
      && (((128 <=? b2) && (b2 <=? 138)) || (b2 =? 168) || (b2 =? 169) || (b2 =? 175)))
  || ((b0 =? 226) && (b1 =? 129) && (b2 =? 159))
  || ((b0 =? 227) && (b1 =? 128) && (b2 =? 128)).

(** Leading white space removed: as long as the string starts with the
    encoding of a white-space rune, drop it. *)
Fixpoint trimLeftSpace (s : string) : string :=
  match s with
  | "" => ""
  | String a0 s1 =>
    if asciiSpace (byteZ a0) then trimLeftSpace s1
    else
      match s1 with
      | String a1 s2 =>
        if space2 (byteZ a0) (byteZ a1) then trimLeftSpace s2
        else
          match s2 with
          | String a2 s3 =>
            if space3 (byteZ a0) (byteZ a1) (byteZ a2) then trimLeftSpace s3 else s
          | "" => s
          end
      | "" => s
      end
  end.

(** The same from the end, on the reversed string: a rune decoded backwards
    is white space exactly when the string ends with its encoding. *)
Fixpoint trimSpaceRev (s : string) : string :=
  match s with
  | "" => ""
  | String a0 s1 =>
    if asciiSpace (byteZ a0) then trimSpaceRev s1
    else
      match s1 with
      | String a1 s2 =>
        if space2 (byteZ a1) (byteZ a0) then trimSpaceRev s2
        else
          match s2 with
          | String a2 s3 =>
            if space3 (byteZ a2) (byteZ a1) (byteZ a0) then trimSpaceRev s3 else s
          | "" => s
          end
      | "" => s
      end
  end.

Definition trimRightSpace (s : string) : string :=
  revString (trimSpaceRev (revString s "")) "".

Definition TrimSpace (s : string) : string := trimRightSpace (trimLeftSpace s).

(** [strings.Contains]. *)
Fixpoint Contains (s substr : string) : bool :=
  String.prefix substr s
  || match s with
     | "" => false
     | String _ s' => Contains s' substr
     end.

(** *** [strconv.Atoi]

    An optional sign and then decimal digits only; [None] is the error
    (syntax, or a value outside [int]). *)
Definition isDigitByte (b : Z) : bool := (48 <=? b) && (b <=? 57).

Fixpoint parseDigits (s : string) (acc : Z) : option Z :=
  match s with
  | "" => Some acc
  | String a s' =>
    if isDigitByte (byteZ a) then parseDigits s' (acc * 10 + (byteZ a - 48)) else None
  end.

Definition parseUnsigned (s : string) : option Z :=
  match s with
  | "" => None
  | _ => parseDigits s 0
  end.

Definition inInt (z : Z) : option Z :=
  if (MinInt <=? z) && (z <=? MaxInt) then Some z else None.

Definition Atoi (s : string) : option Z :=
  match s with
  | String "+" ds =>
    match parseUnsigned ds with Some v => inInt v | None => None end
  | String "-" ds =>
    match parseUnsigned ds with Some v => inInt (- v) | None => None end
  | _ =>
    match parseUnsigned s with Some v => inInt v | None => None end
  end.

(** *** [bufio.Scanner] with the default line splitter

    The first [Scan] over a reader that delivers the bytes [input]: the first
    line without its end-of-line marker (a line feed, and one carriage return
    before it if there is one), or [None] when [Scan] reports false: there is
    no input at all, or the line does not fit the scanner's buffer of
    [MaxScanTokenSize] bytes. *)
Definition MaxScanTokenSize : Z := 65536.

Fixpoint untilNewline (s : string) : string * bool :=
  match s with
  | "" => ("", false)
  | String a s' =>
    if (byteZ a =? 10) then ("", true)
    else let (l, nl) := untilNewline s' in (String a l, nl)
  end.

Definition dropCR (s : string) : string :=
  match revString s "" with
  | String a r => if byteZ a =? 13 then revString r "" else s
  | "" => s
  end.

Definition ScanLine (input : string) : option string :=
  match input with
  | "" => None
  | _ =>
    let (l, _) := untilNewline input in
    if slen l <? MaxScanTokenSize then Some (dropCR l) else None
  end.

(** *** [sort.Slice]

    [sort.Slice] leaves the slice ordered by [less]; it promises nothing on
    the relative order of elements neither of which is less than the other.
    The model inserts element by element, each one before the first element
    that is not less than it. *)
Fixpoint insertBy {A} (less : A -> A -> bool) (x : A) (l : list A) : list A :=
  match l with
  | [] => [x]
  | y :: l' => if less y x then y :: insertBy less x l' else x :: l
  end.

Fixpoint sort_Slice {A} (less : A -> A -> bool) (l : list A) : list A :=
  match l with
  | [] => []
  | x :: l' => insertBy less x (sort_Slice less l')
  end.

End Go.

(** ** Package [prompt] *)

Module prompt.

(** [prompt.Prompt]. The front matter (a [map[string]any]) is kept as a list
    of keys with their values printed; only the renderer reads it. *)
Record Prompt := {
  Name : string;
  Path : string;
  Content : string;
  FrontMatter : list (string * string);
  Tags : list string
}.

(** [prompt.Prompt{}]. *)
Definition zero : Prompt :=
  {| Name := ""; Path := ""; Content := ""; FrontMatter := []; Tags := [] |}.

End prompt.

(** ** Package [search] *)

Module search.

Import prompt.

(** Modelled from the spec: the declaration of [search.Options] is in package
    [search], which is not among the sources; [MaxResults] is the field the
    selector and the commands read and write ("maxResults: integer >= 0 (0
    means no cap)"). *)
Record Options := { MaxResults : Z }.

(** Modelled from the spec: "case-insensitively". A name's and a query's
    characters are their runes; the spec names no folding, letters A to Z are
    folded to lower case to compare them. *)
Definition foldCase (r : Go.rune) : Go.rune :=
  if (65 <=? r) && (r <=? 90) then r + 32 else r.

(** Modelled from the spec: two characters that match, case apart. *)
Definition sameChar (a b : Go.rune) : bool := foldCase a =? foldCase b.

(** Modelled from the spec: "a separator (space, hyphen, underscore)". *)
Definition isSeparator (r : Go.rune) : bool := (r =? 32) || (r =? 45) || (r =? 95).

(** Modelled from the spec: one matched character, with what the bonuses
    of section 4.1 look at: where it stands in the name, the rune before it
    there (if any), the name's rune and the query's rune. *)
Record Hit := {
  at_ : Z;
  before : option Go.rune;
  inName : Go.rune;
  inQuery : Go.rune
}.

(** Modelled from the spec: the subsequence match of section 4.1 ("the
    query's characters must appear in the candidate name in order,
    case-insensitively, but not necessarily contiguously"), taking each query
    character at its first possible place; [None] when the name has no such
    subsequence. *)
Fixpoint matchFrom (prev : option Go.rune) (pos : Z) (name q : list Go.rune)
  : option (list Hit) :=
  match q with
  | [] => Some []
  | c :: q' =>
    match name with
    | [] => None
    | n :: name' =>
      if sameChar c n then
        match matchFrom (Some n) (pos + 1) name' q' with
        | Some hs => Some ({| at_ := pos; before := prev; inName := n; inQuery := c |} :: hs)
        | None => None
        end
      else matchFrom (Some n) (pos + 1) name' q
    end
  end.

(** Modelled from the spec: "+1 per matched character" that satisfies
    [f]. *)
Definition count {A} (f : A -> bool) (l : list A) : Z := Go.len (filter f l).

(** Modelled from the spec: "+1 per pair of consecutively matched
    characters". *)
Fixpoint adjacentPairs (hs : list Hit) : Z :=
  match hs with
  | h :: ((h' :: _) as tl) =>
    (if at_ h' =? at_ h + 1 then 1 else 0) + adjacentPairs tl
  | _ => 0
  end.

(** Modelled from the spec: the score composition of section 4.1 (base score,
    contiguity bonus, start-of-name bonus, word-boundary bonus, case-match
    bonus). *)
Definition scoreOf (hs : list Hit) : Z :=
  Go.len hs
  + adjacentPairs hs
  + match hs with
    | h :: _ => if at_ h =? 0 then 2 else 0
    | [] => 0
    end
  + count (fun h => match before h with Some r => isSeparator r | None => false end) hs
  + count (fun h => inName h =? inQuery h) hs.

(** Modelled from the spec: the match score of a candidate's name, [None]
    for a candidate that is excluded. *)
Definition score (query name : string) : option Z :=
  match matchFrom None 0 (Go.stringToRunes name) (Go.stringToRunes query) with
  | Some hs => Some (scoreOf hs)
  | None => None
  end.

(** Modelled from the spec: "highest score wins ties broken by shorter name
    then lexicographic name". *)
Definition better (a b : prompt.Prompt * Z) : bool :=
  (snd b <? snd a)
  || ((snd a =? snd b)
      && ((Go.slen (prompt.Name (fst a)) <? Go.slen (prompt.Name (fst b)))
          || ((Go.slen (prompt.Name (fst a)) =? Go.slen (prompt.Name (fst b)))
              && (prompt.Name (fst a) <? prompt.Name (fst b))%string))).

(** Modelled from the spec: "case-sensitive lexicographic name order". *)
Definition byName (a b : prompt.Prompt) : bool :=
  (prompt.Name a <? prompt.Name b)%string.

(** Modelled from the spec: the candidates that match, each with its
    score, in the order of the candidate list. *)
Fixpoint scored (query : string) (candidates : list prompt.Prompt)
  : list (prompt.Prompt * Z) :=
  match candidates with
  | [] => []
  | p :: ps =>
    match score query (prompt.Name p) with
    | Some v => (p, v) :: scored query ps
    | None => scored query ps
    end
  end.

(** Modelled from the spec: "If options.maxResults > 0, truncate to that
    count after sorting. A maxResults of 0 means unlimited." *)
Definition truncate {A} (opts : Options) (l : list A) : list A :=
  if 0 <? MaxResults opts then firstn (Z.to_nat (MaxResults opts)) l else l.

(** Modelled from the spec: [search.Search], the ranking engine of section
    4.1, whose source (package [search]) is not among the sources. An empty
    query gives every candidate in name order; any other query gives the
    candidates that match it, best score first; both cut at [MaxResults] when
    that is positive. *)
Definition Search (candidates : list prompt.Prompt) (query : string) (opts : Options)
  : list prompt.Prompt :=
  if (query =? "")%string then truncate opts (Go.sort_Slice byName candidates)
  else truncate opts (map fst (Go.sort_Slice better (scored query candidates))).

End search.

(** ** Package [tea] (bubbletea): the messages the selector receives *)

Module tea.

(** The key types the selector's switch names, a few it does not, and
    [KeyOther] for every remaining key type, with its name. *)
Inductive KeyType :=
| KeyRunes
| KeyEnter | KeyEsc | KeyCtrlC
| KeyBackspace | KeyDelete | KeyCtrlH
| KeyUp | KeyDown | KeyCtrlP | KeyCtrlN | KeyCtrlU
| KeyTab | KeySpace | KeyLeft | KeyRight
| KeyOther (name : string).

Definition keyNames (t : KeyType) : string :=
  match t with
  | KeyRunes => "runes"
  | KeyEnter => "enter"
  | KeyEsc => "esc"
  | KeyCtrlC => "ctrl+c"
  | KeyBackspace => "backspace"
  | KeyDelete => "delete"
  | KeyCtrlH => "ctrl+h"
  | KeyUp => "up"
  | KeyDown => "down"
  | KeyCtrlP => "ctrl+p"
  | KeyCtrlN => "ctrl+n"
  | KeyCtrlU => "ctrl+u"
  | KeyTab => "tab"
  | KeySpace => " "
  | KeyLeft => "left"
  | KeyRight => "right"
  | KeyOther name => name
  end.

(** [tea.Key], which is also [tea.KeyMsg]. *)
Record Key := {
  Type_ : KeyType;
  Runes : list Go.rune;
  Alt : bool;
  Paste : bool
}.

(** [Key.String]: the runes themselves for [KeyRunes] (between brackets when
    pasted), the key's name otherwise; [alt+] in front when Alt is held. *)
Definition String_ (k : Key) : string :=
  ((if Alt k then "alt+" else "")
   ++ match Type_ k with
      | KeyRunes =>
        if Paste k then "[" ++ Go.runesToString (Runes k) ++ "]"
        else Go.runesToString (Runes k)
      | t => keyNames t
      end)%string.

Inductive Msg :=
| KeyMsg (k : Key)
| WindowSizeMsg (Width Height : Z)
| OtherMsg.

(** A [tea.Cmd] the selector returns: [nil] or [tea.Quit]. *)
Inductive Cmd := CmdNil | CmdQuit.

(** A key pressed alone, and typed runes. *)
Definition press (t : KeyType) : Msg :=
  KeyMsg {| Type_ := t; Runes := []; Alt := false; Paste := false |}.

Definition typed (rs : list Go.rune) : Msg :=
  KeyMsg {| Type_ := KeyRunes; Runes := rs; Alt := false; Paste := false |}.

End tea.

(** ** Package [ui] *)

Module ui.

Import prompt.

Inductive error :=
| ErrNoPrompts
| ErrInvalidSelection
| ErrProgram (msg : string).

(** [err.Error()]. *)
Definition Error (e : error) : string :=
  match e with
  | ErrNoPrompts => "no prompts available"
  | ErrInvalidSelection => "invalid selection"
  | ErrProgram msg => msg
  end.

(** [errors.Is(err, ErrInvalidSelection)]. *)
Definition isInvalidSelection (e : error) : bool :=
  match e with
  | ErrInvalidSelection => true
  | _ => false
  end.

(** What a call of a function of type [(prompt.Prompt, error)] does: it
    returns its pair, panics, or waits for input that does not come. *)
Inductive outcome :=
| Returns (p : Prompt) (err : option error)
| Panics
| Blocks.

Record Options := { TruncateLength : Z }.

Definition defaultTruncateLength : Z := 120.

Definition normalizeOptions (opts : Options) : Options :=
  if TruncateLength opts <=? 0 then {| TruncateLength := defaultTruncateLength |}
  else opts.

Inductive selectorMode := modeFilter | modeNavigate.

Record selectorModel := {
  allPrompts : list Prompt;
  filtered : list Prompt;
  cursor : Z;
  cancelled : bool;
  width : Z;
  height : Z;
  ready : bool;
  query : string;
  filterOpts : search.Options;
  uiOpts : Options;
  mode : selectorMode
}.

Definition set_filtered (v : list Prompt) (m : selectorModel) : selectorModel :=
  {| allPrompts := allPrompts m; filtered := v; cursor := cursor m;
     cancelled := cancelled m; width := width m; height := height m;
     ready := ready m; query := query m; filterOpts := filterOpts m;
     uiOpts := uiOpts m; mode := mode m |}.

Definition set_cursor (v : Z) (m : selectorModel) : selectorModel :=
  {| allPrompts := allPrompts m; filtered := filtered m; cursor := v;
     cancelled := cancelled m; width := width m; height := height m;
     ready := ready m; query := query m; filterOpts := filterOpts m;
     uiOpts := uiOpts m; mode := mode m |}.

Definition set_cancelled (v : bool) (m : selectorModel) : selectorModel :=
  {| allPrompts := allPrompts m; filtered := filtered m; cursor := cursor m;
     cancelled := v; width := width m; height := height m;
     ready := ready m; query := query m; filterOpts := filterOpts m;
     uiOpts := uiOpts m; mode := mode m |}.

Definition set_size (w h : Z) (m : selectorModel) : selectorModel :=
  {| allPrompts := allPrompts m; filtered := filtered m; cursor := cursor m;
     cancelled := cancelled m; width := w; height := h;
     ready := true; query := query m; filterOpts := filterOpts m;
     uiOpts := uiOpts m; mode := mode m |}.

Definition set_query (v : string) (m : selectorModel) : selectorModel :=
  {| allPrompts := allPrompts m; filtered := filtered m; cursor := cursor m;
     cancelled := cancelled m; width := width m; height := height m;
     ready := ready m; query := v; filterOpts := filterOpts m;
     uiOpts := uiOpts m; mode := mode m |}.

Definition set_mode (v : selectorMode) (m : selectorModel) : selectorModel :=
  {| allPrompts := allPrompts m; filtered := filtered m; cursor := cursor m;
     cancelled := cancelled m; width := width m; height := height m;
     ready := ready m; query := query m; filterOpts := filterOpts m;
     uiOpts := uiOpts m; mode := v |}.

Definition toggleMode (m : selectorModel) : selectorModel :=
  match mode m with
  | modeFilter => set_mode modeNavigate m
  | _ => set_mode modeFilter m
  end.

(** [sortPrompts]: [sort.Slice] with [prompts[i].Name < prompts[j].Name]. *)
Definition sortPrompts (prompts : list Prompt) : list Prompt :=
  Go.sort_Slice (fun a b => (Name a <? Name b)%string) prompts.

Definition moveUp (m : selectorModel) : selectorModel :=
  if Go.len (filtered m) =? 0 then m
  else if cursor m =? 0 then set_cursor (Go.int_sub (Go.len (filtered m)) 1) m
  else set_cursor (Go.int_sub (cursor m) 1) m.

Definition moveDown (m : selectorModel) : selectorModel :=
  if Go.len (filtered m) =? 0 then m
  else set_cursor (Go.int_rem (Go.int_add (cursor m) 1) (Go.len (filtered m))) m.

Definition isDigits (runes : list Go.rune) : bool :=
  if Go.len runes =? 0 then false
  else forallb (fun r => negb ((r <? 48) || (r >? 57))) runes.

Section WithSearch.

(** [search.Search], of package [search]. *)
Variable Search : list Prompt -> string -> search.Options -> list Prompt.

Definition applyQuery (query0 : string) (m : selectorModel) : selectorModel :=
  let m := set_query query0 m in
  let trimmed := Go.TrimSpace query0 in
  let m :=
    if (trimmed =? "")%string then set_filtered (sortPrompts (allPrompts m)) m
    else
      let opts := filterOpts m in
      let opts :=
        if (search.MaxResults opts <=? 0)
           || (search.MaxResults opts >? Go.len (allPrompts m))
        then {| search.MaxResults := Go.len (allPrompts m) |}
        else opts in
      set_filtered (Search (allPrompts m) trimmed opts) m in
  if Go.len (filtered m) =? 0 then set_cursor 0 m
  else
    let m :=
      if cursor m >=? Go.len (filtered m)
      then set_cursor (Go.int_sub (Go.len (filtered m)) 1) m
      else m in
    if negb (trimmed =? "")%string then set_cursor 0 m else m.

Definition newSelectorModel (prompts : list Prompt) (initialQuery : string)
    (opts : search.Options) (uiOpts0 : Options) : selectorModel :=
  applyQuery initialQuery
    {| allPrompts := prompts; filtered := []; cursor := 0; cancelled := false;
       width := 0; height := 0; ready := false; query := "";
       filterOpts := opts; uiOpts := normalizeOptions uiOpts0;
       mode := modeFilter |}.

Definition backspace (m : selectorModel) : selectorModel :=
  if (query m =? "")%string then m
  else
    let runes := Go.stringToRunes (query m) in
    applyQuery (Go.runesToString (removelast runes)) m.

Definition clearQuery (m : selectorModel) : selectorModel :=
  if (query m =? "")%string then m else applyQuery "" m.

Definition handleRunes (runes : list Go.rune) (m : selectorModel)
  : selectorModel * tea.Cmd :=
  if Go.len runes =? 0 then (m, tea.CmdNil)
  else
    match mode m with
    | modeNavigate =>
      (match runes with
       | [r] =>
         if (r =? 106) || (r =? 74) then moveDown m
         else if (r =? 107) || (r =? 75) then moveUp m
         else m
       | _ => m
       end, tea.CmdNil)
    | modeFilter =>
      if (query m =? "")%string && isDigits runes then
        (match Go.Atoi (Go.runesToString runes) with
         | Some idx =>
           if (idx >=? 1) && (idx <=? Go.len (filtered m))
           then set_cursor (Go.int_sub idx 1) m
           else m
         | None => m
         end, tea.CmdNil)
      else (applyQuery (query m ++ Go.runesToString runes) m, tea.CmdNil)
    end.

(** The key switch of [Update] either returns from [Update] or falls out of
    the switch with the model it has reached. *)
Inductive switched :=
| Return_ (m : selectorModel) (c : tea.Cmd)
| FallOut (m : selectorModel).

Definition isOneOf (s : string) (names : list string) : bool :=
  existsb (String.eqb s) names.

Definition keySwitch (key : string) (m : selectorModel) : switched :=
  if isOneOf key ["esc"] then Return_ (toggleMode m) tea.CmdNil
  else if isOneOf key ["ctrl+c"] then Return_ (set_cancelled true m) tea.CmdQuit
  else if isOneOf key ["backspace"; "delete"; "ctrl+h"] then
    match mode m with
    | modeNavigate => Return_ m tea.CmdNil
    | _ => Return_ (backspace m) tea.CmdNil
    end
  else if isOneOf key ["enter"] then
    Return_ (if Go.len (filtered m) =? 0 then set_cancelled true m else m) tea.CmdQuit
  else if isOneOf key ["up"; "ctrl+p"] then FallOut (moveUp m)
  else if isOneOf key ["down"; "ctrl+n"] then FallOut (moveDown m)
  else if isOneOf key ["ctrl+u"] then
    match mode m with
    | modeNavigate => Return_ m tea.CmdNil
    | _ => FallOut (clearQuery m)
    end
  else if isOneOf key ["j"] then
    match mode m with
    | modeNavigate => Return_ (moveDown m) tea.CmdNil
    | _ => FallOut m
    end
  else if isOneOf key ["k"] then
    match mode m with
    | modeNavigate => Return_ (moveUp m) tea.CmdNil
    | _ => FallOut m
    end
  else FallOut m.

Definition Update (msg : tea.Msg) (m : selectorModel) : selectorModel * tea.Cmd :=
  match msg with
  | tea.KeyMsg k =>
    match keySwitch (tea.String_ k) m with
    | Return_ m' c => (m', c)
    | FallOut m' =>
      match tea.Type_ k with
      | tea.KeyRunes =>
        if Go.len (tea.Runes k) >? 0 then handleRunes (tea.Runes k) m'
        else (m', tea.CmdNil)
      | _ => (m', tea.CmdNil)
      end
    end
  | tea.WindowSizeMsg w h => (set_size w h m, tea.CmdNil)
  | tea.OtherMsg => (m, tea.CmdNil)
  end.

(** *** Running the program

    What the terminal delivers to the program: messages, until the program
    fails with an error or no message comes any more. *)
Inductive Feed :=
| Deliver (msg : tea.Msg) (rest : Feed)
| Breaks (msg : string)
| Silent.

(** [prog.StartReturningModel()]: the messages go through [Update] until one
    answers [tea.Quit], which ends the program with the model reached then;
    [None] when the program is left waiting. *)
Fixpoint StartReturningModel (m : selectorModel) (feed : Feed)
  : option (selectorModel * option error) :=
  match feed with
  | Deliver msg rest =>
    match Update msg m with
    | (m', tea.CmdQuit) => Some (m', None)
    | (m', tea.CmdNil) => StartReturningModel m' rest
    end
  | Breaks msg => Some (m, Some (ErrProgram msg))
  | Silent => None
  end.

(** What [runInteractiveSelector] returns from the final model. *)
Definition selection (sel : selectorModel) : outcome :=
  if cancelled sel || (Go.len (filtered sel) =? 0)
  then Returns prompt.zero (Some ErrInvalidSelection)
  else
    match Go.index (filtered sel) (cursor sel) with
    | Some p => Returns p None
    | None => Panics
    end.

Definition runInteractiveSelector (prompts : list Prompt) (initialQuery : string)
    (opts : search.Options) (uiOpts0 : Options) (feed : Feed) : outcome :=
  let model := newSelectorModel prompts initialQuery opts uiOpts0 in
  match StartReturningModel model feed with
  | None => Blocks
  | Some (_, Some err) => Returns prompt.zero (Some err)
  | Some (sel, None) => selection sel
  end.

Section WithFolding.

(** [strings.EqualFold] and [strings.ToLower] (Unicode case folding). *)
Variable EqualFold : string -> string -> bool.
Variable ToLower : string -> string.

(** The lines written to [out] have no part in the value returned and are
    left out. [input] is what [in] delivers to the scanner. *)
Definition selectPromptFallback (prompts : list Prompt) (input : string) : outcome :=
  let at0 :=
    match Go.index prompts 0 with
    | Some p => Returns p None
    | None => Panics
    end in
  match Go.ScanLine input with
  | None => at0
  | Some line =>
    let text := Go.TrimSpace line in
    if (text =? "")%string then at0
    else
      match Go.Atoi text with
      | Some idx =>
        if (idx <? 1) || (idx >? Go.len prompts)
        then Returns prompt.zero (Some ErrInvalidSelection)
        else
          match Go.index prompts (Go.int_sub idx 1) with
          | Some p => Returns p None
          | None => Panics
          end
      | None =>
        match find (fun p => EqualFold (Name p) text) prompts with
        | Some p => Returns p None
        | None =>
          match filter (fun p => Go.Contains (ToLower (Name p)) (ToLower text)) prompts with
          | p :: _ => Returns p None
          | [] => Returns prompt.zero (Some ErrInvalidSelection)
          end
        end
      end
  end.

(** The reader [in] and the writer [out]: whether each is a terminal, and
    what [in] delivers, to the program as messages and to a scanner as
    bytes. *)
Record Reader := { inTerminal : bool; inFeed : Feed; inBytes : string }.
Record Writer := { outTerminal : bool }.

Definition SelectPromptWithQuery (prompts : list Prompt) (initialQuery : string)
    (opts : search.Options) (uiOpts0 : Options) (in_ : Reader) (out : Writer)
  : outcome :=
  if Go.len prompts =? 0 then Returns prompt.zero (Some ErrNoPrompts)
  else
    let uiOpts1 := normalizeOptions uiOpts0 in
    let fallback :=
      let trimmed := Go.TrimSpace initialQuery in
      let display :=
        if negb (trimmed =? "")%string then
          let matches := Search prompts trimmed opts in
          if Go.len matches >? 0 then matches else prompts
        else prompts in
      selectPromptFallback display (inBytes in_) in
    if inTerminal in_ && outTerminal out then
      match runInteractiveSelector prompts initialQuery opts uiOpts1 (inFeed in_) with
      | Returns selected None => Returns selected None
      | Returns _ (Some err) =>
        if isInvalidSelection err then Returns prompt.zero (Some err) else fallback
      | Panics => Panics
      | Blocks => Blocks
      end
    else fallback.

Definition SelectPrompt (prompts : list Prompt) (in_ : Reader) (out : Writer) : outcome :=
  SelectPromptWithQuery prompts "" {| search.MaxResults := 0 |}
    {| TruncateLength := 0 |} in_ out.

End WithFolding.

End WithSearch.

End ui.

(** ** The vocabulary of the properties *)

Module props.

Import prompt ui.

(** The cursor points into the filtered view, and is 0 when the view is
    empty. *)
Definition cursorInv (m : selectorModel) : Prop :=
  (filtered m = [] -> cursor m = 0)
  /\ (filtered m <> [] -> 0 <= cursor m < Go.len (filtered m)).

(** Every slice has a length that is an [int]. *)
Definition slicesFit (m : selectorModel) : Prop :=
  Go.len (allPrompts m) <= Go.MaxInt /\ Go.len (filtered m) <= Go.MaxInt.

(** After the key switch the cursor is still in place; when control falls
    out of the switch, the slices still fit. *)
Definition switchedWell (sw : switched) : Prop :=
  match sw with
  | Return_ m _ => cursorInv m
  | FallOut m => cursorInv m /\ slicesFit m
  end.

(** Ascending names, compared byte by byte. *)
Definition nameLe (a b : Prompt) : Prop := (Name a <=? Name b)%string = true.

Definition ascendingNames (l : list Prompt) : Prop := Sorted nameLe l.

(** [q] is a subsequence of [name], letter case apart: the runes of [q] occur
    in [name] in the same order, not necessarily side by side. *)
Inductive subseqFold : list Go.rune -> list Go.rune -> Prop :=
| subseq_nil : forall name, subseqFold [] name
| subseq_take : forall c q n name,
    search.foldCase c = search.foldCase n ->
    subseqFold q name -> subseqFold (c :: q) (n :: name)
| subseq_skip : forall q n name,
    subseqFold q name -> subseqFold q (n :: name).

Definition matchesName (query : string) (p : Prompt) : Prop :=
  subseqFold (Go.stringToRunes query) (Go.stringToRunes (Name p)).

(** The view that belongs to a query: what the filter step computes from
    the model's prompts and options. *)
Definition viewOf (Search : list Prompt -> string -> search.Options -> list Prompt)
    (m : selectorModel) (q : string) : list Prompt :=
  if (Go.TrimSpace q =? "")%string then sortPrompts (allPrompts m)
  else Search (allPrompts m) (Go.TrimSpace q)
         (if (search.MaxResults (filterOpts m) <=? 0)
             || (search.MaxResults (filterOpts m) >? Go.len (allPrompts m))
          then {| search.MaxResults := Go.len (allPrompts m) |}
          else filterOpts m).

(** The filtered view is the view of the current query. *)
Definition viewed (Search : list Prompt -> string -> search.Options -> list Prompt)
    (m : selectorModel) : Prop :=
  filtered m = viewOf Search m (query m).

(** The states of the selector: the models [newSelectorModel] builds, and
    those [Update] makes of them. *)
Inductive reachable (Search : list Prompt -> string -> search.Options -> list Prompt)
  : selectorModel -> Prop :=
| reach_new : forall prompts q opts ui0,
    reachable Search (newSelectorModel Search prompts q opts ui0)
| reach_step : forall m msg,
    reachable Search m -> reachable Search (fst (Update Search msg m)).

(** While runes are typed and deleted in typing mode: the prompts and
    options are those of the start, the view is the query's, and the query
    spells at most [n] runes. *)
Definition typing (Search : list Prompt -> string -> search.Options -> list Prompt)
    (m0 : selectorModel) (n : nat) (m : selectorModel) : Prop :=
  mode m = modeFilter /\ allPrompts m = allPrompts m0
  /\ filterOpts m = filterOpts m0 /\ viewed Search m
  /\ exists rs, query m = Go.runesToString rs /\ (List.length rs <= n)%nat.

(** While keys arrive in navigation mode: only the cursor moves. *)
Definition browsing (m0 m : selectorModel) : Prop :=
  mode m = modeNavigate /\ allPrompts m = allPrompts m0
  /\ filtered m = filtered m0 /\ query m = query m0.

(** The first bytes of the key names the switch of [Update] lists. *)
Definition startsKeyName (a : ascii) : bool :=
  existsb (Ascii.eqb a) ["e"; "c"; "b"; "d"; "u"; "j"; "k"]%char.

(** The number of runes of the query. *)
Definition typedRunes (m : selectorModel) : nat :=
  List.length (Go.stringToRunes (query m)).

(** A run of messages through [Update], whatever commands come back. *)
Definition feedAll (Search : list Prompt -> string -> search.Options -> list Prompt)
    (msgs : list tea.Msg) (m : selectorModel) : selectorModel :=
  fold_left (fun m msg => fst (Update Search msg m)) msgs m.

(** A character typed: a key message of type [KeyRunes] with one rune. *)
Definition oneRune (msg : tea.Msg) : Prop :=
  match msg with
  | tea.KeyMsg k => tea.Type_ k = tea.KeyRunes /\ exists r, tea.Runes k = [r]
  | _ => False
  end.

End props.

(** ** Sample data, after the repository's tests *)

Module sample.

Import prompt ui.

Definition named (name : string) : Prompt :=
  {| Name := name; Path := ""; Content := ""; FrontMatter := []; Tags := [] |}.

Definition alphaBetaAlpine : list Prompt := [named "alpha"; named "beta"; named "alpine"].
Definition alphaBetaGamma : list Prompt := [named "alpha"; named "beta"; named "gamma"].
Definition briefs : list Prompt :=
  [named "brainstorm"; named "product-brief"; named "code-review"].

Definition noCap : search.Options := {| search.MaxResults := 0 |}.
Definition plain : Options := {| TruncateLength := 0 |}.

(** The model the tests build: [newSelectorModel(prompts, query,
    search.Options{}, Options{})], over the ranking engine as specified. *)
Definition model (prompts : list Prompt) (query0 : string) : selectorModel :=
  newSelectorModel search.Search prompts query0 noCap plain.

(** The same with the cursor on the last of its three entries. *)
Definition atLast : selectorModel := set_cursor 2 (model alphaBetaGamma "").

(** The keys [a], [l], [p], one message each; the key [2]; the key [5]. *)
Definition alp : list tea.Msg := [tea.typed [97]; tea.typed [108]; tea.typed [112]].
Definition key2 : tea.Key :=
  {| tea.Type_ := tea.KeyRunes; tea.Runes := [50]; tea.Alt := false; tea.Paste := false |}.
Definition key5 : tea.Key :=
  {| tea.Type_ := tea.KeyRunes; tea.Runes := [53]; tea.Alt := false; tea.Paste := false |}.

Definition newline : string := String (Go.zbyte 10) "".
Definition carriageReturn : string := String (Go.zbyte 13) "".

Definition names (m : selectorModel) : list string := map Name (filtered m).

(** A model whose query matches nothing. *)
Definition nothingFound : selectorModel := model alphaBetaAlpine "zzz".

(** Case folding on the letters A to Z only, for inputs without other
    letters. *)
Definition lowerByte (a : ascii) : ascii :=
  if (65 <=? Go.byteZ a) && (Go.byteZ a <=? 90) then Go.zbyte (Go.byteZ a + 32) else a.

Fixpoint asciiToLower (s : string) : string :=
  match s with
  | "" => ""
  | String a s' => String (lowerByte a) (asciiToLower s')
  end.

Definition asciiEqualFold (a b : string) : bool :=
  (asciiToLower a =? asciiToLower b)%string.

Definition pipe (input : string) : Reader :=
  {| inTerminal := false; inFeed := Silent; inBytes := input |}.

Definition terminal (feed : Feed) : Reader :=
  {| inTerminal := true; inFeed := feed; inBytes := "" |}.

Definition buffer : Writer := {| outTerminal := false |}.
Definition screen : Writer := {| outTerminal := true |}.

Definition selectFrom (prompts : list Prompt) (in_ : Reader) (out : Writer) : outcome :=
  SelectPrompt search.Search asciiEqualFold asciiToLower prompts in_ out.

End sample.

(** ** More of Go's library *)

Module GoText.

(** [strings.Split(s, sep)] for a separator of one byte, given by a test on
    bytes: the pieces between the separators, one more than there are
    separators. *)
Fixpoint splitWhere (isSep : Z -> bool) (s : string) : list string :=
  match s with
  | "" => [""]
  | String a s' =>
    if isSep (Go.byteZ a) then "" :: splitWhere isSep s'
    else
      match splitWhere isSep s' with
      | piece :: pieces => String a piece :: pieces
      | [] => [String a ""]
      end
  end.

Definition isNewline (b : Z) : bool := b =? 10.
Definition isComma (b : Z) : bool := b =? 44.

(** [strings.Split(s, "\n")] and [strings.Split(s, ",")]. *)
Definition SplitLines (s : string) : list string := splitWhere isNewline s.
Definition SplitCommas (s : string) : list string := splitWhere isComma s.

(** [strings.Join(elems, sep)]. *)
Fixpoint Join (elems : list string) (sep : string) : string :=
  match elems with
  | [] => ""
  | [x] => x
  | x :: rest => (x ++ sep ++ Join rest sep)%string
  end.

(** [strings.FieldsFunc(s, f)] for a test [f] that only bytes below 128
    pass: the pieces between separators that are not empty. *)
Definition FieldsFunc (isSep : Z -> bool) (s : string) : list string :=
  filter (fun piece => negb (piece =? "")%string) (splitWhere isSep s).

(** [strings.TrimRight(s, cutset)] for a cutset of bytes below 128. *)
Fixpoint dropLeading (cut : Z -> bool) (s : string) : string :=
  match s with
  | "" => ""
  | String a s' => if cut (Go.byteZ a) then dropLeading cut s' else s
  end.

Definition TrimRight (cut : Z -> bool) (s : string) : string :=
  Go.revString (dropLeading cut (Go.revString s "")) "".

(** [utf8.RuneCountInString]. *)
Definition RuneCountInString (s : string) : Z := Go.len (Go.stringToRunes s).

(** [a / b] on [int]s, for a divisor that is not -1: it truncates towards
    zero. *)
Definition int_quot (a b : Z) : Z := Z.quot a b.

(** No byte of [s] passes the test. *)
Fixpoint noByte (test : Z -> bool) (s : string) : bool :=
  match s with
  | "" => true
  | String a s' => negb (test (Go.byteZ a)) && noByte test s'
  end.

(** [strings.Fields(s)]: the pieces between runs of white space, none of
    them empty. [word] holds the bytes of the piece being read, last byte
    first. *)
Definition flush (word : string) : list string :=
  if (word =? "")%string then [] else [Go.revString word ""].

Fixpoint fieldsLoop (word s : string) : list string :=
  match s with
  | "" => flush word
  | String a0 s1 =>
    if Go.asciiSpace (Go.byteZ a0) then (flush word ++ fieldsLoop "" s1)%list
    else
      match s1 with
      | String a1 s2 =>
        if Go.space2 (Go.byteZ a0) (Go.byteZ a1)
        then (flush word ++ fieldsLoop "" s2)%list
        else
          match s2 with
          | String a2 s3 =>
            if Go.space3 (Go.byteZ a0) (Go.byteZ a1) (Go.byteZ a2)
            then (flush word ++ fieldsLoop "" s3)%list
            else fieldsLoop (String a0 word) s1
          | "" => fieldsLoop (String a0 word) s1
          end
      | "" => fieldsLoop (String a0 word) s1
      end
  end.

Definition Fields (s : string) : list string := fieldsLoop "" s.

End GoText.

(** ** Package [ui]: what the view shows *)

Module render.

Import prompt.

(** [visibleRange]: the window of [maxItems] entries shown around the
    cursor. *)
Definition visibleRange (total cursor maxItems : Z) : Z * Z :=
  if total <=? maxItems then (0, total)
  else
    let cursor := if cursor <? 0 then 0 else cursor in
    let start := Go.int_sub cursor (GoText.int_quot maxItems 2) in
    let start := if start <? 0 then 0 else start in
    let start :=
      if Go.int_add start maxItems >? total then Go.int_sub total maxItems
      else start in
    (start, Go.int_add start maxItems).

(** The loop of [stripANSI] over the runes of the text; [skip] is set inside
    an escape sequence, which a letter ends. *)
Fixpoint stripRunes (skip : bool) (rs : list Go.rune) : list Go.rune :=
  match rs with
  | [] => []
  | r :: rs' =>
    if r =? 27 then stripRunes true rs'
    else if skip then
      if ((r >=? 97) && (r <=? 122)) || ((r >=? 65) && (r <=? 90))
      then stripRunes false rs'
      else stripRunes true rs'
    else r :: stripRunes false rs'
  end.

Definition stripANSI (text : string) : string :=
  Go.runesToString (stripRunes false (Go.stringToRunes text)).

Definition displayWidth (text : string) : Z :=
  GoText.RuneCountInString (stripANSI text).

(** The string ["…"]: the three bytes of U+2026. *)
Definition ellipsis : string :=
  String (Go.zbyte 226) (String (Go.zbyte 128) (String (Go.zbyte 166) "")).

Definition truncate (text : string) (length : Z) : string :=
  if length <=? 0 then ""
  else if displayWidth text <=? length then text
  else
    let runes := Go.stringToRunes text in
    if Go.len runes <=? length then text
    else if length <=? 1 then ellipsis
    else (Go.runesToString (firstn (Z.to_nat (Go.int_sub length 1)) runes) ++ ellipsis)%string.

Definition limitText (text : string) (limit : Z) : string :=
  if limit <=? 0 then text else truncate text limit.

(** [highlight]: the text between the escape sequences ESC[38;5;213m and
    ESC[0m. *)
Definition escape : string := String (Go.zbyte 27) "".

Definition highlight (text : string) : string :=
  (escape ++ "[38;5;213m" ++ text ++ escape ++ "[0m")%string.

Definition renderPromptTitle (p : Prompt) (width truncateLength : Z) : string :=
  let limit := Go.int_sub width 4 in
  let limit :=
    if (truncateLength >? 0) && (truncateLength <? limit) then truncateLength
    else limit in
  let name := truncate (Name p) limit in
  if Go.len (Tags p) =? 0 then name
  else
    let tagLine := GoText.Join (Tags p) ", " in
    let full := (name ++ "  [" ++ tagLine ++ "]")%string in
    truncate full limit.

Definition newline : string := String (Go.zbyte 10) "".

Definition indent (text prefix : string) : string :=
  if (text =? "")%string then ""
  else GoText.Join (map (fun line => (prefix ++ line)%string) (GoText.SplitLines text)) newline.

Definition snippet (content : string) (maxLines : Z) : string :=
  if maxLines <=? 0 then ""
  else
    let lines := GoText.SplitLines (Go.TrimSpace content) in
    if Go.len lines =? 0 then ""
    else
      let lines :=
        if Go.len lines >? maxLines
        then (firstn (Z.to_nat maxLines) lines ++ [ellipsis])%list
        else lines in
      GoText.Join lines newline.

(** The loop of [wrap] over the words: [lines] are the lines closed so far,
    [cursor] the line being filled; and what follows the loop. *)
Fixpoint wrapLoop (limit : Z) (lines : list string) (cursor : string)
    (words : list string) : list string :=
  match words with
  | [] => if negb (cursor =? "")%string then (lines ++ [cursor])%list else lines
  | word :: rest =>
    if Go.slen cursor =? 0 then wrapLoop limit lines word rest
    else if displayWidth (cursor ++ " " ++ word) >? limit
         then wrapLoop limit (lines ++ [cursor])%list word rest
         else wrapLoop limit lines (cursor ++ " " ++ word)%string rest
  end.

Definition wrap (text : string) (limit : Z) : string :=
  if limit <=? 0 then text
  else GoText.Join (wrapLoop limit [] "" (GoText.Fields text)) newline.

(** A line of wrapped text is as it should be: one of the words, or no wider
    than the limit. *)
Definition lineFits (limit : Z) (words : list string) (line : string) : Prop :=
  In line words \/ displayWidth line <= limit.

End render.

(** ** Package [config] *)

Module config.

Record FileSystemSettings := {
  Extensions : list string;
  IgnorePatterns : list string;
  MaxFileSizeKB : Z
}.

Record FuzzySearchSettings := { MaxResults : Z }.

Record UISettings := { TruncateLength : Z }.

Record Settings := {
  DefaultDirs : list string;
  CacheDir : string;
  FileSystem : FileSystemSettings;
  FuzzySearch : FuzzySearchSettings;
  UI : UISettings
}.

#[local] Set Warnings "-register-all".

(** A value of type [interface{}] as the decoder leaves it: nothing, a
    string, a list of values, a list of strings, or something else. *)
Inductive any :=
| AnyNil
| AnyString (s : string)
| AnyList (items : list any)
| AnyStrings (items : list string)
| AnyOther.

Record rawSettings := {
  rawDefaultDirs : any;
  rawCacheDir : string;
  rawFileSystem : FileSystemSettings;
  rawFuzzySearch : FuzzySearchSettings;
  rawUI : UISettings
}.

Definition parseStringOrSlice (v : any) : list string :=
  match v with
  | AnyNil => []
  | AnyString val => [val]
  | AnyList val =>
    flat_map (fun item => match item with AnyString str => [str] | _ => [] end) val
  | AnyStrings val => val
  | AnyOther => []
  end.

Definition defaults : Settings :=
  {| DefaultDirs := ["~/prompts"];
     CacheDir := "~/.cache/pmc";
     FileSystem := {| Extensions := [".md"; ".txt"];
                      IgnorePatterns := [".DS_Store"];
                      MaxFileSizeKB := 128 |};
     FuzzySearch := {| MaxResults := 20 |};
     UI := {| TruncateLength := 120 |} |}.

(** What reading and decoding the settings file gives: no file that can be
    read, a file that does not decode, or the decoded settings. *)
Inductive file :=
| Unreadable
| Malformed
| Decoded (raw : rawSettings).

(** [Load]: the settings of the file over the defaults, field by field. *)
Definition Load (f : file) : Settings :=
  match f with
  | Unreadable => defaults
  | Malformed => defaults
  | Decoded raw =>
    let defaultDirs := parseStringOrSlice (rawDefaultDirs raw) in
    {| DefaultDirs :=
         if Go.len defaultDirs >? 0 then defaultDirs else DefaultDirs defaults;
       CacheDir :=
         if negb (rawCacheDir raw =? "")%string then rawCacheDir raw
         else CacheDir defaults;
       FileSystem :=
         {| Extensions :=
              if Go.len (Extensions (rawFileSystem raw)) >? 0
              then Extensions (rawFileSystem raw)
              else Extensions (FileSystem defaults);
            IgnorePatterns :=
              if Go.len (IgnorePatterns (rawFileSystem raw)) >? 0
              then IgnorePatterns (rawFileSystem raw)
              else IgnorePatterns (FileSystem defaults);
            MaxFileSizeKB :=
              if MaxFileSizeKB (rawFileSystem raw) >? 0
              then MaxFileSizeKB (rawFileSystem raw)
              else MaxFileSizeKB (FileSystem defaults) |};
       FuzzySearch :=
         {| MaxResults :=
              if MaxResults (rawFuzzySearch raw) >? 0
              then MaxResults (rawFuzzySearch raw)
              else MaxResults (FuzzySearch defaults) |};
       UI :=
         {| TruncateLength :=
              if TruncateLength (rawUI raw) >? 0
              then TruncateLength (rawUI raw)
              else TruncateLength (UI defaults) |} |}
  end.

End config.

(** ** Package [prompt]: tags *)

Module tags.

Section WithLower.

(** [strings.ToLower]. *)
Variable ToLower : string -> string.

Definition seenBefore (key : string) (seen : list string) : bool :=
  existsb (String.eqb key) seen.

(** The loop of [cleanSlice]: [cleaned] is the slice built so far, [seen]
    the keys of the map. *)
Fixpoint cleanLoop (cleaned seen : list string) (values : list string) : list string :=
  match values with
  | [] => cleaned
  | value :: rest =>
    let tag := Go.TrimSpace value in
    if (tag =? "")%string then cleanLoop cleaned seen rest
    else
      let tagLower := ToLower tag in
      if seenBefore tagLower seen then cleanLoop cleaned seen rest
      else cleanLoop (cleaned ++ [tag])%list (tagLower :: seen) rest
  end.

Definition cleanSlice (values : list string) : list string :=
  cleanLoop [] [] values.

Definition isTagSeparator (b : Z) : bool := (b =? 44) || (b =? 59) || (b =? 10).

Definition splitAndClean (value : string) : list string :=
  if (value =? "")%string then []
  else cleanSlice (GoText.FieldsFunc isTagSeparator value).

Definition unique (values : list string) : list string := cleanSlice values.

End WithLower.

End tags.

(** ** Command [pm] *)

Module pm.

Definition isLineEnd (b : Z) : bool := (b =? 13) || (b =? 10).

(** [normalizeContent]: [strings.TrimRight(content, "\r\n")]. *)
Definition normalizeContent (content : string) : string :=
  GoText.TrimRight isLineEnd content.

(** What [writePrompt] prints: [fmt.Fprintln] of the normalized content. *)
Definition writePrompt (content : string) : string :=
  (normalizeContent content ++ render.newline)%string.

(** [outputPrompt] over a writer that accepts the text: what is printed, and
    what is copied to the clipboard when asked. *)
Definition outputPrompt (content : string) (copyToClipboard : bool)
  : string * option string :=
  let cleaned := normalizeContent content in
  (writePrompt cleaned, if copyToClipboard then Some cleaned else None).

Fixpoint keepTrimmed (parts : list string) : list string :=
  match parts with
  | [] => []
  | part :: rest =>
    let part := Go.TrimSpace part in
    if negb (part =? "")%string then part :: keepTrimmed rest else keepTrimmed rest
  end.

Definition splitAndTrim (input : string) : list string :=
  keepTrimmed (GoText.SplitCommas input).

(** The replacer of [normalizeQuery]: each of the bytes [_ - / . ,], line
    feed, carriage return and tab becomes a space. *)
Definition isQuerySeparator (b : Z) : bool :=
  (b =? 95) || (b =? 45) || (b =? 47) || (b =? 46) || (b =? 44)
  || (b =? 10) || (b =? 13) || (b =? 9).

Fixpoint Replace (s : string) : string :=
  match s with
  | "" => ""
  | String a s' =>
    String (if isQuerySeparator (Go.byteZ a) then " "%char else a) (Replace s')
  end.

(** [normalizeQuery], over [strings.ToLower]. *)
Definition normalizeQuery (ToLower : string -> string) (value : string) : string :=
  let value := Go.TrimSpace value in
  if (value =? "")%string then ""
  else
    let clean := Replace (ToLower value) in
    GoText.Join (GoText.Fields clean) " ".

End pm.

(** ** Package [ui]: the name loop of the fallback selector *)

Module fallback.

Import prompt ui.

Section WithFolding.

Variable EqualFold : string -> string -> bool.
Variable ToLower : string -> string.

(** The loop of [selectPromptFallback] over the prompts, for a text that is
    no number, and what follows it: [partialMatches] is the slice built so
    far. *)
Fixpoint nameLoop (text : string) (prompts partialMatches : list Prompt) : outcome :=
  match prompts with
  | [] =>
    match partialMatches with
    | p :: _ => Returns p None
    | [] => Returns prompt.zero (Some ErrInvalidSelection)
    end
  | p :: rest =>
    if EqualFold (Name p) text then Returns p None
    else if Go.Contains (ToLower (Name p)) (ToLower text)
         then nameLoop text rest (partialMatches ++ [p])%list
         else nameLoop text rest partialMatches
  end.

End WithFolding.

End fallback.

(** ** More sample data *)

Module more.

Import prompt ui sample.

(** The model of the tests after a tab: navigation mode. *)
Definition browsingModel : selectorModel := toggleMode (model alphaBetaGamma "").

(** The same model after ctrl+c. *)
Definition cancelledModel : selectorModel := set_cancelled true (model alphaBetaGamma "").

(** The key [p]. *)
Definition keyP : tea.Key :=
  {| tea.Type_ := tea.KeyRunes; tea.Runes := [112]; tea.Alt := false; tea.Paste := false |}.

(** One confirm, and nothing after it. *)
Definition confirm : Feed := Deliver (tea.press tea.KeyEnter) Silent.

(** A prompt with tags. *)
Definition tagged : Prompt :=
  {| Name := "product-brief"; Path := ""; Content := ""; FrontMatter := [];
     Tags := ["product"; "planning"] |}.

(** A text of three lines. *)
Definition threeLines : string :=
  ("one" ++ sample.newline ++ "two" ++ sample.newline ++ "three")%string.

End more.

(** * Properties *)

(** ** Bytes and UTF-8 *)

Section GoFacts.

Import Go.

Lemma byteZ_range a : 0 <= byteZ a < 256.
Proof.
  unfold byteZ. pose proof (N_ascii_bounded a) as H. lia.
Qed.

Lemma byteZ_zbyte z : 0 <= z < 256 -> byteZ (zbyte z) = z.
Proof.
  intros H. unfold byteZ, zbyte. rewrite N_ascii_embedding by lia. lia.
Qed.

Lemma zbyte_byteZ a : zbyte (byteZ a) = a.
Proof.
  unfold byteZ, zbyte. rewrite N2Z.id. apply ascii_N_embedding.
Qed.

Lemma scalar_range r :
  0 <= scalar r < 55296 \/ 57343 < scalar r <= 1114111.
Proof.
  unfold scalar, ValidRune, MaxRune, RuneError.
  destruct (0 <=? r) eqn:E1, (r <? 55296) eqn:E2, (57343 <? r) eqn:E3, (r <=? 1114111) eqn:E4;
    cbn; lia.
Qed.

Lemma stringToRunes_cons a0 s1 :
  stringToRunes (String a0 s1) =
    let b0 := byteZ a0 in
    if b0 <? 128 then b0 :: stringToRunes s1
    else if (194 <=? b0) && (b0 <=? 223) then
      match s1 with
      | String a1 s2 =>
        let b1 := byteZ a1 in
        if isCont b1 then ((b0 - 192) * 64 + (b1 - 128)) :: stringToRunes s2
        else RuneError :: stringToRunes s1
      | _ => RuneError :: stringToRunes s1
      end
    else if (224 <=? b0) && (b0 <=? 239) then
      match s1 with
      | String a1 (String a2 s3) =>
        let b1 := byteZ a1 in
        let b2 := byteZ a2 in
        if secondOk b0 b1 && isCont b2
        then ((b0 - 224) * 4096 + (b1 - 128) * 64 + (b2 - 128)) :: stringToRunes s3
        else RuneError :: stringToRunes s1
      | _ => RuneError :: stringToRunes s1
      end
    else if (240 <=? b0) && (b0 <=? 244) then
      match s1 with
      | String a1 (String a2 (String a3 s4)) =>
        let b1 := byteZ a1 in
        let b2 := byteZ a2 in
        let b3 := byteZ a3 in
        if secondOk b0 b1 && isCont b2 && isCont b3
        then ((b0 - 240) * 262144 + (b1 - 128) * 4096 + (b2 - 128) * 64 + (b3 - 128))
               :: stringToRunes s4
        else RuneError :: stringToRunes s1
      | _ => RuneError :: stringToRunes s1
      end
    else RuneError :: stringToRunes s1.
Proof. reflexivity. Qed.

Ltac dlia := unfold rune in *; Z.to_euclidean_division_equations; lia.

Lemma decode1 a0 s :
  byteZ a0 < 128 -> stringToRunes (String a0 s) = byteZ a0 :: stringToRunes s.
Proof.
  intros H. rewrite stringToRunes_cons. cbv zeta.
  destruct (Z.ltb_spec (byteZ a0) 128); [reflexivity | lia].
Qed.

Lemma decode2 a0 a1 s :
  194 <= byteZ a0 <= 223 -> 128 <= byteZ a1 <= 191 ->
  stringToRunes (String a0 (String a1 s))
  = ((byteZ a0 - 192) * 64 + (byteZ a1 - 128)) :: stringToRunes s.
Proof.
  intros H0 H1. rewrite stringToRunes_cons. cbv zeta.
  replace (byteZ a0 <? 128) with false by lia.
  replace ((194 <=? byteZ a0) && (byteZ a0 <=? 223)) with true by lia.
  unfold isCont. replace ((128 <=? byteZ a1) && (byteZ a1 <=? 191)) with true by lia.
  reflexivity.
Qed.

Lemma decode3 a0 a1 a2 s :
  224 <= byteZ a0 <= 239 -> secondOk (byteZ a0) (byteZ a1) = true ->
  128 <= byteZ a2 <= 191 ->
  stringToRunes (String a0 (String a1 (String a2 s)))
  = ((byteZ a0 - 224) * 4096 + (byteZ a1 - 128) * 64 + (byteZ a2 - 128))
      :: stringToRunes s.
Proof.
  intros H0 H1 H2. rewrite stringToRunes_cons. cbv zeta.
  replace (byteZ a0 <? 128) with false by lia.
  replace ((194 <=? byteZ a0) && (byteZ a0 <=? 223)) with false by lia.
  replace ((224 <=? byteZ a0) && (byteZ a0 <=? 239)) with true by lia.
  rewrite H1. unfold isCont.
  replace ((128 <=? byteZ a2) && (byteZ a2 <=? 191)) with true by lia.
  reflexivity.
Qed.

Lemma decode4 a0 a1 a2 a3 s :
  240 <= byteZ a0 <= 244 -> secondOk (byteZ a0) (byteZ a1) = true ->
  128 <= byteZ a2 <= 191 -> 128 <= byteZ a3 <= 191 ->
  stringToRunes (String a0 (String a1 (String a2 (String a3 s))))
  = ((byteZ a0 - 240) * 262144 + (byteZ a1 - 128) * 4096
     + (byteZ a2 - 128) * 64 + (byteZ a3 - 128)) :: stringToRunes s.
Proof.
  intros H0 H1 H2 H3. rewrite stringToRunes_cons. cbv zeta.
  replace (byteZ a0 <? 128) with false by lia.
  replace ((194 <=? byteZ a0) && (byteZ a0 <=? 223)) with false by lia.
  replace ((224 <=? byteZ a0) && (byteZ a0 <=? 239)) with false by lia.
  replace ((240 <=? byteZ a0) && (byteZ a0 <=? 244)) with true by lia.
  rewrite H1. unfold isCont.
  replace ((128 <=? byteZ a2) && (byteZ a2 <=? 191)) with true by lia.
  replace ((128 <=? byteZ a3) && (byteZ a3 <=? 191)) with true by lia.
  reflexivity.
Qed.

Lemma secondOk_intro b0 b1 :
  (b0 = 224 -> 160 <= b1 <= 191) ->
  (b0 = 237 -> 128 <= b1 <= 159) ->
  (b0 = 240 -> 144 <= b1 <= 191) ->
  (b0 = 244 -> 128 <= b1 <= 143) ->
  128 <= b1 <= 191 ->
  secondOk b0 b1 = true.
Proof.
  intros. unfold secondOk, isCont.
  destruct (Z.eqb_spec b0 224); [lia|].
  destruct (Z.eqb_spec b0 237); [lia|].
  destruct (Z.eqb_spec b0 240); [lia|].
  destruct (Z.eqb_spec b0 244); lia.
Qed.

Lemma decode_encode r s :
  stringToRunes (encodeRune r ++ s) = scalar r :: stringToRunes s.
Proof.
  pose proof (scalar_range r) as Hr. unfold encodeRune.
  set (c := scalar r) in *. clearbody c. unfold rune in c.
  destruct (Z.ltb_spec c 128).
  { cbn [append]. rewrite decode1; rewrite byteZ_zbyte by lia; [reflexivity | lia]. }
  destruct (Z.ltb_spec c 2048).
  { cbn [append].
    assert (B0 : 194 <= 192 + c / 64 <= 223) by dlia.
    assert (B1 : 128 <= 128 + c mod 64 <= 191) by dlia.
    rewrite decode2; rewrite !byteZ_zbyte by lia; try lia.
    f_equal. dlia. }
  destruct (Z.ltb_spec c 65536).
  { cbn [append].
    assert (B0 : 224 <= 224 + c / 4096 <= 239) by dlia.
    assert (B1 : 128 <= 128 + (c / 64) mod 64 <= 191) by dlia.
    assert (B2 : 128 <= 128 + c mod 64 <= 191) by dlia.
    rewrite decode3; rewrite !byteZ_zbyte by lia; try lia.
    - f_equal. dlia.
    - apply secondOk_intro; try lia; intros; dlia. }
  cbn [append].
  assert (B0 : 240 <= 240 + c / 262144 <= 244) by dlia.
  assert (B1 : 128 <= 128 + (c / 4096) mod 64 <= 191) by dlia.
  assert (B2 : 128 <= 128 + (c / 64) mod 64 <= 191) by dlia.
  assert (B3 : 128 <= 128 + c mod 64 <= 191) by dlia.
  rewrite decode4; rewrite !byteZ_zbyte by lia; try lia.
  - f_equal. dlia.
  - apply secondOk_intro; try lia; intros; dlia.
Qed.

Lemma append_assoc (a b c : string) : ((a ++ b) ++ c = a ++ (b ++ c))%string.
Proof.
  induction a as [|x a IH]; cbn; [reflexivity | now rewrite IH].
Qed.

Lemma append_empty_r (a : string) : (a ++ "")%string = a.
Proof.
  induction a as [|x a IH]; cbn; [reflexivity | now rewrite IH].
Qed.

Lemma runesToString_app rs rs' :
  runesToString (rs ++ rs') = (runesToString rs ++ runesToString rs')%string.
Proof.
  induction rs as [|r rs IH]; cbn; [reflexivity|].
  now rewrite IH, append_assoc.
Qed.

(** Decoding what was encoded gives the runes back, U+FFFD standing for
    each value that is no code point. *)
Lemma stringToRunes_runesToString rs :
  stringToRunes (runesToString rs) = map scalar rs.
Proof.
  induction rs as [|r rs IH]; [reflexivity|].
  cbn [runesToString map]. now rewrite decode_encode, IH.
Qed.

Lemma scalar_idem r : scalar (scalar r) = scalar r.
Proof.
  unfold scalar at 1. destruct (ValidRune (scalar r)) eqn:E; [reflexivity|].
  pose proof (scalar_range r). unfold ValidRune, MaxRune in E. lia.
Qed.

Lemma encodeRune_scalar r : encodeRune (scalar r) = encodeRune r.
Proof. unfold encodeRune. now rewrite scalar_idem. Qed.

Lemma runesToString_scalar rs : runesToString (map scalar rs) = runesToString rs.
Proof.
  induction rs as [|r rs IH]; cbn; [reflexivity|].
  now rewrite encodeRune_scalar, IH.
Qed.

(** The encoding of a rune: one byte below 128, or a first byte from 192
    on. *)
Lemma encodeRune_shape r :
  exists a s, encodeRune r = String a s /\ (s = "" \/ 192 <= byteZ a).
Proof.
  pose proof (scalar_range r) as Hr. unfold encodeRune.
  set (c := scalar r) in *. clearbody c. unfold rune in c.
  destruct (Z.ltb_spec c 128); [eexists; eexists; split; [reflexivity | now left]|].
  destruct (Z.ltb_spec c 2048);
    [eexists; eexists; split; [reflexivity | right; rewrite byteZ_zbyte; dlia]|].
  destruct (Z.ltb_spec c 65536);
    eexists; eexists; (split; [reflexivity | right; rewrite byteZ_zbyte; dlia]).
Qed.

Lemma runesToString_nil_inv rs : runesToString rs = "" -> rs = [].
Proof.
  destruct rs as [|r rs]; [reflexivity|]. cbn.
  destruct (encodeRune_shape r) as (a & s & E & _). rewrite E. discriminate.
Qed.

Lemma stringToRunes_nil_inv s : stringToRunes s = [] -> s = "".
Proof.
  destruct s as [|a0 s1]; [reflexivity|].
  rewrite stringToRunes_cons. cbv zeta.
  repeat match goal with
         | |- context [if ?b then _ else _] => destruct b
         | |- context [match ?x with "" => _ | String _ _ => _ end] => destruct x
         end; discriminate.
Qed.

Lemma map_removelast {A B} (f : A -> B) (l : list A) :
  removelast (map f l) = map f (removelast l).
Proof.
  induction l as [|x l IH]; [reflexivity|].
  destruct l as [|y l]; [reflexivity|].
  cbn [map removelast] in *. now rewrite IH.
Qed.

(** The three ways [trimLeftSpace] drops a leading rune. *)
Lemma trimLeft1 a0 s :
  Go.asciiSpace (Go.byteZ a0) = true ->
  Go.trimLeftSpace (String a0 s) = Go.trimLeftSpace s.
Proof. intros H. cbn [Go.trimLeftSpace]. now rewrite H. Qed.

Lemma trimLeft2 a0 a1 s :
  Go.asciiSpace (Go.byteZ a0) = false ->
  Go.space2 (Go.byteZ a0) (Go.byteZ a1) = true ->
  Go.trimLeftSpace (String a0 (String a1 s)) = Go.trimLeftSpace s.
Proof. intros H0 H1. cbn [Go.trimLeftSpace]. now rewrite H0, H1. Qed.

Lemma trimLeft3 a0 a1 a2 s :
  Go.asciiSpace (Go.byteZ a0) = false ->
  Go.space2 (Go.byteZ a0) (Go.byteZ a1) = false ->
  Go.space3 (Go.byteZ a0) (Go.byteZ a1) (Go.byteZ a2) = true ->
  Go.trimLeftSpace (String a0 (String a1 (String a2 s))) = Go.trimLeftSpace s.
Proof. intros H0 H1 H2. cbn [Go.trimLeftSpace]. now rewrite H0, H1, H2. Qed.

Ltac trim_at r :=
  let e := eval vm_compute in (Go.encodeRune r) in
  change (Go.encodeRune r) with e; cbn [append];
  first [ apply trimLeft1; vm_compute; reflexivity
        | apply trimLeft2; vm_compute; reflexivity
        | apply trimLeft3; vm_compute; reflexivity ].

Lemma trimLeftSpace_space r s :
  Go.IsSpace r = true ->
  Go.trimLeftSpace (Go.encodeRune r ++ s) = Go.trimLeftSpace s.
Proof.
  unfold Go.IsSpace. intros H.
  repeat (apply orb_true_iff in H; destruct H as [H|H]);
    try (apply Z.eqb_eq in H; subst r;
         match goal with |- context [Go.encodeRune ?v] => trim_at v end).
  - assert (r = 9 \/ r = 10 \/ r = 11 \/ r = 12 \/ r = 13) as Hr by lia.
    clear H.
    repeat (destruct Hr as [Hr|Hr]; [subst r|]);
      try subst r; match goal with |- context [Go.encodeRune ?v] => trim_at v end.
  - assert (r = 8192 \/ r = 8193 \/ r = 8194 \/ r = 8195 \/ r = 8196 \/ r = 8197
            \/ r = 8198 \/ r = 8199 \/ r = 8200 \/ r = 8201 \/ r = 8202) as Hr by lia.
    clear H.
    repeat (destruct Hr as [Hr|Hr]; [subst r|]);
      try subst r; match goal with |- context [Go.encodeRune ?v] => trim_at v end.
Qed.

Lemma trimLeftSpace_blank rs :
  forallb Go.IsSpace rs = true -> Go.trimLeftSpace (Go.runesToString rs) = "".
Proof.
  induction rs as [|r rs IH]; [reflexivity|]. cbn [forallb Go.runesToString].
  intros H. apply andb_true_iff in H as [Hr Hrs].
  rewrite trimLeftSpace_space by exact Hr. now apply IH.
Qed.

(** A string of white-space runes only trims to the empty string. *)
Lemma TrimSpace_blank rs :
  forallb Go.IsSpace rs = true -> Go.TrimSpace (Go.runesToString rs) = "".
Proof.
  intros H. unfold Go.TrimSpace. now rewrite trimLeftSpace_blank.
Qed.

End GoFacts.

(** ** Sorting *)

Section SortFacts.

Context {A : Type} (less : A -> A -> bool).

Lemma insertBy_perm x l : Permutation (Go.insertBy less x l) (x :: l).
Proof.
  induction l as [|y l IH]; cbn; [apply Permutation_refl|].
  destruct (less y x); [|apply Permutation_refl].
  eapply Permutation_trans; [apply perm_skip, IH | apply perm_swap].
Qed.

Lemma sort_Slice_perm l : Permutation (Go.sort_Slice less l) l.
Proof.
  induction l as [|x l IH]; cbn; [constructor|].
  eapply Permutation_trans; [apply insertBy_perm | now apply perm_skip].
Qed.

Lemma sort_Slice_len l : Go.len (Go.sort_Slice less l) = Go.len l.
Proof.
  unfold Go.len. f_equal. apply Permutation_length, sort_Slice_perm.
Qed.

Hypothesis less_asym : forall a b, less a b = true -> less b a = false.

Let ordered (a b : A) : Prop := less b a = false.

Lemma insertBy_hd a x l :
  ordered a x -> HdRel ordered a l -> HdRel ordered a (Go.insertBy less x l).
Proof.
  intros Hx Hl. destruct l as [|y l]; cbn; [now constructor|].
  destruct (less y x); constructor; [now inversion Hl | exact Hx].
Qed.

Lemma insertBy_sorted x l :
  Sorted ordered l -> Sorted ordered (Go.insertBy less x l).
Proof.
  induction 1 as [|y l Hs IH Hh]; cbn; [repeat constructor|].
  destruct (less y x) eqn:E.
  - constructor; [exact IH|]. apply insertBy_hd; [|exact Hh].
    now apply less_asym.
  - constructor; [now constructor|]. constructor. exact E.
Qed.

Lemma sort_Slice_sorted l : Sorted ordered (Go.sort_Slice less l).
Proof.
  induction l as [|x l IH]; cbn; [constructor | now apply insertBy_sorted].
Qed.

End SortFacts.

Section NameOrder.

Import prompt ui props.

Lemma ltb_asym (a b : string) : (a <? b)%string = true -> (b <? a)%string = false.
Proof.
  unfold String.ltb. rewrite (String.compare_antisym a b).
  destruct (String.compare b a); cbn; congruence.
Qed.

Lemma not_ltb_leb (a b : string) : (b <? a)%string = false -> (a <=? b)%string = true.
Proof.
  unfold String.ltb, String.leb. rewrite (String.compare_antisym b a).
  destruct (String.compare a b); cbn; congruence.
Qed.

Lemma sortPrompts_perm l : Permutation (sortPrompts l) l.
Proof. apply sort_Slice_perm. Qed.

Lemma sortPrompts_len l : Go.len (sortPrompts l) = Go.len l.
Proof. apply sort_Slice_len. Qed.

Lemma sortPrompts_ascending l : ascendingNames (sortPrompts l).
Proof.
  unfold ascendingNames, sortPrompts.
  eapply Sorted_ind with (P := fun l => Sorted nameLe l);
    [constructor | | apply sort_Slice_sorted; intros a b; apply ltb_asym].
  intros a l0 _ IH Hh. constructor; [exact IH|].
  destruct Hh as [|b l1 Hab]; constructor. now apply not_ltb_leb.
Qed.

Lemma ascii_compare_refl a : Ascii.compare a a = Eq.
Proof. unfold Ascii.compare. apply N.compare_refl. Qed.

Lemma ascii_compare_eq a b : Ascii.compare a b = Eq -> a = b.
Proof. apply Ascii.compare_eq_iff. Qed.

Lemma ascii_compare_lt_trans a b c :
  Ascii.compare a b = Lt -> Ascii.compare b c = Lt -> Ascii.compare a c = Lt.
Proof.
  unfold Ascii.compare. rewrite !N.compare_lt_iff. apply N.lt_trans.
Qed.

(** The byte-wise order of strings is transitive. *)
Lemma string_compare_lt_trans a : forall b c,
  String.compare a b = Lt -> String.compare b c = Lt -> String.compare a c = Lt.
Proof.
  induction a as [|x a IH]; intros [|y b] [|z c]; cbn [String.compare];
    try congruence.
  destruct (Ascii.compare x y) eqn:Exy; try discriminate;
    destruct (Ascii.compare y z) eqn:Eyz; try discriminate; intros Hab Hbc.
  - apply ascii_compare_eq in Exy, Eyz. subst. rewrite ascii_compare_refl.
    now apply (IH b).
  - apply ascii_compare_eq in Exy. subst. now rewrite Eyz.
  - apply ascii_compare_eq in Eyz. subst. now rewrite Exy.
  - now rewrite (ascii_compare_lt_trans x y z).
Qed.

Lemma string_compare_refl a : String.compare a a = Eq.
Proof.
  induction a as [|x a IH]; cbn [String.compare]; [reflexivity|].
  now rewrite ascii_compare_refl.
Qed.

Lemma string_leb_trans a b c :
  (a <=? b)%string = true -> (b <=? c)%string = true -> (a <=? c)%string = true.
Proof.
  unfold String.leb. intros Hab Hbc.
  destruct (String.compare a b) eqn:Eab; try discriminate;
    destruct (String.compare b c) eqn:Ebc; try discriminate.
  - apply String.compare_eq_iff in Eab, Ebc. subst.
    now rewrite string_compare_refl.
  - apply String.compare_eq_iff in Eab. subst. now rewrite Ebc.
  - apply String.compare_eq_iff in Ebc. subst. now rewrite Eab.
  - now rewrite (string_compare_lt_trans a b c).
Qed.

Lemma nameLe_trans a b c : nameLe a b -> nameLe b c -> nameLe a c.
Proof. apply string_leb_trans. Qed.

Lemma ascending_strongly l : ascendingNames l -> StronglySorted nameLe l.
Proof.
  apply Sorted_StronglySorted. intros a b c. apply nameLe_trans.
Qed.

Lemma same_name_same_prompt l a b :
  NoDup (map Name l) -> In a l -> In b l -> Name a = Name b -> a = b.
Proof.
  induction l as [|x l IH]; cbn [map In]; [contradiction|].
  intros Hnd Ha Hb E. inversion Hnd as [|? ? Hx Hl]; subst.
  destruct Ha as [->|Ha], Hb as [->|Hb]; try reflexivity.
  - elim Hx. rewrite E. now apply in_map.
  - elim Hx. rewrite <- E. now apply in_map.
  - now apply IH.
Qed.

(** With distinct names there is one way to put the prompts in ascending
    name order. *)
Lemma ascending_unique l1 : forall l2,
  NoDup (map Name l1) -> Permutation l1 l2 ->
  ascendingNames l1 -> ascendingNames l2 -> l1 = l2.
Proof.
  induction l1 as [|a l1 IH]; intros l2 Hnd Hp H1 H2.
  - apply Permutation_nil in Hp. now subst.
  - destruct l2 as [|b l2]; [apply Permutation_sym, Permutation_nil in Hp; discriminate|].
    assert (Hab : a = b).
    { pose proof (ascending_strongly _ H1) as S1.
      pose proof (ascending_strongly _ H2) as S2.
      inversion S1 as [|? ? _ F1]; inversion S2 as [|? ? _ F2]; subst.
      rewrite Forall_forall in F1, F2.
      assert (Hb : In b (a :: l1))
        by (apply (Permutation_in _ (Permutation_sym Hp)); now left).
      assert (Ha : In a (b :: l2)) by (apply (Permutation_in _ Hp); now left).
      apply (same_name_same_prompt (a :: l1)); [assumption | now left | assumption |].
      destruct Hb as [->|Hb]; [reflexivity|]. destruct Ha as [->|Ha]; [reflexivity|].
      apply String.leb_antisym; [now apply F1 | now apply F2]. }
    subst b. f_equal. apply IH.
    + now inversion Hnd.
    + now apply Permutation_cons_inv in Hp.
    + now inversion H1.
    + now inversion H2.
Qed.

End NameOrder.

(** ** The selector model *)

Section Selector.

Import prompt ui props.

Variable Search : list Prompt -> string -> search.Options -> list Prompt.

Local Abbreviation applyQuery := (ui.applyQuery Search).
Local Abbreviation backspace := (ui.backspace Search).
Local Abbreviation clearQuery := (ui.clearQuery Search).
Local Abbreviation handleRunes := (ui.handleRunes Search).
Local Abbreviation keySwitch := (ui.keySwitch Search).
Local Abbreviation Update := (ui.Update Search).
Local Abbreviation newSelectorModel := (ui.newSelectorModel Search).

Ltac fields :=
  cbn [cursor filtered allPrompts query mode cancelled width height ready
       filterOpts uiOpts set_cursor set_filtered set_query set_mode
       set_cancelled set_size fst snd negb] in *.

Lemma wrap_small z : Go.MinInt <= z <= Go.MaxInt -> Go.wrap z = z.
Proof.
  unfold Go.wrap, Go.MinInt, Go.MaxInt. intros H.
  Z.to_euclidean_division_equations. lia.
Qed.

Lemma len_nonneg {A} (l : list A) : 0 <= Go.len l.
Proof. unfold Go.len. lia. Qed.

Lemma len_zero_iff {A} (l : list A) : Go.len l = 0 <-> l = [].
Proof.
  unfold Go.len. destruct l; cbn [List.length]; split; intros H;
    try reflexivity; try discriminate; lia.
Qed.

Lemma cursorInv_len m :
  cursorInv m <->
  (Go.len (filtered m) = 0 /\ cursor m = 0) \/ 0 <= cursor m < Go.len (filtered m).
Proof.
  unfold cursorInv. destruct (filtered m) as [|p l].
  - change (Go.len (@nil Prompt)) with 0. split.
    + intros [H _]. left. split; [reflexivity | now apply H].
    + intros [[_ H]|H]; [|lia]. split; [auto | congruence].
  - pose proof (len_nonneg l).
    assert (Go.len (p :: l) = Go.len l + 1)
      by (unfold Go.len; cbn [List.length]; lia).
    split.
    + intros [_ H']. right. apply H'. discriminate.
    + intros [[H' _]|H']; [lia|]. split; [discriminate | auto].
Qed.

Lemma int_sub_small a b :
  Go.MinInt <= a - b <= Go.MaxInt -> Go.int_sub a b = a - b.
Proof. apply wrap_small. Qed.

Lemma int_add_small a b :
  Go.MinInt <= a + b <= Go.MaxInt -> Go.int_add a b = a + b.
Proof. apply wrap_small. Qed.

Ltac ints := unfold Go.MinInt, Go.MaxInt in *.

(** *** What each operation writes *)

Lemma applyQuery_filtered q m :
  filtered (applyQuery q m) =
    if (Go.TrimSpace q =? "")%string then sortPrompts (allPrompts m)
    else Search (allPrompts m) (Go.TrimSpace q)
           (if (search.MaxResults (filterOpts m) <=? 0)
               || (search.MaxResults (filterOpts m) >? Go.len (allPrompts m))
            then {| search.MaxResults := Go.len (allPrompts m) |}
            else filterOpts m).
Proof.
  unfold ui.applyQuery. fields.
  destruct (Go.TrimSpace q =? "")%string; fields;
    repeat match goal with
           | |- context [if ?b then _ else _] => destruct b; fields
           end; reflexivity.
Qed.

Lemma applyQuery_frame q m :
  allPrompts (applyQuery q m) = allPrompts m
  /\ query (applyQuery q m) = q
  /\ mode (applyQuery q m) = mode m
  /\ cancelled (applyQuery q m) = cancelled m
  /\ filterOpts (applyQuery q m) = filterOpts m.
Proof.
  unfold ui.applyQuery. fields.
  repeat match goal with
         | |- context [if ?b then _ else _] => destruct b; fields
         end; repeat split.
Qed.

Lemma applyQuery_cursor q m :
  Go.len (allPrompts m) <= Go.MaxInt ->
  cursorInv m -> cursorInv (applyQuery q m).
Proof.
  intros Hfit Hinv. apply cursorInv_len.
  unfold ui.applyQuery. fields.
  destruct (Go.TrimSpace q =? "")%string eqn:Et; fields.
  - pose proof (sortPrompts_len (allPrompts m)) as Hl.
    pose proof (len_nonneg (allPrompts m)) as Hn.
    destruct (Z.eqb_spec (Go.len (sortPrompts (allPrompts m))) 0); fields;
      [left; split; [assumption | reflexivity]|].
    destruct (Z.geb_spec (cursor m) (Go.len (sortPrompts (allPrompts m)))); fields.
    + right. rewrite int_sub_small by (ints; lia). lia.
    + right. apply cursorInv_len in Hinv. lia.
  - match goal with
    | |- context [Search ?a ?b ?c] => set (found := Search a b c) in *
    end.
    pose proof (len_nonneg found) as Hn.
    destruct (Z.eqb_spec (Go.len found) 0); fields;
      [left; split; [assumption | reflexivity]|].
    destruct (cursor m >=? Go.len found); fields; right; lia.
Qed.

Lemma moveUp_cursor m : slicesFit m -> cursorInv m -> cursorInv (moveUp m).
Proof.
  intros [_ Hfit] Hinv. apply cursorInv_len in Hinv. apply cursorInv_len.
  unfold moveUp. pose proof (len_nonneg (filtered m)).
  destruct (Z.eqb_spec (Go.len (filtered m)) 0); [lia|].
  destruct (Z.eqb_spec (cursor m) 0); fields;
    rewrite int_sub_small by (ints; lia); lia.
Qed.

Lemma moveDown_cursor m : slicesFit m -> cursorInv m -> cursorInv (moveDown m).
Proof.
  intros [_ Hfit] Hinv. apply cursorInv_len in Hinv. apply cursorInv_len.
  unfold moveDown. pose proof (len_nonneg (filtered m)).
  destruct (Z.eqb_spec (Go.len (filtered m)) 0); [lia|]. fields.
  rewrite int_add_small by (ints; lia). unfold Go.int_rem.
  right. apply Z.rem_bound_pos; lia.
Qed.

Lemma moveUp_frame m :
  filtered (moveUp m) = filtered m /\ allPrompts (moveUp m) = allPrompts m.
Proof.
  unfold moveUp.
  repeat match goal with
         | |- context [if ?b then _ else _] => destruct b; fields
         end; split; reflexivity.
Qed.

Lemma moveDown_frame m :
  filtered (moveDown m) = filtered m /\ allPrompts (moveDown m) = allPrompts m.
Proof.
  unfold moveDown.
  repeat match goal with
         | |- context [if ?b then _ else _] => destruct b; fields
         end; split; reflexivity.
Qed.

Lemma backspace_cursor m :
  slicesFit m -> cursorInv m -> cursorInv (backspace m).
Proof.
  intros [Hfit _] Hinv. unfold ui.backspace.
  destruct (query m =? "")%string; [assumption | now apply applyQuery_cursor].
Qed.

Lemma clearQuery_cursor m :
  slicesFit m -> cursorInv m -> cursorInv (clearQuery m).
Proof.
  intros [Hfit _] Hinv. unfold ui.clearQuery.
  destruct (query m =? "")%string; [assumption | now apply applyQuery_cursor].
Qed.

Lemma clearQuery_fit m : slicesFit m -> slicesFit (clearQuery m).
Proof.
  intros [Ha Hf]. unfold ui.clearQuery.
  destruct (query m =? "")%string; [now split|].
  destruct (applyQuery_frame "" m) as (Hall & _). split.
  - now rewrite Hall.
  - rewrite applyQuery_filtered. change (Go.TrimSpace "" =? "")%string with true.
    cbv iota. now rewrite sortPrompts_len.
Qed.

Lemma Atoi_fits s idx : Go.Atoi s = Some idx -> Go.MinInt <= idx <= Go.MaxInt.
Proof.
  assert (Hin : forall v, Go.inInt v = Some idx -> Go.MinInt <= idx <= Go.MaxInt).
  { unfold Go.inInt. intros v.
    destruct (Z.leb_spec Go.MinInt v), (Z.leb_spec v Go.MaxInt);
      cbn [andb]; intros E; inversion E; subst; lia. }
  unfold Go.Atoi.
  repeat match goal with
         | |- context [match ?x with _ => _ end] => destruct x
         end; try discriminate; apply Hin.
Qed.

Lemma handleRunes_cursor runes m :
  slicesFit m -> cursorInv m -> cursorInv (fst (handleRunes runes m)).
Proof.
  intros Hfit Hinv. unfold ui.handleRunes.
  destruct (Go.len runes =? 0); [assumption|].
  destruct (mode m).
  - destruct ((query m =? "")%string && isDigits runes); fields.
    + destruct (Go.Atoi (Go.runesToString runes)) as [idx|] eqn:Ea; [|assumption].
      destruct (Z.geb_spec idx 1), (Z.leb_spec idx (Go.len (filtered m)));
        cbn [andb]; try assumption.
      apply Atoi_fits in Ea. apply cursorInv_len. fields.
      rewrite int_sub_small by (ints; lia). lia.
    + apply applyQuery_cursor; [apply Hfit | assumption].
  - fields. destruct runes as [|r [|r' rs]]; try assumption.
    destruct ((r =? 106) || (r =? 74)); [now apply moveDown_cursor|].
    destruct ((r =? 107) || (r =? 75)); [now apply moveUp_cursor | assumption].
Qed.

Lemma slicesFit_same m m' :
  filtered m' = filtered m -> allPrompts m' = allPrompts m ->
  slicesFit m -> slicesFit m'.
Proof. unfold slicesFit. intros -> ->. auto. Qed.

Lemma keySwitch_well key m :
  slicesFit m -> cursorInv m -> switchedWell (keySwitch key m).
Proof.
  intros Hfit Hinv. unfold ui.keySwitch.
  repeat match goal with
         | |- context [if isOneOf ?k ?l then _ else _] => destruct (isOneOf k l)
         end;
    try destruct (mode m); cbn [switchedWell];
    try match goal with
        | |- cursorInv _ /\ slicesFit _ =>
          split;
          [| first [ exact Hfit
                   | now apply clearQuery_fit
                   | destruct (moveUp_frame m); now apply (slicesFit_same m)
                   | destruct (moveDown_frame m); now apply (slicesFit_same m) ]]
        end;
    first [ exact Hinv
          | now apply backspace_cursor
          | now apply moveUp_cursor
          | now apply moveDown_cursor
          | now apply clearQuery_cursor
          | destruct (Go.len (filtered m) =? 0); exact Hinv
          | unfold toggleMode; destruct (mode m); exact Hinv ].
Qed.

Lemma Update_cursor msg m :
  slicesFit m -> cursorInv m -> cursorInv (fst (Update msg m)).
Proof.
  intros Hfit Hinv. destruct msg as [k|w h|]; cbn [ui.Update]; [| exact Hinv ..].
  pose proof (keySwitch_well (tea.String_ k) m Hfit Hinv) as Hsw.
  destruct (keySwitch (tea.String_ k) m) as [m' c|m']; cbn [switchedWell] in Hsw;
    [assumption|].
  destruct Hsw as [Hinv' Hfit'].
  destruct (tea.Type_ k); try assumption.
  destruct (Go.len (tea.Runes k) >? 0); [|assumption].
  now apply handleRunes_cursor.
Qed.

(** *** Key messages *)

Lemma Update_press_up m : Update (tea.press tea.KeyUp) m = (moveUp m, tea.CmdNil).
Proof. reflexivity. Qed.

Lemma Update_press_down m : Update (tea.press tea.KeyDown) m = (moveDown m, tea.CmdNil).
Proof. reflexivity. Qed.

Lemma Update_press_esc m : Update (tea.press tea.KeyEsc) m = (toggleMode m, tea.CmdNil).
Proof. reflexivity. Qed.

Lemma Update_press_enter m :
  Update (tea.press tea.KeyEnter) m
  = (if Go.len (filtered m) =? 0 then set_cancelled true m else m, tea.CmdQuit).
Proof. reflexivity. Qed.

Lemma Update_press_ctrl_c m :
  Update (tea.press tea.KeyCtrlC) m = (set_cancelled true m, tea.CmdQuit).
Proof. reflexivity. Qed.

Lemma Update_press_ctrl_p m :
  Update (tea.press tea.KeyCtrlP) m = Update (tea.press tea.KeyUp) m.
Proof. reflexivity. Qed.

Lemma Update_press_ctrl_n m :
  Update (tea.press tea.KeyCtrlN) m = Update (tea.press tea.KeyDown) m.
Proof. reflexivity. Qed.

(** In navigation mode the keys [j] and [k] move the cursor like the
    arrows. *)
Lemma Update_navigate_j_k m :
  mode m = modeNavigate ->
  Update (tea.typed [106]) m = Update (tea.press tea.KeyDown) m
  /\ Update (tea.typed [107]) m = Update (tea.press tea.KeyUp) m.
Proof.
  intros Hm. cbv delta [ui.Update] beta. cbn. rewrite Hm. split; reflexivity.
Qed.

Lemma Update_press_backspace m :
  Update (tea.press tea.KeyBackspace) m
  = (match mode m with modeNavigate => m | modeFilter => backspace m end, tea.CmdNil).
Proof. cbv delta [ui.Update] beta. cbn. destruct (mode m); reflexivity. Qed.

(** ** The cursor stays inside the filtered view *)

(** C3. Every operation of the selector (the filter step [applyQuery], the
    cursor moves, the mode toggle, a resize, a deletion, a clear, typed runes
    and, all in all, [Update] on any message) keeps the cursor invariant: the
    cursor is an index of the filtered view when that is not empty, and 0
    when it is empty. *)
Theorem C3_cursor_invariant_preserved m :
  slicesFit m -> cursorInv m ->
  (forall q, cursorInv (applyQuery q m))
  /\ cursorInv (moveUp m) /\ cursorInv (moveDown m)
  /\ cursorInv (toggleMode m)
  /\ (forall w h, cursorInv (set_size w h m))
  /\ cursorInv (backspace m) /\ cursorInv (clearQuery m)
  /\ (forall runes, cursorInv (fst (handleRunes runes m)))
  /\ (forall msg, cursorInv (fst (Update msg m))).
Proof.
  intros Hfit Hinv.
  refine (conj _ (conj _ (conj _ (conj _ (conj _ (conj _ (conj _ (conj _ _)))))))).
  - intros q. apply applyQuery_cursor; [apply Hfit | exact Hinv].
  - now apply moveUp_cursor.
  - now apply moveDown_cursor.
  - unfold toggleMode. destruct (mode m); exact Hinv.
  - intros w h. exact Hinv.
  - now apply backspace_cursor.
  - now apply clearQuery_cursor.
  - intros runes. now apply handleRunes_cursor.
  - intros msg. now apply Update_cursor.
Qed.

(** The model is built with its cursor in place. *)
Lemma newSelectorModel_cursor prompts q opts ui0 :
  Go.len prompts <= Go.MaxInt ->
  cursorInv (newSelectorModel prompts q opts ui0).
Proof.
  intros Hfit. unfold ui.newSelectorModel.
  apply applyQuery_cursor; [exact Hfit|].
  split; cbn; [reflexivity | intros H; now elim H].
Qed.

(** ** Cursor moves wrap around *)

(** C6. On a filtered view of [n >= 1] entries a move-down at index [n - 1]
    puts the cursor at 0 and a move-up at index 0 puts it at [n - 1]; on an
    empty view both leave the model as it is; all this in either mode, and
    nothing but the cursor changes. *)
Theorem C6_moves_wrap_around m :
  Go.len (filtered m) <= Go.MaxInt ->
  (filtered m = [] ->
     Update (tea.press tea.KeyDown) m = (m, tea.CmdNil)
     /\ Update (tea.press tea.KeyUp) m = (m, tea.CmdNil))
  /\ (filtered m <> [] ->
      (cursor m = Go.len (filtered m) - 1 ->
         Update (tea.press tea.KeyDown) m = (set_cursor 0 m, tea.CmdNil))
      /\ (cursor m = 0 ->
         Update (tea.press tea.KeyUp) m
         = (set_cursor (Go.len (filtered m) - 1) m, tea.CmdNil))).
Proof.
  intros Hfit. rewrite Update_press_down, Update_press_up.
  unfold moveDown, moveUp. pose proof (len_nonneg (filtered m)) as Hn. split.
  - intros E. rewrite E. split; reflexivity.
  - intros Hne. rewrite <- len_zero_iff in Hne.
    destruct (Z.eqb_spec (Go.len (filtered m)) 0); [contradiction|]. split.
    + intros Hc. rewrite Hc, int_add_small by (ints; lia). unfold Go.int_rem.
      replace (Go.len (filtered m) - 1 + 1) with (Go.len (filtered m)) by lia.
      now rewrite Z.rem_same.
    + intros Hc. rewrite Hc. cbn [Z.eqb].
      now rewrite int_sub_small by (ints; lia).
Qed.

(** ** The mode toggle *)

(** C8. The escape key flips the mode between [modeFilter] (typing) and
    [modeNavigate], quits nothing, and leaves every other field of the model
    as it was. *)
Theorem C8_toggle_changes_only_mode m :
  let m' := fst (Update (tea.press tea.KeyEsc) m) in
  snd (Update (tea.press tea.KeyEsc) m) = tea.CmdNil
  /\ mode m' = match mode m with
               | modeFilter => modeNavigate
               | modeNavigate => modeFilter
               end
  /\ query m' = query m /\ filtered m' = filtered m /\ cursor m' = cursor m
  /\ cancelled m' = cancelled m /\ width m' = width m /\ height m' = height m
  /\ ready m' = ready m /\ allPrompts m' = allPrompts m
  /\ filterOpts m' = filterOpts m /\ ui.uiOpts m' = ui.uiOpts m.
Proof.
  rewrite Update_press_esc. unfold toggleMode.
  destruct (mode m); cbn; repeat split.
Qed.

(** ** Typed runes *)

Lemma startsKeyName_false a :
  startsKeyName a = false ->
  (a =? "e")%char = false /\ (a =? "c")%char = false /\ (a =? "b")%char = false
  /\ (a =? "d")%char = false /\ (a =? "u")%char = false
  /\ (a =? "j")%char = false /\ (a =? "k")%char = false.
Proof.
  unfold startsKeyName. cbn [existsb]. intros H.
  repeat (apply orb_false_iff in H; destruct H as [? H]). repeat split; assumption.
Qed.

(** A key string that starts like no listed key name falls out of the
    switch. *)
Lemma keySwitch_other_initial a s m :
  startsKeyName a = false -> keySwitch (String a s) m = FallOut m.
Proof.
  intros H. apply startsKeyName_false in H.
  destruct H as (He & Hc & Hb & Hd & Hu & Hj & Hk).
  unfold ui.keySwitch, isOneOf. cbn [existsb String.eqb].
  rewrite ?He, ?Hc, ?Hb, ?Hd, ?Hu, ?Hj, ?Hk. reflexivity.
Qed.

Lemma Update_falls_to_handleRunes k m :
  tea.Type_ k = tea.KeyRunes -> keySwitch (tea.String_ k) m = FallOut m ->
  Update (tea.KeyMsg k) m = handleRunes (tea.Runes k) m.
Proof.
  intros Ht Hs. cbn [ui.Update]. rewrite Hs, Ht. unfold ui.handleRunes.
  pose proof (len_nonneg (tea.Runes k)).
  destruct (Z.gtb_spec (Go.len (tea.Runes k)) 0),
           (Z.eqb_spec (Go.len (tea.Runes k)) 0); try lia; reflexivity.
Qed.

(** The string of a [KeyRunes] key starts with the first byte of its runes,
    or with the [a] of [alt+], or with the bracket of a paste. *)
Lemma String_runes_first k a s :
  tea.Type_ k = tea.KeyRunes -> Go.runesToString (tea.Runes k) = String a s ->
  exists a' s', tea.String_ k = String a' s'
                /\ (a' = "a"%char \/ a' = "["%char \/ a' = a).
Proof.
  intros Ht Hr. unfold tea.String_. rewrite Ht, Hr.
  destruct (tea.Alt k), (tea.Paste k); cbn [append]; eauto 6.
Qed.

Lemma byte_not_initial a :
  Go.byteZ a < 98 \/ 192 <= Go.byteZ a -> startsKeyName a = false.
Proof.
  intros H. unfold startsKeyName. cbn [existsb].
  repeat match goal with
         | |- context [(a =? ?c)%char] =>
           destruct (Ascii.eqb_spec a c);
           [subst a;
            let v := eval vm_compute in (Go.byteZ c) in
            change (Go.byteZ c) with v in H; lia|]
         end.
  reflexivity.
Qed.

Lemma isDigits_first runes :
  isDigits runes = true ->
  exists a s, Go.runesToString runes = String a s /\ 48 <= Go.byteZ a <= 57.
Proof.
  unfold isDigits. destruct runes as [|r rs]; [discriminate|].
  destruct (Go.len (r :: rs) =? 0); [discriminate|]. cbn [forallb].
  intros H. apply andb_true_iff in H as [H _].
  assert (Hr : 48 <= r <= 57) by lia.
  cbn [Go.runesToString]. unfold Go.encodeRune, Go.scalar, Go.ValidRune, Go.MaxRune.
  replace ((0 <=? r) && (r <? 55296) || (57343 <? r) && (r <=? 1114111)) with true by lia.
  replace (r <? 128) with true by lia. cbn [append].
  eexists; eexists; split; [reflexivity|]. rewrite byteZ_zbyte; lia.
Qed.

Lemma Update_digits k m :
  tea.Type_ k = tea.KeyRunes -> isDigits (tea.Runes k) = true ->
  Update (tea.KeyMsg k) m = handleRunes (tea.Runes k) m.
Proof.
  intros Ht Hd. apply Update_falls_to_handleRunes; [exact Ht|].
  destruct (isDigits_first _ Hd) as (a & s & Hs & Ha).
  destruct (String_runes_first k a s Ht Hs) as (a' & s' & -> & Hfirst).
  apply keySwitch_other_initial.
  destruct Hfirst as [->| [->| ->]]; [reflexivity | reflexivity |].
  apply byte_not_initial. lia.
Qed.

Lemma handleRunes_digits runes m :
  mode m = modeFilter -> query m = "" -> isDigits runes = true ->
  handleRunes runes m
  = (match Go.Atoi (Go.runesToString runes) with
     | Some idx =>
       if (idx >=? 1) && (idx <=? Go.len (filtered m))
       then set_cursor (Go.int_sub idx 1) m
       else m
     | None => m
     end, tea.CmdNil).
Proof.
  intros Hm Hq Hd. unfold ui.handleRunes. rewrite Hm, Hq, Hd.
  unfold isDigits in Hd. destruct (Go.len runes =? 0); [discriminate | reflexivity].
Qed.

(** C2, as the code has it. A message of typed runes that are all digits,
    received in typing mode with an empty query: when the number they spell
    is an index from 1 to the length of the filtered view, the cursor goes to
    that entry (index - 1) and nothing else changes; in every other case the
    message changes nothing at all: the digits are not added to the query. *)
Theorem C2_digits_jump_or_are_dropped k m :
  tea.Type_ k = tea.KeyRunes ->
  mode m = modeFilter -> query m = "" -> isDigits (tea.Runes k) = true ->
  (forall idx,
      Go.Atoi (Go.runesToString (tea.Runes k)) = Some idx ->
      1 <= idx <= Go.len (filtered m) ->
      Update (tea.KeyMsg k) m = (set_cursor (idx - 1) m, tea.CmdNil))
  /\ ((forall idx,
         Go.Atoi (Go.runesToString (tea.Runes k)) = Some idx ->
         ~ 1 <= idx <= Go.len (filtered m)) ->
      Update (tea.KeyMsg k) m = (m, tea.CmdNil)).
Proof.
  intros Ht Hm Hq Hd. rewrite (Update_digits k m Ht Hd).
  rewrite (handleRunes_digits _ m Hm Hq Hd). split.
  - intros idx Ha Hr. rewrite Ha.
    replace ((idx >=? 1) && (idx <=? Go.len (filtered m))) with true by lia.
    apply Atoi_fits in Ha. now rewrite int_sub_small by (ints; lia).
  - intros Hout. destruct (Go.Atoi (Go.runesToString (tea.Runes k))) as [idx|];
      [|reflexivity].
    specialize (Hout idx eq_refl).
    replace ((idx >=? 1) && (idx <=? Go.len (filtered m))) with false by lia.
    reflexivity.
Qed.

(** ** Confirming an empty view *)

(** C1, as the code has it. A confirm (enter) on an empty filtered view ends
    the session with the [cancelled] flag set, which is the very model a
    cancel (ctrl+c) leaves, and [runInteractiveSelector] answers both with
    [ErrInvalidSelection]: its caller sees one outcome, not two. *)
Theorem C1_confirm_on_empty_view_is_a_cancel m rest :
  filtered m = [] ->
  Update (tea.press tea.KeyEnter) m = (set_cancelled true m, tea.CmdQuit)
  /\ Update (tea.press tea.KeyCtrlC) m = (set_cancelled true m, tea.CmdQuit)
  /\ ui.StartReturningModel Search m (Deliver (tea.press tea.KeyEnter) rest)
     = Some (set_cancelled true m, None)
  /\ ui.StartReturningModel Search m (Deliver (tea.press tea.KeyCtrlC) rest)
     = Some (set_cancelled true m, None)
  /\ selection (set_cancelled true m)
     = Returns prompt.zero (Some ErrInvalidSelection).
Proof.
  intros E. cbn [ui.StartReturningModel].
  rewrite Update_press_enter, Update_press_ctrl_c, E.
  repeat split.
Qed.

(** ** Typing and deleting *)

Lemma applyQuery_viewed q m : viewed Search (applyQuery q m).
Proof.
  unfold viewed, viewOf. destruct (applyQuery_frame q m) as (Ha & Hq & _ & _ & Ho).
  rewrite applyQuery_filtered, Ha, Hq, Ho. reflexivity.
Qed.

Lemma newSelectorModel_viewed prompts q opts ui0 :
  viewed Search (newSelectorModel prompts q opts ui0).
Proof. apply applyQuery_viewed. Qed.

Lemma viewed_empty_query m :
  viewed Search m -> query m = "" -> filtered m = sortPrompts (allPrompts m).
Proof. unfold viewed, viewOf. intros -> ->. reflexivity. Qed.

(** A key string of one byte falls out of the switch, unless it is [j] or
    [k] in navigation mode. *)
Lemma keySwitch_single_byte a m :
  keySwitch (String a "") m = FallOut m
  \/ (mode m = modeNavigate
      /\ (keySwitch (String a "") m = Return_ (moveDown m) tea.CmdNil
          \/ keySwitch (String a "") m = Return_ (moveUp m) tea.CmdNil)).
Proof.
  unfold ui.keySwitch, isOneOf. cbn [existsb String.eqb].
  destruct (mode m);
    repeat match goal with
           | |- context [(a =? ?c)%char] => destruct (a =? c)%char
           end;
    first [ left; reflexivity
          | right; split; [reflexivity|]; left; reflexivity
          | right; split; [reflexivity|]; right; reflexivity ].
Qed.

Lemma keySwitch_one_rune k r m :
  tea.Type_ k = tea.KeyRunes -> tea.Runes k = [r] ->
  keySwitch (tea.String_ k) m = FallOut m
  \/ (mode m = modeNavigate
      /\ (keySwitch (tea.String_ k) m = Return_ (moveDown m) tea.CmdNil
          \/ keySwitch (tea.String_ k) m = Return_ (moveUp m) tea.CmdNil)).
Proof.
  intros Ht Hr.
  destruct (encodeRune_shape r) as (a & s & He & Hs).
  assert (Hstr : Go.runesToString (tea.Runes k) = String a s)
    by (rewrite Hr; cbn [Go.runesToString]; now rewrite append_empty_r).
  destruct (tea.Alt k) eqn:Ea; [|destruct (tea.Paste k) eqn:Ep].
  - left. unfold tea.String_. rewrite Ea, Ht. cbn [append].
    now apply keySwitch_other_initial.
  - left. unfold tea.String_. rewrite Ea, Ep, Ht. cbn [append].
    now apply keySwitch_other_initial.
  - unfold tea.String_. rewrite Ea, Ep, Ht, Hstr. cbn [append].
    destruct Hs as [->|Hs]; [apply keySwitch_single_byte|].
    left. apply keySwitch_other_initial, byte_not_initial. now right.
Qed.

(** In typing mode a single typed rune always reaches [handleRunes]. *)
Lemma Update_one_rune_typing k r m :
  tea.Type_ k = tea.KeyRunes -> tea.Runes k = [r] -> mode m = modeFilter ->
  Update (tea.KeyMsg k) m = handleRunes [r] m.
Proof.
  intros Ht Hr Hm. rewrite <- Hr. apply Update_falls_to_handleRunes; [exact Ht|].
  destruct (keySwitch_one_rune k r m Ht Hr) as [H|[H _]]; [exact H | congruence].
Qed.

Lemma length_removelast {A} (l : list A) :
  List.length (removelast l) = pred (List.length l).
Proof.
  induction l as [|x l IH]; [reflexivity|].
  destruct l as [|y l]; [reflexivity|].
  cbn [removelast List.length] in *. now rewrite IH.
Qed.

Lemma typing_weaken m0 n n' m :
  (n <= n')%nat -> typing Search m0 n m -> typing Search m0 n' m.
Proof.
  intros Hn (Hm & Ha & Ho & Hv & rs & Hq & Hl).
  repeat split; try assumption. exists rs. split; [assumption | lia].
Qed.

Lemma typing_applyQuery m0 n n' m rs :
  typing Search m0 n m -> (List.length rs <= n')%nat ->
  typing Search m0 n' (applyQuery (Go.runesToString rs) m).
Proof.
  intros (Hm & Ha & Ho & _) Hl.
  destruct (applyQuery_frame (Go.runesToString rs) m) as (Ha' & Hq' & Hm' & _ & Ho').
  repeat split; try congruence; [apply applyQuery_viewed|].
  exists rs. split; assumption.
Qed.

(** One rune typed: the query grows by at most one rune. *)
Lemma typing_rune m0 n m msg :
  typing Search m0 n m -> oneRune msg ->
  typing Search m0 (S n) (fst (Update msg m)).
Proof.
  intros Hty Hone. destruct msg as [k| |]; try contradiction.
  destruct Hone as (Ht & r & Hr).
  pose proof Hty as (Hm & Ha & Ho & Hv & rs & Hq & Hl).
  rewrite (Update_one_rune_typing k r m Ht Hr Hm).
  unfold ui.handleRunes. change (Go.len [r] =? 0) with false. cbv iota. rewrite Hm.
  destruct ((query m =? "")%string && isDigits [r]).
  - cbn [fst]. apply (typing_weaken m0 n); [lia|].
    destruct (Go.Atoi (Go.runesToString [r])) as [idx|]; [|exact Hty].
    destruct ((idx >=? 1) && (idx <=? Go.len (filtered m))); [|exact Hty].
    repeat split; try assumption. exists rs. split; assumption.
  - cbn [fst]. rewrite Hq, <- runesToString_app.
    apply (typing_applyQuery m0 n); [exact Hty|].
    rewrite length_app. cbn [List.length]. lia.
Qed.

(** One deletion: the query loses its last rune, if it has one. *)
Lemma typing_backspace m0 n m :
  typing Search m0 n m ->
  typing Search m0 (pred n) (fst (Update (tea.press tea.KeyBackspace) m)).
Proof.
  intros Hty. pose proof Hty as (Hm & Ha & Ho & Hv & rs & Hq & Hl).
  rewrite Update_press_backspace, Hm. cbn [fst]. unfold ui.backspace.
  destruct (String.eqb_spec (query m) "") as [E|E].
  - repeat split; try assumption. exists []. split; [exact E | cbn; lia].
  - rewrite Hq, stringToRunes_runesToString, map_removelast, runesToString_scalar.
    apply (typing_applyQuery m0 n); [exact Hty|].
    rewrite length_removelast. lia.
Qed.

Lemma typing_runes m0 msgs : forall n m,
  typing Search m0 n m -> Forall oneRune msgs ->
  typing Search m0 (List.length msgs + n) (feedAll Search msgs m).
Proof.
  induction msgs as [|msg msgs IH]; intros n m Hty Hall; [exact Hty|].
  inversion Hall as [|? ? Hone Hrest]; subst. cbn [feedAll fold_left List.length].
  replace (S (List.length msgs) + n)%nat with (List.length msgs + S n)%nat by lia.
  apply IH; [|exact Hrest]. now apply typing_rune.
Qed.

Lemma typing_backspaces m0 k : forall n m,
  typing Search m0 n m ->
  typing Search m0 (n - k)
    (feedAll Search (repeat (tea.press tea.KeyBackspace) k) m).
Proof.
  induction k as [|k IH]; intros n m Hty.
  - rewrite Nat.sub_0_r. exact Hty.
  - cbn [repeat feedAll fold_left].
    replace (n - S k)%nat with (pred n - k)%nat by lia.
    apply IH. now apply typing_backspace.
Qed.

(** In navigation mode typed runes and deletions move the cursor at most. *)
Lemma browsing_refl m : mode m = modeNavigate -> browsing m m.
Proof. intros H. repeat split. exact H. Qed.

Lemma browsing_move m0 m :
  browsing m0 m -> browsing m0 (moveUp m) /\ browsing m0 (moveDown m).
Proof.
  intros (Hm & Ha & Hf & Hq). unfold moveUp, moveDown.
  destruct (Go.len (filtered m) =? 0); [repeat split; assumption|].
  destruct (cursor m =? 0); repeat split; assumption.
Qed.

Lemma browsing_step m0 m msg :
  browsing m0 m -> oneRune msg \/ msg = tea.press tea.KeyBackspace ->
  browsing m0 (fst (Update msg m)).
Proof.
  intros Hb Hmsg. pose proof Hb as (Hm & Ha & Hf & Hq).
  destruct (browsing_move m0 m Hb) as [Hup Hdown].
  destruct Hmsg as [Hone| ->];
    [|rewrite Update_press_backspace, Hm; exact Hb].
  destruct msg as [k| |]; try contradiction. destruct Hone as (Ht & r & Hr).
  destruct (keySwitch_one_rune k r m Ht Hr) as [H|[_ [H|H]]].
  - rewrite (Update_falls_to_handleRunes k m Ht H), Hr.
    unfold ui.handleRunes. change (Go.len [r] =? 0) with false. cbv iota.
    rewrite Hm. cbn [fst].
    destruct ((r =? 106) || (r =? 74)); [exact Hdown|].
    destruct ((r =? 107) || (r =? 75)); [exact Hup | exact Hb].
  - cbn [ui.Update]. rewrite H. exact Hdown.
  - cbn [ui.Update]. rewrite H. exact Hup.
Qed.

Lemma browsing_steps m0 msgs : forall m,
  browsing m0 m ->
  Forall (fun msg => oneRune msg \/ msg = tea.press tea.KeyBackspace) msgs ->
  browsing m0 (feedAll Search msgs m).
Proof.
  induction msgs as [|msg msgs IH]; intros m Hb Hall; [exact Hb|].
  inversion Hall; subst. cbn [feedAll fold_left].
  apply IH; [now apply browsing_step | assumption].
Qed.

Lemma type_then_delete m msgs :
  viewed Search m -> query m = "" -> Forall oneRune msgs ->
  let typed := feedAll Search msgs m in
  (typedRunes typed <= List.length msgs)%nat
  /\ forall d, (typedRunes typed <= d)%nat ->
       let erased := feedAll Search (repeat (tea.press tea.KeyBackspace) d) typed in
       query erased = ""
       /\ filtered erased = sortPrompts (allPrompts m)
       /\ filtered erased = filtered m.
Proof.
  intros Hv Hq Hall typed.
  assert (Hstart : filtered m = sortPrompts (allPrompts m))
    by now apply viewed_empty_query.
  destruct (mode m) eqn:Hm.
  - assert (Hty : typing Search m 0 m).
    { repeat split; try assumption. exists []. split; [exact Hq | cbn; lia]. }
    pose proof (typing_runes m msgs 0 m Hty Hall) as Hty'. fold typed in Hty'.
    destruct Hty' as (Hm' & Ha & Ho & Hv' & rs & Hq' & Hl).
    assert (Hn : typedRunes typed = List.length rs).
    { unfold typedRunes. now rewrite Hq', stringToRunes_runesToString, length_map. }
    split; [lia|]. intros d Hd erased.
    assert (Hty' : typing Search m (List.length rs) typed).
    { repeat split; try assumption. exists rs. split; [exact Hq' | lia]. }
    apply (typing_backspaces m d) in Hty'. fold erased in Hty'.
    replace (List.length rs - d)%nat with 0%nat in Hty' by lia.
    destruct Hty' as (_ & Ha' & _ & Hv'' & rs' & Hq'' & Hl').
    destruct rs'; [|cbn in Hl'; lia]. cbn in Hq''.
    pose proof (viewed_empty_query erased Hv'' Hq'') as Hf.
    rewrite Ha' in Hf. repeat split; congruence.
  - assert (Hb : browsing m typed).
    { apply browsing_steps; [now apply browsing_refl|].
      eapply Forall_impl; [|exact Hall]. intros; now left. }
    split.
    + destruct Hb as (_ & _ & _ & Hq'). unfold typedRunes. rewrite Hq', Hq.
      cbn. lia.
    + intros d _ erased.
      assert (Hb' : browsing m erased).
      { apply browsing_steps.
        - apply browsing_steps; [now apply browsing_refl|].
          eapply Forall_impl; [|exact Hall]. intros; now left.
        - apply Forall_forall. intros x Hx. apply repeat_spec in Hx. now right. }
      destruct Hb' as (_ & Ha & Hf & Hq'). repeat split; congruence.
Qed.

(** What every field write and the filter step keep, [Update] keeps. *)
Lemma Update_preserves (P : selectorModel -> Prop) :
  (forall m c, P m -> P (set_cursor c m)) ->
  (forall m v, P m -> P (set_mode v m)) ->
  (forall m v, P m -> P (set_cancelled v m)) ->
  (forall m w h, P m -> P (set_size w h m)) ->
  (forall m q, P m -> P (applyQuery q m)) ->
  forall msg m, P m -> P (fst (Update msg m)).
Proof.
  intros Hcur Hmode Hcan Hsize Hquery.
  assert (Hup : forall m, P m -> P (moveUp m)).
  { intros m Hm. unfold moveUp. destruct (Go.len (filtered m) =? 0); [exact Hm|].
    destruct (cursor m =? 0); now apply Hcur. }
  assert (Hdown : forall m, P m -> P (moveDown m)).
  { intros m Hm. unfold moveDown.
    destruct (Go.len (filtered m) =? 0); [exact Hm | now apply Hcur]. }
  assert (Hback : forall m, P m -> P (backspace m)).
  { intros m Hm. unfold ui.backspace.
    destruct (query m =? "")%string; [exact Hm | now apply Hquery]. }
  assert (Hclear : forall m, P m -> P (clearQuery m)).
  { intros m Hm. unfold ui.clearQuery.
    destruct (query m =? "")%string; [exact Hm | now apply Hquery]. }
  assert (Hrunes : forall rs m, P m -> P (fst (handleRunes rs m))).
  { intros rs m Hm. unfold ui.handleRunes.
    destruct (Go.len rs =? 0); [exact Hm|]. destruct (mode m).
    - destruct ((query m =? "")%string && isDigits rs); cbn [fst];
        [|now apply Hquery].
      destruct (Go.Atoi (Go.runesToString rs)) as [idx|]; [|exact Hm].
      destruct ((idx >=? 1) && (idx <=? Go.len (filtered m)));
        [now apply Hcur | exact Hm].
    - cbn [fst]. destruct rs as [|r [|r' rs']]; try exact Hm.
      destruct ((r =? 106) || (r =? 74)); [now apply Hdown|].
      destruct ((r =? 107) || (r =? 75)); [now apply Hup | exact Hm]. }
  intros msg m Hm. destruct msg as [k|w h|]; cbn [ui.Update fst];
    [| now apply Hsize | exact Hm].
  assert (Hsw : match keySwitch (tea.String_ k) m with
                | Return_ m' _ | FallOut m' => P m'
                end).
  { unfold ui.keySwitch.
    repeat match goal with
           | |- context [if isOneOf ?a ?l then _ else _] => destruct (isOneOf a l)
           end;
      try destruct (mode m) eqn:Emode;
      first [ exact Hm | now apply Hup | now apply Hdown | now apply Hback
            | now apply Hclear | now apply Hcan
            | unfold toggleMode; rewrite Emode; now apply Hmode
            | destruct (Go.len (filtered m) =? 0); [now apply Hcan | exact Hm] ]. }
  destruct (keySwitch (tea.String_ k) m) as [m' c|m']; [exact Hsw|].
  destruct (tea.Type_ k); try exact Hsw.
  destruct (Go.len (tea.Runes k) >? 0); [now apply Hrunes | exact Hsw].
Qed.

(** Every state the selector reaches has the view of its query. *)
Lemma Update_viewed msg m : viewed Search m -> viewed Search (fst (Update msg m)).
Proof.
  apply Update_preserves; try (intros; assumption).
  intros. apply applyQuery_viewed.
Qed.

Lemma Update_allPrompts msg m : allPrompts (fst (Update msg m)) = allPrompts m.
Proof.
  apply (Update_preserves (fun m' => allPrompts m' = allPrompts m));
    try (intros; assumption); [|reflexivity].
  intros m' q H. now destruct (applyQuery_frame q m') as (-> & _).
Qed.

Lemma reachable_viewed m : reachable Search m -> viewed Search m.
Proof.
  induction 1 as [prompts q opts ui0|m msg _ IH];
    [apply newSelectorModel_viewed | now apply Update_viewed].
Qed.

(** When the ranking engine returns slices (of a length that is an [int]),
    every state the selector reaches over prompts that fit has its cursor in
    place. *)
Lemma reachable_cursor m :
  (forall ps q o, Go.len (Search ps q o) <= Go.MaxInt) ->
  reachable Search m -> Go.len (allPrompts m) <= Go.MaxInt ->
  slicesFit m /\ cursorInv m.
Proof.
  intros Hs Hr Hfit.
  assert (Hfits : forall m', viewed Search m' ->
                             Go.len (allPrompts m') <= Go.MaxInt -> slicesFit m').
  { intros m' Hv Ha. split; [exact Ha|]. rewrite Hv. unfold viewOf.
    destruct (Go.TrimSpace (query m') =? "")%string;
      [now rewrite sortPrompts_len | apply Hs]. }
  induction Hr as [prompts q opts ui0|m msg Hr IH].
  - split; [apply Hfits; [apply newSelectorModel_viewed | exact Hfit]|].
    apply newSelectorModel_cursor. unfold ui.newSelectorModel in Hfit.
    now destruct (applyQuery_frame q
                    {| allPrompts := prompts; filtered := []; cursor := 0;
                       cancelled := false; width := 0; height := 0; ready := false;
                       query := ""; filterOpts := opts;
                       uiOpts := normalizeOptions ui0; mode := modeFilter |})
      as (E & _); rewrite E in Hfit.
  - rewrite Update_allPrompts in Hfit. destruct (IH Hfit) as [Hf Hc]. split.
    + apply Hfits; [apply Update_viewed; now apply reachable_viewed|].
      now rewrite Update_allPrompts.
    + now apply Update_cursor.
Qed.

(** C7. From any state of the selector whose query is empty, after any
    characters typed one by one: the query holds at most one rune for each of
    them, and deleting as often as the query has runes (or more often, such
    as once for each character typed) leaves the query empty again and the
    filtered view exactly the view of the empty query (all prompts in name
    order), the one it was before. *)
Theorem C7_type_then_delete_restores_view m msgs :
  reachable Search m -> query m = "" -> Forall oneRune msgs ->
  let typed := feedAll Search msgs m in
  (typedRunes typed <= List.length msgs)%nat
  /\ forall d, (typedRunes typed <= d)%nat ->
       let erased := feedAll Search (repeat (tea.press tea.KeyBackspace) d) typed in
       query erased = ""
       /\ filtered erased = sortPrompts (allPrompts m)
       /\ filtered erased = filtered m.
Proof.
  intros Hr. apply type_then_delete. now apply reachable_viewed.
Qed.

(** ** The view of an empty query *)

(** C5. When the query is empty or white space only (it trims to the empty
    string), the filter step makes the filtered view the full list of prompts
    in ascending name order, names compared byte by byte: a rearrangement of
    all the prompts, each name at most the next one. *)
Theorem C5_blank_query_shows_all_by_name m q :
  Go.TrimSpace q = "" ->
  filtered (applyQuery q m) = sortPrompts (allPrompts m)
  /\ Permutation (allPrompts m) (filtered (applyQuery q m))
  /\ ascendingNames (filtered (applyQuery q m)).
Proof.
  intros Hq. rewrite applyQuery_filtered, Hq. cbn [String.eqb].
  split; [reflexivity|]. split.
  - apply Permutation_sym, sortPrompts_perm.
  - apply sortPrompts_ascending.
Qed.

(** The same at construction, for the seed query. *)
Lemma newSelectorModel_blank_query prompts q opts ui0 :
  Go.TrimSpace q = "" ->
  filtered (newSelectorModel prompts q opts ui0) = sortPrompts prompts.
Proof.
  intros Hq. unfold ui.newSelectorModel. now rewrite applyQuery_filtered, Hq.
Qed.

(** With distinct names that view is the only ascending arrangement of the
    prompts: any sort by name gives it. *)
Lemma blank_query_view_unique m q l :
  Go.TrimSpace q = "" -> NoDup (map Name (allPrompts m)) ->
  Permutation (allPrompts m) l -> ascendingNames l ->
  filtered (applyQuery q m) = l.
Proof.
  intros Hq Hnd Hp Hl. rewrite applyQuery_filtered, Hq. cbn [String.eqb].
  apply ascending_unique; [| | apply sortPrompts_ascending | exact Hl].
  - apply (Permutation_NoDup (l := map Name (allPrompts m))); [|exact Hnd].
    apply Permutation_map, Permutation_sym, sortPrompts_perm.
  - eapply Permutation_trans; [apply sortPrompts_perm | exact Hp].
Qed.

End Selector.

(** ** Starting without prompts, and the fallback selector *)

Section Fallback.

Import prompt ui props.

Variable Search : list Prompt -> string -> search.Options -> list Prompt.
Variable EqualFold : string -> string -> bool.
Variable ToLower : string -> string.

(** C9. With no prompts at all, [SelectPromptWithQuery] returns the error
    [ErrNoPrompts], whose text is "no prompts available", whatever the
    reader and the writer are: no session starts and nothing is read. *)
Theorem C9_no_prompts_is_refused q opts ui0 in_ out :
  SelectPromptWithQuery Search EqualFold ToLower [] q opts ui0 in_ out
  = Returns prompt.zero (Some ErrNoPrompts)
  /\ SelectPrompt Search EqualFold ToLower [] in_ out
     = Returns prompt.zero (Some ErrNoPrompts)
  /\ Error ErrNoPrompts = "no prompts available".
Proof. repeat split. Qed.

(** C10. The fallback selector over a list that is not empty returns the
    first prompt, and no error, when the scanner finds no line in the input
    and when the line it finds is blank (empty once trimmed). *)
Theorem C10_fallback_defaults_to_first p ps input :
  Go.ScanLine input = None
  \/ (exists line, Go.ScanLine input = Some line /\ Go.TrimSpace line = "") ->
  selectPromptFallback EqualFold ToLower (p :: ps) input = Returns p None.
Proof.
  unfold selectPromptFallback. intros [->|(line & -> & ->)]; reflexivity.
Qed.

End Fallback.

(** ** The ranking engine *)

Section Ranking.

Import prompt props.

Lemma matchFrom_sound name : forall q prev pos hs,
  search.matchFrom prev pos name q = Some hs -> subseqFold q name.
Proof.
  induction name as [|n name IH]; intros q prev pos hs H.
  - destruct q; [constructor | discriminate].
  - destruct q as [|c q]; [constructor|]. cbn [search.matchFrom] in H.
    destruct (search.sameChar c n) eqn:E.
    + destruct (search.matchFrom (Some n) (pos + 1) name q) as [hs'|] eqn:E';
        [|discriminate].
      apply subseq_take; [|now apply (IH _ _ _ _ E')].
      unfold search.sameChar in E. lia.
    + apply subseq_skip. now apply (IH _ _ _ _ H).
Qed.

Lemma subseqFold_tail c q name : subseqFold (c :: q) name -> subseqFold q name.
Proof.
  intros H. remember (c :: q) as cq eqn:E. revert c q E.
  induction H as [name|c' q' n name Hc H IH|q' n name H IH]; intros c q E.
  - discriminate.
  - inversion E; subst. now apply subseq_skip.
  - apply subseq_skip. now apply (IH c).
Qed.

(** Taking each character at its first possible place loses no match. *)
Lemma matchFrom_complete name : forall q prev pos,
  subseqFold q name -> search.matchFrom prev pos name q <> None.
Proof.
  induction name as [|n name IH]; intros q prev pos H.
  - inversion H; subst. discriminate.
  - destruct q as [|c q]; [discriminate|]. cbn [search.matchFrom].
    destruct (search.sameChar c n) eqn:E.
    + assert (Hq : subseqFold q name).
      { inversion H; subst; [assumption | now apply (subseqFold_tail c)]. }
      specialize (IH q (Some n) (pos + 1) Hq).
      destruct (search.matchFrom (Some n) (pos + 1) name q); [discriminate | contradiction].
    + apply IH. inversion H; subst; [|assumption].
      unfold search.sameChar in E. lia.
Qed.

Lemma score_matches query name :
  search.score query name <> None
  <-> subseqFold (Go.stringToRunes query) (Go.stringToRunes name).
Proof.
  unfold search.score. split.
  - destruct (search.matchFrom None 0 _ _) as [hs|] eqn:E; [|congruence].
    intros _. now apply (matchFrom_sound _ _ _ _ _ E).
  - intros H. apply (matchFrom_complete _ _ None 0) in H.
    destruct (search.matchFrom None 0 _ _); [discriminate | contradiction].
Qed.

Lemma scored_in query candidates p v :
  In (p, v) (search.scored query candidates) ->
  In p candidates /\ search.score query (Name p) = Some v.
Proof.
  induction candidates as [|c cs IH]; cbn [search.scored]; [contradiction|].
  destruct (search.score query (Name c)) as [w|] eqn:E.
  - intros [H|H].
    + inversion H; subst. split; [now left | assumption].
    + destruct (IH H). split; [now right | assumption].
  - intros H. destruct (IH H). split; [now right | assumption].
Qed.

Lemma truncate_in {A} opts (l : list A) x : In x (search.truncate opts l) -> In x l.
Proof.
  unfold search.truncate. destruct (0 <? search.MaxResults opts); [|auto].
  intros H. rewrite <- (firstn_skipn (Z.to_nat (search.MaxResults opts)) l).
  apply in_or_app. now left.
Qed.

Lemma Search_in candidates query opts p :
  query <> "" -> In p (search.Search candidates query opts) ->
  In p candidates /\ matchesName query p.
Proof.
  intros Hq Hin. unfold search.Search in Hin.
  destruct (String.eqb_spec query ""); [contradiction|].
  apply truncate_in, in_map_iff in Hin. destruct Hin as ([p' v] & Hp & Hin).
  cbn [fst] in Hp. subst p'.
  apply (Permutation_in _ (sort_Slice_perm _ _)) in Hin.
  apply scored_in in Hin. destruct Hin as [Hc Hs]. split; [assumption|].
  apply score_matches. congruence.
Qed.

(** C4. For a query that is not empty, every prompt in the ranked result is
    one of the candidates and has the characters of the query as a
    subsequence of its name, letter case apart; a candidate without such a
    subsequence is not in the result. *)
Theorem C4_ranked_results_match_the_query candidates query opts :
  query <> "" ->
  (forall p, In p (search.Search candidates query opts) ->
             In p candidates /\ matchesName query p)
  /\ (forall p, In p candidates -> ~ matchesName query p ->
                ~ In p (search.Search candidates query opts)).
Proof.
  intros Hq. split.
  - intros p. now apply Search_in.
  - intros p _ Hno Hin. apply Hno. now apply (Search_in candidates query opts).
Qed.

End Ranking.

(** * The repository's tests and further instances *)

Section Instances.

Import prompt ui props sample.

Local Abbreviation Update := (ui.Update search.Search).
Local Abbreviation feed := (feedAll search.Search).

(** [TestSelectorModelFiltersWhileTyping]. *)
Example test_filters_while_typing :
  names (model briefs "") = ["brainstorm"; "code-review"; "product-brief"]
  /\ names (feed [tea.typed [112]] (model briefs "")) = ["product-brief"]
  /\ query (feed [tea.typed [112]] (model briefs "")) = "p".
Proof. repeat split. Qed.

(** [TestSelectorModelBackspaceRestoresResults]. *)
Example test_backspace_restores_results :
  names (feed alp (model alphaBetaAlpine "")) = ["alpha"; "alpine"]
  /\ names (feed (alp ++ repeat (tea.press tea.KeyBackspace) 3) (model alphaBetaAlpine ""))
     = ["alpha"; "alpine"; "beta"].
Proof. split; vm_compute; reflexivity. Qed.

(** [TestSelectorModelInitialQuery]. *)
Example test_initial_query :
  names (model alphaBetaAlpine "alp") = ["alpha"; "alpine"]
  /\ query (model alphaBetaAlpine "alp") = "alp".
Proof. split; vm_compute; reflexivity. Qed.

(** [TestSelectorModelHandlesArrowNavigation]. *)
Example test_arrow_navigation :
  let m0 := model alphaBetaGamma "" in
  let m1 := feed [tea.press tea.KeyDown] m0 in
  let m2 := feed [tea.press tea.KeyUp] m1 in
  let m3 := feed [tea.typed [106]] m2 in
  let m4 := feed [tea.press tea.KeyBackspace; tea.press tea.KeyEsc] m3 in
  let m5 := feed [tea.typed [106]] m4 in
  let m6 := feed [tea.typed [107]] m5 in
  let m7 := feed [tea.press tea.KeyEsc] m6 in
  cursor m0 = 0 /\ cursor m1 = 1 /\ cursor m2 = 0 /\ cursor m3 = 0
  /\ mode m4 = modeNavigate /\ cursor m5 = 1 /\ cursor m6 = 0
  /\ mode m7 = modeFilter.
Proof. vm_compute. repeat split. Qed.

(** The tests of the fallback selector: a number, a blank line, a name, a
    part of a name, a carriage return for a line end, no match, no
    prompts. *)
Example test_select_prompt :
  selectFrom [named "alpha"; named "beta"] (pipe ("2" ++ newline)) buffer
  = Returns (named "beta") None
  /\ selectFrom [named "alpha"; named "beta"] (pipe newline) buffer
     = Returns (named "alpha") None
  /\ selectFrom [named "alpha"; named "beta"] (pipe ("beta" ++ newline)) buffer
     = Returns (named "beta") None
  /\ selectFrom [named "product-brief"; named "brainstorm"] (pipe ("product" ++ newline)) buffer
     = Returns (named "product-brief") None
  /\ selectFrom [named "alpha"; named "beta"] (pipe ("beta" ++ carriageReturn)) buffer
     = Returns (named "beta") None
  /\ selectFrom [named "alpha"; named "beta"] (pipe ("three" ++ newline)) buffer
     = Returns prompt.zero (Some ErrInvalidSelection)
  /\ selectFrom [] (pipe ("1" ++ newline)) buffer
     = Returns prompt.zero (Some ErrNoPrompts).
Proof. vm_compute. repeat split. Qed.

(** On a terminal: down and enter pick the second entry; enter on a view
    the seed query emptied is an invalid selection, with no fallback; a
    program that breaks falls back to the numbered selector. *)
Example test_on_terminal :
  selectFrom alphaBetaAlpine
    (terminal (Deliver (tea.press tea.KeyDown) (Deliver (tea.press tea.KeyEnter) Silent)))
    screen
  = Returns (named "alpine") None
  /\ SelectPromptWithQuery search.Search asciiEqualFold asciiToLower
       alphaBetaAlpine "zzz" noCap plain
       (terminal (Deliver (tea.press tea.KeyEnter) Silent)) screen
     = Returns prompt.zero (Some ErrInvalidSelection)
  /\ selectFrom alphaBetaAlpine
       {| inTerminal := true; inFeed := Breaks "no tty"; inBytes := "2" |} screen
     = Returns (named "beta") None
  /\ selectFrom alphaBetaAlpine (terminal Silent) screen = Blocks.
Proof. vm_compute. repeat split. Qed.

(** The scores of section 4.1 on its examples. *)
Example test_scores :
  search.score "alp" "alpha" = Some 10
  /\ search.score "cr" "code-review" = Some 7
  /\ search.score "p" "brainstorm" = None
  /\ map Name (search.Search briefs "p" noCap) = ["product-brief"]
  /\ map Name (search.Search alphaBetaAlpine "alp" noCap) = ["alpha"; "alpine"].
Proof. vm_compute. repeat split. Qed.

(** C1 as stated fails: on a view that a query emptied, the confirm and the
    cancel leave the same model and make [runInteractiveSelector] return the
    same pair, so no caller can tell an empty selection from a cancelled
    one. *)
Lemma C1_confirm_and_cancel_look_alike :
  filtered nothingFound = []
  /\ Update (tea.press tea.KeyEnter) nothingFound
     = Update (tea.press tea.KeyCtrlC) nothingFound
  /\ runInteractiveSelector search.Search alphaBetaAlpine "zzz" noCap plain
       (Deliver (tea.press tea.KeyEnter) Silent)
     = Returns prompt.zero (Some ErrInvalidSelection)
  /\ runInteractiveSelector search.Search alphaBetaAlpine "zzz" noCap plain
       (Deliver (tea.press tea.KeyCtrlC) Silent)
     = Returns prompt.zero (Some ErrInvalidSelection).
Proof. vm_compute. repeat split. Qed.

Lemma C1_witness :
  filtered nothingFound = []
  /\ ui.StartReturningModel search.Search nothingFound
       (Deliver (tea.press tea.KeyEnter) Silent)
     = Some (set_cancelled true nothingFound, None)
  /\ selection (set_cancelled true nothingFound)
     = Returns prompt.zero (Some ErrInvalidSelection).
Proof.
  destruct (C1_confirm_on_empty_view_is_a_cancel search.Search nothingFound Silent
              eq_refl) as (_ & _ & H1 & _ & H2).
  split; [reflexivity|]. split; [exact H1 | exact H2].
Defined.

(** C2 as stated fails: with three entries in view and an empty query, the
    key 5 is a number out of range, and the query stays empty; the message
    changes nothing. *)
Lemma C2_out_of_range_digit_is_not_typed :
  let m := model alphaBetaGamma "" in
  mode m = modeFilter /\ query m = "" /\ isDigits (tea.Runes key5) = true
  /\ Go.Atoi (Go.runesToString (tea.Runes key5)) = Some 5
  /\ Go.len (filtered m) = 3
  /\ query (fst (Update (tea.KeyMsg key5) m)) <> (query m ++ "5")%string
  /\ Update (tea.KeyMsg key5) m = (m, tea.CmdNil).
Proof. vm_compute. repeat split. discriminate. Qed.

Lemma C2_witness :
  let m := model alphaBetaGamma "" in
  (mode m = modeFilter /\ query m = "" /\ isDigits (tea.Runes key2) = true)
  /\ Update (tea.KeyMsg key2) m = (set_cursor (2 - 1) m, tea.CmdNil)
  /\ Update (tea.KeyMsg key5) m = (m, tea.CmdNil).
Proof.
  intros m. split; [repeat split|]. split.
  - destruct (C2_digits_jump_or_are_dropped search.Search key2 m
                eq_refl eq_refl eq_refl eq_refl) as [H _].
    apply (H 2); [reflexivity | vm_compute; split; discriminate].
  - destruct (C2_digits_jump_or_are_dropped search.Search key5 m
                eq_refl eq_refl eq_refl eq_refl) as [_ H].
    apply H. intros idx E. vm_compute in E. inversion E; subst idx.
    vm_compute. intros [_ H5]. now apply H5.
Defined.

Lemma sample_fits : slicesFit (model alphaBetaGamma "").
Proof. split; vm_compute; discriminate. Defined.

Lemma sample_cursor : cursorInv (model alphaBetaGamma "").
Proof.
  split; [intros _; reflexivity|]. intros _. vm_compute. split; [discriminate | reflexivity].
Defined.

Lemma C3_witness :
  slicesFit (model alphaBetaGamma "") /\ cursorInv (model alphaBetaGamma "")
  /\ cursorInv (fst (Update (tea.press tea.KeyUp) (model alphaBetaGamma "")))
  /\ cursorInv (ui.applyQuery search.Search "a" (model alphaBetaGamma "")).
Proof.
  destruct (C3_cursor_invariant_preserved search.Search (model alphaBetaGamma "")
              sample_fits sample_cursor) as (Hq & _ & _ & _ & _ & _ & _ & _ & Hu).
  split; [exact sample_fits|]. split; [exact sample_cursor|].
  split; [apply Hu | apply Hq].
Defined.

Lemma C4_witness :
  "alp" <> ""
  /\ (forall p, In p (search.Search alphaBetaAlpine "alp" noCap) ->
                In p alphaBetaAlpine /\ matchesName "alp" p).
Proof.
  assert (H : "alp" <> "") by discriminate.
  split; [exact H|].
  exact (proj1 (C4_ranked_results_match_the_query alphaBetaAlpine "alp" noCap H)).
Defined.

Lemma C5_witness :
  Go.TrimSpace "  " = ""
  /\ map Name (filtered (ui.applyQuery search.Search "  " (model alphaBetaAlpine "alp")))
     = ["alpha"; "alpine"; "beta"]
  /\ ascendingNames (filtered (ui.applyQuery search.Search "  " (model alphaBetaAlpine "alp"))).
Proof.
  destruct (C5_blank_query_shows_all_by_name search.Search
              (model alphaBetaAlpine "alp") "  " eq_refl) as (H1 & _ & H3).
  split; [reflexivity|]. split; [rewrite H1; reflexivity | exact H3].
Defined.

Lemma C6_witness :
  Go.len (filtered atLast) <= Go.MaxInt /\ filtered atLast <> []
  /\ cursor atLast = Go.len (filtered atLast) - 1
  /\ Update (tea.press tea.KeyDown) atLast = (set_cursor 0 atLast, tea.CmdNil)
  /\ Update (tea.press tea.KeyUp) (set_cursor 0 atLast)
     = (set_cursor (3 - 1) (set_cursor 0 atLast), tea.CmdNil).
Proof.
  assert (Hfit : Go.len (filtered atLast) <= Go.MaxInt) by (vm_compute; discriminate).
  assert (Hne : filtered atLast <> []) by (vm_compute; discriminate).
  split; [exact Hfit|]. split; [exact Hne|]. split; [reflexivity|]. split.
  - exact (proj1 (proj2 (C6_moves_wrap_around search.Search atLast Hfit) Hne) eq_refl).
  - exact (proj2 (proj2 (C6_moves_wrap_around search.Search (set_cursor 0 atLast) Hfit)
                    Hne) eq_refl).
Defined.

Lemma C7_witness :
  reachable search.Search (model alphaBetaAlpine "")
  /\ query (model alphaBetaAlpine "") = "" /\ Forall oneRune alp
  /\ names (feed (repeat (tea.press tea.KeyBackspace) 3)
              (feed alp (model alphaBetaAlpine "")))
     = map Name (sortPrompts alphaBetaAlpine).
Proof.
  assert (Hr : reachable search.Search (model alphaBetaAlpine "")) by apply reach_new.
  assert (Hall : Forall oneRune alp)
    by (repeat constructor; eexists; reflexivity).
  split; [exact Hr|]. split; [reflexivity|]. split; [exact Hall|].
  destruct (C7_type_then_delete_restores_view search.Search
              (model alphaBetaAlpine "") alp Hr eq_refl Hall) as (Hn & H).
  destruct (H 3%nat Hn) as (_ & Hf & _).
  unfold names. rewrite Hf. reflexivity.
Defined.

Lemma C10_witness :
  Go.ScanLine "" = None
  /\ selectPromptFallback asciiEqualFold asciiToLower [named "alpha"; named "beta"] ""
     = Returns (named "alpha") None
  /\ selectPromptFallback asciiEqualFold asciiToLower [named "alpha"; named "beta"]
       ("  " ++ newline)
     = Returns (named "alpha") None.
Proof.
  split; [reflexivity|]. split.
  - apply C10_fallback_defaults_to_first. left. reflexivity.
  - apply C10_fallback_defaults_to_first. right. exists "  ". split; reflexivity.
Defined.

End Instances.

(** * More of the selector *)

Section SelectorRuns.

Import prompt ui props.

Variable Search : list Prompt -> string -> search.Options -> list Prompt.

Local Abbreviation applyQuery := (ui.applyQuery Search).
Local Abbreviation backspace := (ui.backspace Search).
Local Abbreviation clearQuery := (ui.clearQuery Search).
Local Abbreviation handleRunes := (ui.handleRunes Search).
Local Abbreviation keySwitch := (ui.keySwitch Search).
Local Abbreviation Update := (ui.Update Search).
Local Abbreviation newSelectorModel := (ui.newSelectorModel Search).

Ltac fields :=
  cbn [cursor filtered allPrompts query mode cancelled width height ready
       filterOpts uiOpts set_cursor set_filtered set_query set_mode
       set_cancelled set_size fst snd negb] in *.

(** What the cursor moves, the mode toggle, the cancel flag and a resize
    keep, every message keeps in navigation mode, where nothing runs the
    filter step. *)
Lemma Update_navigating (P : selectorModel -> Prop) :
  (forall m c, P m -> P (set_cursor c m)) ->
  (forall m v, P m -> P (set_mode v m)) ->
  (forall m, P m -> P (set_cancelled true m)) ->
  (forall m w h, P m -> P (set_size w h m)) ->
  forall msg m, mode m = modeNavigate -> P m -> P (fst (Update msg m)).
Proof.
  intros Hcur Hmode Hcan Hsize.
  assert (Hup : forall m, P m -> P (moveUp m)).
  { intros m Hm. unfold moveUp. destruct (Go.len (filtered m) =? 0); [exact Hm|].
    destruct (cursor m =? 0); now apply Hcur. }
  assert (Hdown : forall m, P m -> P (moveDown m)).
  { intros m Hm. unfold moveDown.
    destruct (Go.len (filtered m) =? 0); [exact Hm | now apply Hcur]. }
  assert (Hmup : forall m, mode (moveUp m) = mode m).
  { intros m. unfold moveUp. destruct (Go.len (filtered m) =? 0); [reflexivity|].
    destruct (cursor m =? 0); reflexivity. }
  assert (Hmdown : forall m, mode (moveDown m) = mode m).
  { intros m. unfold moveDown.
    destruct (Go.len (filtered m) =? 0); reflexivity. }
  assert (Hrunes : forall rs m, mode m = modeNavigate -> P m ->
                                P (fst (handleRunes rs m))).
  { intros rs m Hnav Hm. unfold ui.handleRunes.
    destruct (Go.len rs =? 0); [exact Hm|]. rewrite Hnav. cbn [fst].
    destruct rs as [|r [|r' rs']]; try exact Hm.
    destruct ((r =? 106) || (r =? 74)); [now apply Hdown|].
    destruct ((r =? 107) || (r =? 75)); [now apply Hup | exact Hm]. }
  intros msg m Hnav Hm. destruct msg as [k|w h|]; cbn [ui.Update fst];
    [| now apply Hsize | exact Hm].
  assert (Hsw : match keySwitch (tea.String_ k) m with
                | Return_ m' _ => P m'
                | FallOut m' => P m' /\ mode m' = modeNavigate
                end).
  { unfold ui.keySwitch.
    repeat match goal with
           | |- context [if isOneOf ?a ?l then _ else _] => destruct (isOneOf a l)
           end; rewrite ?Hnav; cbv beta iota;
      first [ exact Hm | now apply Hup | now apply Hdown | now apply Hcan
            | unfold toggleMode; rewrite Hnav; now apply Hmode
            | destruct (Go.len (filtered m) =? 0); [now apply Hcan | exact Hm]
            | split; [now apply Hup | now rewrite Hmup]
            | split; [now apply Hdown | now rewrite Hmdown]
            | split; [exact Hm | first [exact Hnav | reflexivity]] ]. }
  destruct (keySwitch (tea.String_ k) m) as [m' c|m']; [exact Hsw|].
  destruct Hsw as [Hm' Hnav'].
  destruct (tea.Type_ k); try exact Hm'.
  destruct (Go.len (tea.Runes k) >? 0); [now apply Hrunes | exact Hm'].
Qed.

(** X1. In navigation mode no message edits the query: whatever arrives
    (runes, deletion, clear, keys of any kind), the query, the filtered view
    and the prompts stay what they were; only cursor, mode, cancel flag and
    size can change. *)
Theorem X1_navigation_never_edits msg m :
  mode m = modeNavigate ->
  query (fst (Update msg m)) = query m
  /\ filtered (fst (Update msg m)) = filtered m
  /\ allPrompts (fst (Update msg m)) = allPrompts m.
Proof.
  intros Hnav.
  apply (Update_navigating
           (fun m' => query m' = query m /\ filtered m' = filtered m
                      /\ allPrompts m' = allPrompts m));
    [ intros ? ? H; exact H | intros ? ? H; exact H | intros ? H; exact H
    | intros ? ? ? H; exact H | exact Hnav | repeat split ].
Qed.

(** What every field write (the cancel flag only ever set) and the filter
    step keep, [Update] keeps. *)
Lemma Update_keeps (P : selectorModel -> Prop) :
  (forall m c, P m -> P (set_cursor c m)) ->
  (forall m v, P m -> P (set_mode v m)) ->
  (forall m, P m -> P (set_cancelled true m)) ->
  (forall m w h, P m -> P (set_size w h m)) ->
  (forall m q, P m -> P (applyQuery q m)) ->
  forall msg m, P m -> P (fst (Update msg m)).
Proof.
  intros Hcur Hmode Hcan Hsize Hquery.
  assert (Hup : forall m, P m -> P (moveUp m)).
  { intros m Hm. unfold moveUp. destruct (Go.len (filtered m) =? 0); [exact Hm|].
    destruct (cursor m =? 0); now apply Hcur. }
  assert (Hdown : forall m, P m -> P (moveDown m)).
  { intros m Hm. unfold moveDown.
    destruct (Go.len (filtered m) =? 0); [exact Hm | now apply Hcur]. }
  assert (Hback : forall m, P m -> P (backspace m)).
  { intros m Hm. unfold ui.backspace.
    destruct (query m =? "")%string; [exact Hm | now apply Hquery]. }
  assert (Hclear : forall m, P m -> P (clearQuery m)).
  { intros m Hm. unfold ui.clearQuery.
    destruct (query m =? "")%string; [exact Hm | now apply Hquery]. }
  assert (Hrunes : forall rs m, P m -> P (fst (handleRunes rs m))).
  { intros rs m Hm. unfold ui.handleRunes.
    destruct (Go.len rs =? 0); [exact Hm|]. destruct (mode m).
    - destruct ((query m =? "")%string && isDigits rs); cbn [fst];
        [|now apply Hquery].
      destruct (Go.Atoi (Go.runesToString rs)) as [idx|]; [|exact Hm].
      destruct ((idx >=? 1) && (idx <=? Go.len (filtered m)));
        [now apply Hcur | exact Hm].
    - cbn [fst]. destruct rs as [|r [|r' rs']]; try exact Hm.
      destruct ((r =? 106) || (r =? 74)); [now apply Hdown|].
      destruct ((r =? 107) || (r =? 75)); [now apply Hup | exact Hm]. }
  intros msg m Hm. destruct msg as [k|w h|]; cbn [ui.Update fst];
    [| now apply Hsize | exact Hm].
  assert (Hsw : match keySwitch (tea.String_ k) m with
                | Return_ m' _ | FallOut m' => P m'
                end).
  { unfold ui.keySwitch.
    repeat match goal with
           | |- context [if isOneOf ?a ?l then _ else _] => destruct (isOneOf a l)
           end;
      try destruct (mode m) eqn:Emode;
      first [ exact Hm | now apply Hup | now apply Hdown | now apply Hback
            | now apply Hclear | now apply Hcan
            | unfold toggleMode; rewrite Emode; now apply Hmode
            | destruct (Go.len (filtered m) =? 0); [now apply Hcan | exact Hm] ]. }
  destruct (keySwitch (tea.String_ k) m) as [m' c|m']; [exact Hsw|].
  destruct (tea.Type_ k); try exact Hsw.
  destruct (Go.len (tea.Runes k) >? 0); [now apply Hrunes | exact Hsw].
Qed.

Lemma feedAll_keeps (P : selectorModel -> Prop) :
  (forall msg m, P m -> P (fst (Update msg m))) ->
  forall msgs m, P m -> P (feedAll Search msgs m).
Proof.
  intros Hstep msgs. induction msgs as [|msg msgs IH]; intros m Hm; [exact Hm|].
  cbn [feedAll fold_left]. apply IH. now apply Hstep.
Qed.

(** X2. Once the cancel flag is set it stays set: whatever messages the
    model still receives, it remains cancelled and the selector's answer is
    [ErrInvalidSelection], never a prompt. *)
Theorem X2_cancelled_stays_cancelled msgs m :
  cancelled m = true ->
  cancelled (feedAll Search msgs m) = true
  /\ selection (feedAll Search msgs m)
     = Returns prompt.zero (Some ErrInvalidSelection).
Proof.
  intros Hc.
  assert (H : cancelled (feedAll Search msgs m) = true).
  { apply (feedAll_keeps (fun m' => cancelled m' = true)); [|exact Hc].
    apply Update_keeps; try (intros; assumption); [reflexivity|].
    intros m' q H. now destruct (applyQuery_frame Search q m') as (_ & _ & _ & -> & _). }
  split; [exact H|]. unfold selection. now rewrite H.
Qed.

(** X3. The snapshot of prompts and the options given at construction are
    never written again: after any messages the model still holds the same
    prompts, search options and rendering options. *)
Theorem X3_snapshot_is_fixed msgs m :
  allPrompts (feedAll Search msgs m) = allPrompts m
  /\ filterOpts (feedAll Search msgs m) = filterOpts m
  /\ ui.uiOpts (feedAll Search msgs m) = ui.uiOpts m.
Proof.
  apply (feedAll_keeps
           (fun m' => allPrompts m' = allPrompts m /\ filterOpts m' = filterOpts m
                      /\ ui.uiOpts m' = ui.uiOpts m)); [|repeat split].
  apply Update_keeps; try (intros; assumption).
  intros m' q (Ha & Ho & Hu). destruct (applyQuery_frame Search q m') as (-> & _ & _ & _ & ->).
  repeat split; try assumption.
  unfold ui.applyQuery. fields.
  repeat match goal with
         | |- context [if ?b then _ else _] => destruct b; fields
         end; exact Hu.
Qed.

(** *** The answer of the interactive selector *)

Lemma StartReturningModel_reachable feed : forall m sel e,
  reachable Search m ->
  ui.StartReturningModel Search m feed = Some (sel, e) ->
  reachable Search sel /\ allPrompts sel = allPrompts m.
Proof.
  induction feed as [msg rest IH|msg|]; intros m sel e Hr H;
    cbn [ui.StartReturningModel] in H; [| |discriminate].
  - pose proof (reach_step Search m msg Hr) as Hr'.
    pose proof (Update_allPrompts Search msg m) as Ha.
    destruct (Update msg m) as [m' c]. cbn [fst] in Hr', Ha. destruct c.
    + destruct (IH m' sel e Hr' H) as [H1 H2]. split; [exact H1 | congruence].
    + inversion H; subst. split; assumption.
  - inversion H; subst. split; [assumption | reflexivity].
Qed.

Lemma newSelectorModel_allPrompts prompts q opts ui0 :
  allPrompts (newSelectorModel prompts q opts ui0) = prompts.
Proof.
  unfold ui.newSelectorModel.
  now destruct (applyQuery_frame Search q
                  {| allPrompts := prompts; filtered := []; cursor := 0;
                     cancelled := false; width := 0; height := 0; ready := false;
                     query := ""; filterOpts := opts;
                     uiOpts := normalizeOptions ui0; mode := modeFilter |})
    as (-> & _).
Qed.

(** The cursor of every state reached over given prompts is in place, when
    the ranking engine answers slices for these prompts. *)
Lemma viewed_fits m :
  (forall q o, Go.len (Search (allPrompts m) q o) <= Go.MaxInt) ->
  Go.len (allPrompts m) <= Go.MaxInt -> viewed Search m -> slicesFit m.
Proof.
  intros Hs Hfit Hv. split; [exact Hfit|]. rewrite Hv. unfold viewOf.
  destruct (Go.TrimSpace (query m) =? "")%string;
    [now rewrite sortPrompts_len | apply Hs].
Qed.

Lemma reachable_cursor_over m :
  reachable Search m ->
  (forall q o, Go.len (Search (allPrompts m) q o) <= Go.MaxInt) ->
  Go.len (allPrompts m) <= Go.MaxInt ->
  slicesFit m /\ cursorInv m.
Proof.
  induction 1 as [prompts q opts ui0|m msg Hr IH]; intros Hs Hfit.
  - split; [apply viewed_fits; [exact Hs | exact Hfit | apply newSelectorModel_viewed]|].
    apply newSelectorModel_cursor. now rewrite newSelectorModel_allPrompts in Hfit.
  - split.
    + apply viewed_fits; [exact Hs | exact Hfit |].
      apply Update_viewed. now apply reachable_viewed.
    + rewrite Update_allPrompts in Hfit, Hs. destruct (IH Hs Hfit) as [Hf Hc].
      now apply Update_cursor.
Qed.

Lemma index_in_range {A} (l : list A) i :
  0 <= i < Go.len l -> exists x, Go.index l i = Some x /\ In x l.
Proof.
  intros Hi. unfold Go.index. replace (i <? 0) with false by lia.
  destruct (nth_error l (Z.to_nat i)) as [x|] eqn:E.
  - exists x. split; [reflexivity | now apply (nth_error_In l (Z.to_nat i))].
  - apply nth_error_None in E. unfold Go.len in Hi. lia.
Qed.

Lemma index_in {A} (l : list A) i x : Go.index l i = Some x -> In x l.
Proof.
  unfold Go.index. destruct (i <? 0); [discriminate|]. apply nth_error_In.
Qed.

(** X4. The interactive selector never indexes outside its view: over
    prompts and ranking results whose lengths are [int]s, whatever the
    messages, [runInteractiveSelector] returns (or waits) and does not
    panic. *)
Theorem X4_selector_never_panics prompts q opts ui0 feed :
  Go.len prompts <= Go.MaxInt ->
  (forall q' o, Go.len (Search prompts q' o) <= Go.MaxInt) ->
  runInteractiveSelector Search prompts q opts ui0 feed <> Panics.
Proof.
  intros Hfit Hs. unfold runInteractiveSelector.
  destruct (ui.StartReturningModel Search _ feed) as [[sel [e|]]|] eqn:E;
    try discriminate.
  destruct (StartReturningModel_reachable feed _ _ _ (reach_new Search prompts q opts ui0) E)
    as [Hr Ha].
  rewrite newSelectorModel_allPrompts in Ha.
  destruct (reachable_cursor_over sel) as [_ Hc];
    [exact Hr | now rewrite Ha | now rewrite Ha |].
  unfold selection. destruct (cancelled sel); [discriminate|]. cbn [orb].
  destruct (Z.eqb_spec (Go.len (filtered sel)) 0); [discriminate|].
  apply cursorInv_len in Hc.
  destruct (index_in_range (filtered sel) (cursor sel)) as (p & -> & _);
    [lia | discriminate].
Qed.

(** X5. A prompt the interactive selector returns without error is one of
    the prompts it was given, provided the ranking engine only ever returns
    candidates. *)
Theorem X5_selection_is_a_given_prompt prompts q opts ui0 feed p :
  (forall q' o x, In x (Search prompts q' o) -> In x prompts) ->
  runInteractiveSelector Search prompts q opts ui0 feed = Returns p None ->
  In p prompts.
Proof.
  intros Hsub. unfold runInteractiveSelector.
  destruct (ui.StartReturningModel Search _ feed) as [[sel [e|]]|] eqn:E;
    try discriminate.
  destruct (StartReturningModel_reachable feed _ _ _ (reach_new Search prompts q opts ui0) E)
    as [Hr Ha].
  rewrite newSelectorModel_allPrompts in Ha.
  unfold selection. destruct (cancelled sel || (Go.len (filtered sel) =? 0));
    [discriminate|].
  destruct (Go.index (filtered sel) (cursor sel)) as [x|] eqn:Ei; [|discriminate].
  intros H. inversion H; subst x. apply index_in in Ei.
  rewrite (reachable_viewed Search sel Hr) in Ei. unfold viewOf in Ei. rewrite Ha in Ei.
  destruct (Go.TrimSpace (query sel) =? "")%string.
  - now apply (Permutation_in _ (sortPrompts_perm prompts)).
  - now apply Hsub in Ei.
Qed.

(** X6. A confirm on a view that is not empty, cursor in place and not
    cancelled, ends the session with the model untouched, and the selector's
    answer is the entry under the cursor. *)
Theorem X6_confirm_returns_the_cursor_entry m rest :
  cursorInv m -> filtered m <> [] -> cancelled m = false ->
  exists p,
    Go.index (filtered m) (cursor m) = Some p
    /\ ui.StartReturningModel Search m (Deliver (tea.press tea.KeyEnter) rest)
       = Some (m, None)
    /\ selection m = Returns p None.
Proof.
  intros Hc Hne Hcan. apply cursorInv_len in Hc.
  assert (Hlen : Go.len (filtered m) <> 0) by (now rewrite len_zero_iff).
  destruct (index_in_range (filtered m) (cursor m)) as (p & Hp & _); [lia|].
  exists p. split; [exact Hp|]. cbn [ui.StartReturningModel].
  rewrite Update_press_enter. unfold selection. rewrite Hcan, Hp.
  destruct (Z.eqb_spec (Go.len (filtered m)) 0); [contradiction|]. split; reflexivity.
Qed.

(** X7. The clear key (ctrl+u) in typing mode, in any state of the selector,
    leaves an empty query and the view of the empty query: all prompts in
    name order. *)
Theorem X7_clear_shows_everything m :
  reachable Search m -> mode m = modeFilter ->
  query (fst (Update (tea.press tea.KeyCtrlU) m)) = ""
  /\ filtered (fst (Update (tea.press tea.KeyCtrlU) m)) = sortPrompts (allPrompts m).
Proof.
  intros Hr Hm.
  assert (E : Update (tea.press tea.KeyCtrlU) m = (clearQuery m, tea.CmdNil)).
  { cbv delta [ui.Update] beta. cbn. now rewrite Hm. }
  rewrite E. cbn [fst]. unfold ui.clearQuery.
  destruct (String.eqb_spec (query m) "") as [Hq|Hq].
  - split; [exact Hq|]. apply (viewed_empty_query Search); [|exact Hq].
    now apply reachable_viewed.
  - destruct (applyQuery_frame Search "" m) as (_ & -> & _).
    split; [reflexivity|]. now rewrite applyQuery_filtered.
Qed.

(** X8. Typing one character and deleting it again is a round trip. In
    typing mode, from any state of the selector whose query is well-formed
    UTF-8 (the encoding of some runes), a typed rune that is not taken for a
    jump is appended to the query, encoded, and the view becomes the view of
    the longer query; one deletion then gives back the query and the view as
    they were. *)
Theorem X8_type_and_delete_one m k r rs :
  reachable Search m -> mode m = modeFilter ->
  query m = Go.runesToString rs ->
  tea.Type_ k = tea.KeyRunes -> tea.Runes k = [r] ->
  (query m =? "")%string && isDigits [r] = false ->
  let m1 := fst (Update (tea.KeyMsg k) m) in
  let m2 := fst (Update (tea.press tea.KeyBackspace) m1) in
  query m1 = (query m ++ Go.encodeRune r)%string
  /\ filtered m1 = viewOf Search m (query m1)
  /\ query m2 = query m /\ filtered m2 = filtered m.
Proof.
  intros Hr Hm Hq Ht Hk Hnd m1 m2.
  assert (E1 : m1 = applyQuery (query m ++ Go.encodeRune r) m).
  { unfold m1. rewrite (Update_one_rune_typing Search k r m Ht Hk Hm).
    unfold ui.handleRunes. change (Go.len [r] =? 0) with false. cbv iota.
    rewrite Hm, Hnd. cbn [fst Go.runesToString]. now rewrite append_empty_r. }
  destruct (applyQuery_frame Search (query m ++ Go.encodeRune r) m)
    as (Ha1 & Hq1 & Hm1 & _ & Ho1).
  rewrite <- E1 in Ha1, Hq1, Hm1, Ho1.
  assert (Hv1 : filtered m1 = viewOf Search m (query m1)).
  { rewrite E1 at 1. rewrite applyQuery_filtered, Hq1. reflexivity. }
  assert (E2 : m2 = applyQuery (query m) m1).
  { unfold m2. rewrite Update_press_backspace, Hm1, Hm. cbn [fst].
    unfold ui.backspace.
    destruct (String.eqb_spec (query m1) "") as [Hz|_].
    - rewrite Hq1 in Hz. destruct (encodeRune_shape r) as (a & s & He & _).
      rewrite He in Hz. destruct (query m); discriminate.
    - f_equal. rewrite Hq1, Hq.
      replace (Go.runesToString rs ++ Go.encodeRune r)%string
        with (Go.runesToString (rs ++ [r]))
        by (rewrite runesToString_app; cbn [Go.runesToString];
            now rewrite append_empty_r).
      rewrite stringToRunes_runesToString, map_removelast, removelast_last.
      apply runesToString_scalar. }
  destruct (applyQuery_frame Search (query m) m1) as (Ha2 & Hq2 & _).
  rewrite <- E2 in Ha2, Hq2.
  split; [exact Hq1|]. split; [exact Hv1|]. split; [exact Hq2|].
  rewrite E2, applyQuery_filtered, Ha1, Ho1.
  symmetry. apply (reachable_viewed Search m Hr).
Qed.

End SelectorRuns.

(** ** The view's text *)

Section RenderFacts.

Import prompt ui props render.

(** X9. The window of the list that [View] shows: for a cursor inside a
    list of [total] entries and room for at least one entry, the window
    stays inside the list, holds the cursor, and shows as many entries as
    fit (all of them when there is room). *)
Theorem X9_window_holds_the_cursor total cursor maxItems :
  0 <= cursor < total -> 1 <= maxItems -> 2 * total <= Go.MaxInt ->
  let (s, e) := visibleRange total cursor maxItems in
  0 <= s /\ s <= cursor < e /\ e <= total /\ e - s = Z.min total maxItems.
Proof.
  intros Hc Hm Ht. unfold visibleRange, GoText.int_quot.
  destruct (Z.leb_spec total maxItems); [lia|].
  replace (cursor <? 0) with false by lia.
  assert (Hq : 0 <= Z.quot maxItems 2 < maxItems)
    by (Z.to_euclidean_division_equations; lia).
  unfold Go.MaxInt in Ht.
  rewrite (int_sub_small cursor) by (unfold Go.MinInt, Go.MaxInt; lia).
  set (start := if cursor - Z.quot maxItems 2 <? 0 then 0 else cursor - Z.quot maxItems 2).
  assert (Hs : 0 <= start <= cursor /\ cursor < start + maxItems)
    by (unfold start; destruct (Z.ltb_spec (cursor - Z.quot maxItems 2) 0); lia).
  rewrite (int_add_small start) by (unfold Go.MinInt, Go.MaxInt; lia).
  destruct (Z.gtb_spec (start + maxItems) total).
  - rewrite int_sub_small by (unfold Go.MinInt, Go.MaxInt; lia).
    rewrite int_add_small by (unfold Go.MinInt, Go.MaxInt; lia). lia.
  - rewrite int_add_small by (unfold Go.MinInt, Go.MaxInt; lia). lia.
Qed.

Lemma stripRunes_shorter rs : forall skip,
  (List.length (stripRunes skip rs) <= List.length rs)%nat.
Proof.
  induction rs as [|r rs IH]; intros skip; cbn [stripRunes List.length]; [lia|].
  destruct (r =? 27); [specialize (IH true); lia|].
  destruct skip.
  - destruct ((r >=? 97) && (r <=? 122) || (r >=? 65) && (r <=? 90));
      [specialize (IH false) | specialize (IH true)]; lia.
  - cbn [List.length]. specialize (IH false). lia.
Qed.

Lemma RuneCount_runesToString rs :
  GoText.RuneCountInString (Go.runesToString rs) = Go.len rs.
Proof.
  unfold GoText.RuneCountInString, Go.len.
  now rewrite stringToRunes_runesToString, length_map.
Qed.

Lemma displayWidth_le_count text :
  displayWidth text <= GoText.RuneCountInString text.
Proof.
  unfold displayWidth, stripANSI. rewrite RuneCount_runesToString.
  unfold GoText.RuneCountInString, Go.len.
  pose proof (stripRunes_shorter (Go.stringToRunes text) false). lia.
Qed.

Lemma ellipsis_rune : ellipsis = Go.runesToString [8230].
Proof. vm_compute. reflexivity. Qed.

Lemma truncate_fits text length :
  length <= Go.MaxInt -> displayWidth (truncate text length) <= Z.max 0 length.
Proof.
  intros Hl. unfold truncate.
  destruct (Z.leb_spec length 0); [vm_compute (displayWidth ""); lia|].
  destruct (Z.leb_spec (displayWidth text) length); [lia|].
  destruct (Z.leb_spec (Go.len (Go.stringToRunes text)) length).
  { pose proof (displayWidth_le_count text). unfold GoText.RuneCountInString in *. lia. }
  destruct (Z.leb_spec length 1).
  { replace (displayWidth ellipsis) with 1 by (vm_compute; reflexivity). lia. }
  rewrite int_sub_small by (unfold Go.MinInt, Go.MaxInt in *; lia).
  rewrite ellipsis_rune, <- runesToString_app.
  eapply Z.le_trans; [apply displayWidth_le_count|].
  rewrite RuneCount_runesToString. unfold Go.len in *.
  rewrite length_app, length_firstn. cbn [List.length]. lia.
Qed.


(** Decoding goes through a place where a byte below 128 starts. *)
Lemma stringToRunes_app_ascii c t n : forall s,
  (String.length s <= n)%nat -> Go.byteZ c < 128 ->
  Go.stringToRunes (s ++ String c t)
  = (Go.stringToRunes s ++ Go.stringToRunes (String c t))%list.
Proof.
  induction n as [|n IH]; intros s Hn Hc.
  { destruct s; [reflexivity | cbn in Hn; lia]. }
  assert (HcC : Go.isCont (Go.byteZ c) = false) by (unfold Go.isCont; lia).
  assert (HcS : forall b0, Go.secondOk b0 (Go.byteZ c) = false).
  { intros b0. unfold Go.secondOk, Go.isCont.
    repeat match goal with
           | |- context [if ?b then _ else _] => destruct b
           end; lia. }
  destruct s as [|a0 s1]; [reflexivity|].
  assert (Hrec : forall y, (String.length y <= String.length s1)%nat ->
                           Go.stringToRunes (y ++ String c t)
                           = (Go.stringToRunes y ++ Go.stringToRunes (String c t))%list).
  { intros y Hy. apply IH; [cbn [String.length] in Hn; lia | exact Hc]. }
  clear IH.
  destruct s1 as [|a1 [|a2 [|a3 s4]]]; cbn [append];
    rewrite !(stringToRunes_cons a0); cbv zeta;
    rewrite ?HcC, ?HcS, ?andb_false_r; cbn [andb];
    repeat match goal with
           | |- context [if ?b then _ else _] => destruct b
           end;
    cbn [app]; try reflexivity; f_equal;
    try match goal with
    | |- Go.stringToRunes _ = (Go.stringToRunes ?y ++ _)%list =>
      exact (Hrec y ltac:(cbn [String.length]; lia))
    end.
  all: repeat match goal with
              | |- context [match ?x with "" => _ | String _ _ => _ end] =>
                is_var x; destruct x
              end; reflexivity.
Qed.

Lemma stringToRunes_app_ascii' s c t :
  Go.byteZ c < 128 ->
  Go.stringToRunes (s ++ String c t)
  = (Go.stringToRunes s ++ Go.stringToRunes (String c t))%list.
Proof. apply (stringToRunes_app_ascii c t (String.length s)). lia. Qed.

Lemma stripRunes_app rs1 : forall skip rs2,
  exists skip',
    stripRunes skip (rs1 ++ rs2) = (stripRunes skip rs1 ++ stripRunes skip' rs2)%list.
Proof.
  induction rs1 as [|r rs1 IH]; intros skip rs2; cbn [app stripRunes].
  - now exists skip.
  - destruct (r =? 27); [apply IH|]. destruct skip.
    + destruct ((r >=? 97) && (r <=? 122) || (r >=? 65) && (r <=? 90)); apply IH.
    + destruct (IH false rs2) as (skip' & E). exists skip'. cbn [app]. now rewrite E.
Qed.

Lemma stripRunes_after_reset rs : forall skip,
  stripRunes skip (rs ++ [27; 91; 48; 109]) = stripRunes skip rs.
Proof.
  induction rs as [|r rs IH]; intros skip; [reflexivity|].
  cbn [app stripRunes]. destruct (r =? 27); [apply IH|]. destruct skip.
  - destruct ((r >=? 97) && (r <=? 122) || (r >=? 65) && (r <=? 90)); apply IH.
  - now rewrite IH.
Qed.

Lemma highlight_runes text :
  Go.stringToRunes (highlight text)
  = ([27; 91; 51; 56; 59; 53; 59; 50; 49; 51; 109]
       ++ (Go.stringToRunes text ++ [27; 91; 48; 109]))%list.
Proof.
  unfold highlight, escape. cbn [append].
  rewrite !decode1 by (vm_compute; reflexivity).
  rewrite stringToRunes_app_ascii' by (vm_compute; reflexivity).
  reflexivity.
Qed.

(** X12. Highlighting is invisible to the layout: the colour codes that
    [highlight] puts around a text are exactly what [stripANSI] removes, so
    the text has the display width it had. *)
Theorem X12_highlight_keeps_width text :
  stripANSI (highlight text) = stripANSI text
  /\ displayWidth (highlight text) = displayWidth text.
Proof.
  assert (E : stripANSI (highlight text) = stripANSI text).
  { unfold stripANSI. rewrite highlight_runes. f_equal.
    transitivity (stripRunes false (Go.stringToRunes text ++ [27; 91; 48; 109]));
      [reflexivity | apply stripRunes_after_reset]. }
  split; [exact E|]. unfold displayWidth. now rewrite E.
Qed.

Lemma scalar_27 r : r <> 27 -> Go.scalar r <> 27.
Proof.
  unfold Go.scalar, Go.RuneError. destruct (Go.ValidRune r); [auto | lia].
Qed.

Lemma stripRunes_no_escape rs : forall skip, ~ In 27 (stripRunes skip rs).
Proof.
  induction rs as [|r rs IH]; intros skip; cbn [stripRunes]; [auto|].
  destruct (Z.eqb_spec r 27); [apply IH|]. destruct skip.
  - destruct ((r >=? 97) && (r <=? 122) || (r >=? 65) && (r <=? 90)); apply IH.
  - intros [H|H]; [contradiction | now apply (IH false)].
Qed.

Lemma stripRunes_clean rs : ~ In 27 rs -> stripRunes false rs = rs.
Proof.
  induction rs as [|r rs IH]; intros H; cbn [stripRunes]; [reflexivity|].
  destruct (Z.eqb_spec r 27); [elim H; now left|].
  f_equal. apply IH. intros H'. apply H. now right.
Qed.

(** X13. What [stripANSI] returns holds no escape character, and stripping
    it again changes nothing. *)
Theorem X13_stripped_text_has_no_escape text :
  ~ In 27 (Go.stringToRunes (stripANSI text))
  /\ stripANSI (stripANSI text) = stripANSI text.
Proof.
  assert (H : ~ In 27 (Go.stringToRunes (stripANSI text))).
  { unfold stripANSI. rewrite stringToRunes_runesToString. intros H.
    apply in_map_iff in H. destruct H as (r & Hr & Hin).
    destruct (Z.eq_dec r 27) as [->|Hne]; [now apply stripRunes_no_escape in Hin|].
    now apply scalar_27 in Hne. }
  split; [exact H|].
  unfold stripANSI at 1. rewrite stripRunes_clean by exact H.
  unfold stripANSI. now rewrite stringToRunes_runesToString, runesToString_scalar.
Qed.

(** X11. A prompt's title line fits its room: with or without tags, it is
    no wider than the width less four columns, and no wider than the
    truncate length when that is positive. *)
Theorem X11_title_fits_the_width p width truncateLength :
  Go.MinInt + 4 <= width <= Go.MaxInt -> truncateLength <= Go.MaxInt ->
  displayWidth (renderPromptTitle p width truncateLength) <= Z.max 0 (width - 4)
  /\ (0 < truncateLength ->
      displayWidth (renderPromptTitle p width truncateLength) <= truncateLength).
Proof.
  intros Hw Ht. unfold renderPromptTitle.
  rewrite int_sub_small by (unfold Go.MinInt, Go.MaxInt in *; lia).
  set (limit := if (truncateLength >? 0) && (truncateLength <? width - 4)
                then truncateLength else width - 4).
  assert (Hl : limit <= Go.MaxInt /\ limit <= width - 4
               /\ (0 < truncateLength -> Z.max 0 limit <= truncateLength)).
  { unfold limit.
    destruct (Z.gtb_spec truncateLength 0), (Z.ltb_spec truncateLength (width - 4));
      cbn [andb]; unfold Go.MaxInt in *; lia. }
  destruct Hl as (Hl1 & Hl2 & Hl3).
  assert (H : forall text, displayWidth (truncate text limit) <= Z.max 0 limit)
    by (intros; now apply truncate_fits).
  destruct (Go.len (Tags p) =? 0);
    match goal with |- displayWidth (truncate ?x _) <= _ /\ _ => specialize (H x) end;
    split; lia.
Qed.


(** *** Lines: splitting and joining *)

Lemma splitWhere_nonempty isSep s : GoText.splitWhere isSep s <> [].
Proof.
  destruct s as [|a s]; cbn [GoText.splitWhere]; [discriminate|].
  destruct (isSep (Go.byteZ a)); [discriminate|].
  destruct (GoText.splitWhere isSep s); discriminate.
Qed.

Lemma Join_cons_byte a x xs sep :
  GoText.Join (String a x :: xs) sep = String a (GoText.Join (x :: xs) sep).
Proof. destruct xs; reflexivity. Qed.

(** Joining the pieces with the separator gives the string back. *)
Lemma Join_splitWhere isSep c s :
  (forall a, isSep (Go.byteZ a) = true -> a = c) ->
  GoText.Join (GoText.splitWhere isSep s) (String c "") = s.
Proof.
  intros Hsep. induction s as [|a s IH]; [reflexivity|].
  cbn [GoText.splitWhere]. pose proof (splitWhere_nonempty isSep s) as Hne.
  destruct (isSep (Go.byteZ a)) eqn:E.
  - apply Hsep in E. subst a.
    destruct (GoText.splitWhere isSep s) as [|x xs]; [contradiction|].
    cbn [GoText.Join append] in *. now rewrite IH.
  - destruct (GoText.splitWhere isSep s) as [|x xs]; [contradiction|].
    now rewrite Join_cons_byte, IH.
Qed.

Lemma splitWhere_pieces isSep s :
  Forall (fun x => GoText.noByte isSep x = true) (GoText.splitWhere isSep s).
Proof.
  induction s as [|a s IH]; cbn [GoText.splitWhere]; [repeat constructor|].
  destruct (isSep (Go.byteZ a)) eqn:E; [now constructor|].
  destruct (GoText.splitWhere isSep s) as [|x xs]; [repeat constructor; cbn; now rewrite E|].
  inversion IH; subst. constructor; [cbn [GoText.noByte]; now rewrite E | assumption].
Qed.

Lemma splitWhere_app isSep c x rest :
  GoText.noByte isSep x = true -> isSep (Go.byteZ c) = true ->
  GoText.splitWhere isSep (x ++ String c rest) = x :: GoText.splitWhere isSep rest.
Proof.
  intros Hx Hc. induction x as [|a x IH]; cbn [append GoText.splitWhere].
  - now rewrite Hc.
  - cbn [GoText.noByte] in Hx. apply andb_true_iff in Hx as [Ha Hx].
    apply negb_true_iff in Ha. rewrite Ha, (IH Hx). reflexivity.
Qed.

Lemma splitWhere_whole isSep x :
  GoText.noByte isSep x = true -> GoText.splitWhere isSep x = [x].
Proof.
  induction x as [|a x IH]; intros Hx; [reflexivity|].
  cbn [GoText.noByte] in Hx. apply andb_true_iff in Hx as [Ha Hx].
  apply negb_true_iff in Ha. cbn [GoText.splitWhere]. now rewrite Ha, (IH Hx).
Qed.

(** Splitting what was joined gives the elements back, when none holds a
    separator. *)
Lemma splitWhere_Join isSep c elems :
  isSep (Go.byteZ c) = true -> elems <> [] ->
  Forall (fun x => GoText.noByte isSep x = true) elems ->
  GoText.splitWhere isSep (GoText.Join elems (String c "")) = elems.
Proof.
  intros Hc Hne Hall. induction elems as [|x [|y rest] IH]; [contradiction| |].
  - inversion Hall; subst. now apply splitWhere_whole.
  - inversion Hall as [|? ? Hx Hrest]; subst.
    change (GoText.Join (x :: y :: rest) (String c ""))
      with (x ++ String c (GoText.Join (y :: rest) (String c ""))).
    rewrite splitWhere_app by assumption. f_equal. apply IH; [discriminate | assumption].
Qed.

Lemma noByte_app test a b :
  GoText.noByte test (a ++ b) = GoText.noByte test a && GoText.noByte test b.
Proof.
  induction a as [|x a IH]; cbn [append GoText.noByte]; [reflexivity|].
  now rewrite IH, andb_assoc.
Qed.

Lemma newline_only a : GoText.isNewline (Go.byteZ a) = true -> a = Go.zbyte 10.
Proof.
  unfold GoText.isNewline. intros H. apply Z.eqb_eq in H.
  now rewrite <- (zbyte_byteZ a), H.
Qed.

(** X14. [indent] puts the prefix in front of every line and changes
    nothing else: the lines of the result are the lines of the text, each
    with the prefix before it. *)
Theorem X14_indent_prefixes_every_line text prefix :
  text <> "" -> GoText.noByte GoText.isNewline prefix = true ->
  GoText.SplitLines (indent text prefix)
  = map (fun line => (prefix ++ line)%string) (GoText.SplitLines text).
Proof.
  intros Ht Hp. unfold indent. destruct (String.eqb_spec text ""); [contradiction|].
  unfold GoText.SplitLines, newline. apply splitWhere_Join.
  - vm_compute. reflexivity.
  - pose proof (splitWhere_nonempty GoText.isNewline text).
    destruct (GoText.splitWhere GoText.isNewline text); [contradiction | discriminate].
  - apply Forall_map. eapply Forall_impl; [|apply splitWhere_pieces].
    intros x Hx. cbv beta. now rewrite noByte_app, Hp, Hx.
Qed.

(** X15. The preview [snippet]: content of at most [maxLines] lines, once
    trimmed, is shown whole; of longer content the first [maxLines] lines
    are shown and one line with an ellipsis after them. *)
Theorem X15_snippet_shows_the_first_lines content maxLines :
  0 < maxLines ->
  let lines := GoText.SplitLines (Go.TrimSpace content) in
  (Go.len lines <= maxLines -> snippet content maxLines = Go.TrimSpace content)
  /\ (maxLines < Go.len lines ->
      GoText.SplitLines (snippet content maxLines)
      = (firstn (Z.to_nat maxLines) lines ++ [ellipsis])%list).
Proof.
  intros Hm lines. unfold snippet. fold lines.
  replace (maxLines <=? 0) with false by lia.
  assert (Hne : lines <> []) by apply splitWhere_nonempty.
  assert (Hlen : Go.len lines <> 0).
  { unfold Go.len. destruct lines; [contradiction | cbn; lia]. }
  replace (Go.len lines =? 0) with false by lia.
  split; intros H.
  - replace (Go.len lines >? maxLines) with false by lia.
    unfold lines, GoText.SplitLines, newline. apply Join_splitWhere.
    apply newline_only.
  - replace (Go.len lines >? maxLines) with true by lia.
    unfold GoText.SplitLines, newline. apply splitWhere_Join.
    + vm_compute. reflexivity.
    + destruct (firstn (Z.to_nat maxLines) lines); discriminate.
    + apply Forall_app. split; [|repeat constructor].
      assert (Hall : Forall (fun x => GoText.noByte GoText.isNewline x = true) lines)
        by apply splitWhere_pieces.
      rewrite <- (firstn_skipn (Z.to_nat maxLines) lines) in Hall.
      now apply Forall_app in Hall as [Hall _].
Qed.



End RenderFacts.

(** ** Reversal and trimming *)

Section TextFacts.

Lemma revString_acc s : forall acc,
  Go.revString s acc = (Go.revString s "" ++ acc)%string.
Proof.
  induction s as [|a s IH]; intros acc; cbn [Go.revString]; [reflexivity|].
  rewrite (IH (String a acc)), (IH (String a "")), append_assoc. reflexivity.
Qed.

Lemma revString_app a b :
  Go.revString (a ++ b) "" = (Go.revString b "" ++ Go.revString a "")%string.
Proof.
  induction a as [|x a IH]; cbn [append Go.revString].
  - now rewrite append_empty_r.
  - rewrite (revString_acc (a ++ b)), IH, (revString_acc a (String x "")).
    now rewrite append_assoc.
Qed.

Lemma revString_involutive s : Go.revString (Go.revString s "") "" = s.
Proof.
  induction s as [|a s IH]; [reflexivity|]. cbn [Go.revString].
  rewrite (revString_acc s (String a "")), revString_app, IH. reflexivity.
Qed.

Lemma noByte_rev test s :
  GoText.noByte test (Go.revString s "") = GoText.noByte test s.
Proof.
  induction s as [|a s IH]; [reflexivity|]. cbn [Go.revString].
  rewrite (revString_acc s (String a "")), noByte_app, IH. cbn [GoText.noByte].
  rewrite andb_true_r. apply andb_comm.
Qed.

Lemma trimLeftSpace_suffix n : forall s,
  (String.length s <= n)%nat -> exists pre, s = (pre ++ Go.trimLeftSpace s)%string.
Proof.
  induction n as [|n IH]; intros s Hn.
  - destruct s; [now exists "" | cbn in Hn; lia].
  - destruct s as [|a0 s1]; [now exists ""|]. cbn [Go.trimLeftSpace].
    cbn [String.length] in Hn.
    destruct (Go.asciiSpace (Go.byteZ a0)).
    + destruct (IH s1) as [pre E]; [lia|].
      exists (String a0 pre). cbn [append]. now rewrite <- E.
    + destruct s1 as [|a1 s2]; [now exists ""|]. cbn [String.length] in Hn.
      destruct (Go.space2 (Go.byteZ a0) (Go.byteZ a1)).
      * destruct (IH s2) as [pre E]; [lia|].
        exists (String a0 (String a1 pre)). cbn [append]. now rewrite <- E.
      * destruct s2 as [|a2 s3]; [now exists ""|]. cbn [String.length] in Hn.
        destruct (Go.space3 (Go.byteZ a0) (Go.byteZ a1) (Go.byteZ a2)); [|now exists ""].
        destruct (IH s3) as [pre E]; [lia|].
        exists (String a0 (String a1 (String a2 pre))). cbn [append]. now rewrite <- E.
Qed.

Lemma trimSpaceRev_suffix n : forall s,
  (String.length s <= n)%nat -> exists pre, s = (pre ++ Go.trimSpaceRev s)%string.
Proof.
  induction n as [|n IH]; intros s Hn.
  - destruct s; [now exists "" | cbn in Hn; lia].
  - destruct s as [|a0 s1]; [now exists ""|]. cbn [Go.trimSpaceRev].
    cbn [String.length] in Hn.
    destruct (Go.asciiSpace (Go.byteZ a0)).
    + destruct (IH s1) as [pre E]; [lia|].
      exists (String a0 pre). cbn [append]. now rewrite <- E.
    + destruct s1 as [|a1 s2]; [now exists ""|]. cbn [String.length] in Hn.
      destruct (Go.space2 (Go.byteZ a1) (Go.byteZ a0)).
      * destruct (IH s2) as [pre E]; [lia|].
        exists (String a0 (String a1 pre)). cbn [append]. now rewrite <- E.
      * destruct s2 as [|a2 s3]; [now exists ""|]. cbn [String.length] in Hn.
        destruct (Go.space3 (Go.byteZ a2) (Go.byteZ a1) (Go.byteZ a0)); [|now exists ""].
        destruct (IH s3) as [pre E]; [lia|].
        exists (String a0 (String a1 (String a2 pre))). cbn [append]. now rewrite <- E.
Qed.

(** Trimming white space only removes bytes. *)
Lemma noByte_TrimSpace test s :
  GoText.noByte test s = true -> GoText.noByte test (Go.TrimSpace s) = true.
Proof.
  intros H. unfold Go.TrimSpace, Go.trimRightSpace. rewrite noByte_rev.
  destruct (trimLeftSpace_suffix _ s (le_n _)) as [pre E].
  rewrite E, noByte_app in H. apply andb_true_iff in H as [_ H].
  rewrite <- (noByte_rev test) in H.
  destruct (trimSpaceRev_suffix _ (Go.revString (Go.trimLeftSpace s) "") (le_n _))
    as [pre' E'].
  rewrite E', noByte_app in H. now apply andb_true_iff in H as [_ H].
Qed.

Lemma dropLeading_suffix cut s :
  exists pre, s = (pre ++ GoText.dropLeading cut s)%string
              /\ GoText.noByte (fun b => negb (cut b)) pre = true.
Proof.
  induction s as [|a s (pre & E & Hpre)]; [now exists ""|].
  cbn [GoText.dropLeading]. destruct (cut (Go.byteZ a)) eqn:Ha.
  - exists (String a pre). cbn [append GoText.noByte]. rewrite <- E, Ha, Hpre.
    now split.
  - now exists "".
Qed.

Lemma dropLeading_idem cut s :
  GoText.dropLeading cut (GoText.dropLeading cut s) = GoText.dropLeading cut s.
Proof.
  induction s as [|a s IH]; [reflexivity|]. cbn [GoText.dropLeading].
  destruct (cut (Go.byteZ a)) eqn:Ha; [exact IH|]. cbn [GoText.dropLeading].
  now rewrite Ha.
Qed.

Lemma dropLeading_head cut s a r :
  GoText.dropLeading cut s = String a r -> cut (Go.byteZ a) = false.
Proof.
  induction s as [|b s IH]; cbn [GoText.dropLeading]; [discriminate|].
  destruct (cut (Go.byteZ b)) eqn:Hb; [exact IH|].
  intros E. inversion E; subst. exact Hb.
Qed.

End TextFacts.

(** ** The fallback selector *)

Section FallbackFacts.

Import prompt ui props.

Variable EqualFold : string -> string -> bool.
Variable ToLower : string -> string.

Lemma nameLoop_find text prompts : forall partialMatches,
  fallback.nameLoop EqualFold ToLower text prompts partialMatches
  = match find (fun p => EqualFold (Name p) text) prompts with
    | Some p => Returns p None
    | None =>
      match (partialMatches
             ++ filter (fun p => Go.Contains (ToLower (Name p)) (ToLower text)) prompts)%list
      with
      | p :: _ => Returns p None
      | [] => Returns prompt.zero (Some ErrInvalidSelection)
      end
    end.
Proof.
  induction prompts as [|p rest IH]; intros partialMatches;
    cbn [fallback.nameLoop find filter].
  - now rewrite app_nil_r.
  - destruct (EqualFold (Name p) text); [reflexivity|].
    destruct (Go.Contains (ToLower (Name p)) (ToLower text)); rewrite IH.
    + now rewrite <- app_assoc.
    + reflexivity.
Qed.

Lemma find_first {A} (f : A -> bool) before p after :
  f p = true -> (forall x, In x before -> f x = false) ->
  find f (before ++ p :: after) = Some p.
Proof.
  intros Hp. induction before as [|b before IH]; intros Hb; cbn [app find].
  - now rewrite Hp.
  - rewrite (Hb b) by now left. apply IH. intros x Hx. apply Hb. now right.
Qed.

Lemma find_none {A} (f : A -> bool) l :
  (forall x, In x l -> f x = false) -> find f l = None.
Proof.
  induction l as [|b l IH]; intros Hb; cbn [find]; [reflexivity|].
  rewrite (Hb b) by now left. apply IH. intros x Hx. apply Hb. now right.
Qed.

Lemma filter_first {A} (f : A -> bool) before p after :
  f p = true -> (forall x, In x before -> f x = false) ->
  filter f (before ++ p :: after) = p :: filter f after.
Proof.
  intros Hp. induction before as [|b before IH]; intros Hb; cbn [app filter].
  - now rewrite Hp.
  - rewrite (Hb b) by now left. apply IH. intros x Hx. apply Hb. now right.
Qed.

Lemma filter_none {A} (f : A -> bool) l :
  (forall x, In x l -> f x = false) -> filter f l = [].
Proof.
  induction l as [|b l IH]; intros Hb; cbn [filter]; [reflexivity|].
  rewrite (Hb b) by now left. apply IH. intros x Hx. apply Hb. now right.
Qed.

Lemma fallback_named prompts input line :
  Go.ScanLine input = Some line ->
  Go.TrimSpace line <> "" ->
  Go.Atoi (Go.TrimSpace line) = None ->
  selectPromptFallback EqualFold ToLower prompts input
  = match find (fun p => EqualFold (Name p) (Go.TrimSpace line)) prompts with
    | Some p => Returns p None
    | None =>
      match filter (fun p => Go.Contains (ToLower (Name p)) (ToLower (Go.TrimSpace line)))
                   prompts with
      | p :: _ => Returns p None
      | [] => Returns prompt.zero (Some ErrInvalidSelection)
      end
    end.
Proof.
  intros Hscan Hne Hnum. unfold selectPromptFallback. rewrite Hscan.
  apply String.eqb_neq in Hne. rewrite Hne, Hnum. reflexivity.
Qed.

(** X16. The fallback selector by name. When the first line of input, trimmed, is
    neither empty nor a number, the answer is what the loop over the prompts
    gives: the first prompt whose name equals the text up to case, wherever
    it stands; without one, the first prompt whose lower-cased name contains
    the lower-cased text; without one either, [ErrInvalidSelection]. *)
Theorem X16_fallback_by_name prompts input line :
  Go.ScanLine input = Some line ->
  Go.TrimSpace line <> "" ->
  Go.Atoi (Go.TrimSpace line) = None ->
  let text := Go.TrimSpace line in
  let result := selectPromptFallback EqualFold ToLower prompts input in
  result = fallback.nameLoop EqualFold ToLower text prompts []
  /\ (forall before p after,
        prompts = (before ++ p :: after)%list ->
        EqualFold (Name p) text = true ->
        (forall x, In x before -> EqualFold (Name x) text = false) ->
        result = Returns p None)
  /\ (forall before p after,
        prompts = (before ++ p :: after)%list ->
        (forall x, In x prompts -> EqualFold (Name x) text = false) ->
        Go.Contains (ToLower (Name p)) (ToLower text) = true ->
        (forall x, In x before ->
                   Go.Contains (ToLower (Name x)) (ToLower text) = false) ->
        result = Returns p None)
  /\ ((forall x, In x prompts ->
                 EqualFold (Name x) text = false
                 /\ Go.Contains (ToLower (Name x)) (ToLower text) = false) ->
      result = Returns prompt.zero (Some ErrInvalidSelection)).
Proof.
  intros Hscan Hne Hnum text result.
  assert (E : result
              = match find (fun p => EqualFold (Name p) text) prompts with
                | Some p => Returns p None
                | None =>
                  match filter (fun p => Go.Contains (ToLower (Name p)) (ToLower text))
                               prompts with
                  | p :: _ => Returns p None
                  | [] => Returns prompt.zero (Some ErrInvalidSelection)
                  end
                end)
    by (apply fallback_named; assumption).
  split; [|split; [|split]].
  - rewrite E, nameLoop_find. reflexivity.
  - intros before p after -> Hp Hb. rewrite E.
    now rewrite (find_first (fun p => EqualFold (Name p) text)).
  - intros before p after -> Hnone Hp Hb. rewrite E.
    rewrite (find_none (fun p => EqualFold (Name p) text)) by exact Hnone.
    now rewrite (filter_first (fun p => Go.Contains (ToLower (Name p)) (ToLower text))).
  - intros Hnone. rewrite E.
    rewrite (find_none (fun p => EqualFold (Name p) text))
      by (intros x Hx; now apply Hnone).
    rewrite (filter_none (fun p => Go.Contains (ToLower (Name p)) (ToLower text)))
      by (intros x Hx; now apply Hnone).
    reflexivity.
Qed.

Lemma Atoi_not_empty s idx : Go.Atoi s = Some idx -> s <> "".
Proof. intros H ->. discriminate H. Qed.

Lemma fallback_numbered prompts input line idx :
  Go.ScanLine input = Some line ->
  Go.Atoi (Go.TrimSpace line) = Some idx ->
  selectPromptFallback EqualFold ToLower prompts input
  = if (idx <? 1) || (idx >? Go.len prompts)
    then Returns prompt.zero (Some ErrInvalidSelection)
    else match Go.index prompts (idx - 1) with
         | Some p => Returns p None
         | None => Panics
         end.
Proof.
  intros Hscan Hnum. unfold selectPromptFallback. rewrite Hscan.
  pose proof (Atoi_not_empty _ _ Hnum) as Hne. apply String.eqb_neq in Hne.
  rewrite Hne, Hnum. pose proof (Atoi_fits _ _ Hnum) as Hfit.
  destruct (Z.ltb_spec idx 1); [reflexivity|]. cbn [orb].
  destruct (idx >? Go.len prompts); [reflexivity|].
  rewrite int_sub_small by (unfold Go.MinInt, Go.MaxInt in *; lia). reflexivity.
Qed.

(** X17. The fallback selector by number. When the first line of input,
    trimmed, is a number, a number from 1 to the number of prompts selects
    the prompt listed under it, and every other number is refused with
    [ErrInvalidSelection]: a number is never taken for a name. *)
Theorem X17_fallback_by_number prompts input line idx :
  Go.ScanLine input = Some line ->
  Go.Atoi (Go.TrimSpace line) = Some idx ->
  let result := selectPromptFallback EqualFold ToLower prompts input in
  (1 <= idx <= Go.len prompts ->
   exists p, nth_error prompts (Z.to_nat (idx - 1)) = Some p
             /\ result = Returns p None)
  /\ (idx < 1 \/ Go.len prompts < idx ->
      result = Returns prompt.zero (Some ErrInvalidSelection)).
Proof.
  intros Hscan Hnum result.
  assert (E := fallback_numbered prompts input line idx Hscan Hnum).
  fold result in E. split.
  - intros Hin. rewrite E.
    replace (idx <? 1) with false by lia.
    replace (idx >? Go.len prompts) with false by lia. cbn [orb].
    unfold Go.index. replace (idx - 1 <? 0) with false by lia.
    destruct (nth_error prompts (Z.to_nat (idx - 1))) as [p|] eqn:Hp.
    + now exists p.
    + apply nth_error_None in Hp. unfold Go.len in Hin. lia.
  - intros Hout. rewrite E.
    destruct (Z.ltb_spec idx 1); [reflexivity|].
    replace (idx >? Go.len prompts) with true by lia. reflexivity.
Qed.

Lemma fallback_safe prompts input :
  prompts <> [] ->
  (exists p, In p prompts
             /\ selectPromptFallback EqualFold ToLower prompts input = Returns p None)
  \/ selectPromptFallback EqualFold ToLower prompts input
     = Returns prompt.zero (Some ErrInvalidSelection).
Proof.
  intros Hne.
  assert (H0 : exists p, In p prompts
                         /\ match Go.index prompts 0 with
                            | Some p => Returns p None
                            | None => Panics
                            end = Returns p None).
  { destruct prompts as [|p ps]; [contradiction|]. exists p. split; [now left | reflexivity]. }
  destruct (Go.ScanLine input) as [line|] eqn:Hscan.
  2:{ left. unfold selectPromptFallback. rewrite Hscan. exact H0. }
  destruct (String.eqb_spec (Go.TrimSpace line) "") as [Hblank|Htext].
  { left. unfold selectPromptFallback. rewrite Hscan, Hblank. exact H0. }
  destruct (Go.Atoi (Go.TrimSpace line)) as [idx|] eqn:Hnum.
  - rewrite (fallback_numbered _ _ _ _ Hscan Hnum).
    destruct (Z.ltb_spec idx 1); [now right|].
    destruct (Z.gtb_spec idx (Go.len prompts)); [now right|]. cbn [orb].
    destruct (index_in_range prompts (idx - 1)) as (p & Hp & Hin); [lia|].
    left. exists p. now rewrite Hp.
  - rewrite (fallback_named _ _ _ Hscan Htext Hnum).
    destruct (find _ prompts) as [p|] eqn:Hfind.
    + left. exists p. split; [|reflexivity]. now apply find_some in Hfind.
    + destruct (filter _ prompts) as [|p ps] eqn:Hfilter; [now right|].
      left. exists p. split; [|reflexivity].
      assert (Hin : In p (filter
                (fun p => Go.Contains (ToLower (Name p)) (ToLower (Go.TrimSpace line)))
                prompts)) by (rewrite Hfilter; now left).
      now apply filter_In in Hin.
Qed.

(** X18. The fallback selector is safe on a list that is not empty: whatever
    the input, it does not panic; it answers with a prompt of the list or
    with [ErrInvalidSelection]. *)
Theorem X18_fallback_answers_from_the_list prompts input :
  prompts <> [] ->
  let result := selectPromptFallback EqualFold ToLower prompts input in
  (exists p, In p prompts /\ result = Returns p None)
  \/ result = Returns prompt.zero (Some ErrInvalidSelection).
Proof. exact (fallback_safe prompts input). Qed.

Variable Search : list Prompt -> string -> search.Options -> list Prompt.


End FallbackFacts.

(** ** Settings *)

Section ConfigFacts.

Import config.

(** X20. Whatever the settings file holds, and whether or not it can be read
    and decoded, the settings [Load] returns are usable: there is a prompt
    directory, a cache directory, an extension and an ignore pattern, and
    the three numbers are positive, so that [ui.normalizeOptions] keeps the
    truncate length as it is. *)
Theorem X20_loaded_settings_are_usable (f : file) :
  let s := Load f in
  DefaultDirs s <> []
  /\ CacheDir s <> ""
  /\ Extensions (FileSystem s) <> []
  /\ IgnorePatterns (FileSystem s) <> []
  /\ 0 < MaxFileSizeKB (FileSystem s)
  /\ 0 < MaxResults (FuzzySearch s)
  /\ 0 < TruncateLength (UI s)
  /\ ui.normalizeOptions {| ui.TruncateLength := TruncateLength (UI s) |}
     = {| ui.TruncateLength := TruncateLength (UI s) |}.
Proof.
  assert (Hlist : forall (l d : list string),
             d <> [] -> (if Go.len l >? 0 then l else d) <> []).
  { intros l d Hd. destruct l; [exact Hd | discriminate]. }
  assert (Hnum : forall n d, 0 < d -> 0 < (if n >? 0 then n else d)).
  { intros n d Hd. destruct (Z.gtb_spec n 0); lia. }
  assert (Hnorm : forall n, 0 < n ->
             ui.normalizeOptions {| ui.TruncateLength := n |}
             = {| ui.TruncateLength := n |}).
  { intros n Hn. unfold ui.normalizeOptions. cbn [ui.TruncateLength].
    now replace (n <=? 0) with false by lia. }
  destruct f as [| |raw]; cbn [Load].
  1,2: cbv zeta; cbn; repeat split; try discriminate; try lia.
  cbv zeta.
  cbn [DefaultDirs CacheDir FileSystem FuzzySearch UI Extensions IgnorePatterns
       MaxFileSizeKB MaxResults TruncateLength defaults].
  repeat match goal with |- _ /\ _ => split end.
  - apply Hlist. discriminate.
  - destruct (String.eqb_spec (rawCacheDir raw) ""); cbn [negb];
      [discriminate | assumption].
  - apply Hlist. discriminate.
  - apply Hlist. discriminate.
  - apply Hnum. lia.
  - apply Hnum. lia.
  - apply Hnum. lia.
  - apply Hnorm, Hnum. lia.
Qed.

End ConfigFacts.

(** ** Tags *)

Section TagFacts.

Variable ToLower : string -> string.

Lemma seenBefore_In key seen : tags.seenBefore key seen = true <-> In key seen.
Proof.
  unfold tags.seenBefore. rewrite existsb_exists. split.
  - intros (x & Hx & E). apply String.eqb_eq in E. now subst.
  - intros H. exists key. split; [exact H | apply String.eqb_refl].
Qed.

Lemma NoDup_snoc {A} (l : list A) x : NoDup l -> ~ In x l -> NoDup (l ++ [x]).
Proof.
  intros Hl Hx. apply (Permutation_NoDup (Permutation_cons_append l x)).
  now constructor.
Qed.

Lemma cleanLoop_spec values : forall cleaned seen,
  (forall k, In k seen <-> In k (map ToLower cleaned)) ->
  NoDup (map ToLower cleaned) ->
  let r := tags.cleanLoop ToLower cleaned seen values in
  NoDup (map ToLower r)
  /\ (forall t, In t r ->
        In t cleaned
        \/ (t <> "" /\ exists v, In v values /\ t = Go.TrimSpace v))
  /\ (forall t, In t cleaned -> In t r)
  /\ (forall v, In v values -> Go.TrimSpace v <> "" ->
        In (ToLower (Go.TrimSpace v)) (map ToLower r)).
Proof.
  induction values as [|value rest IH]; intros cleaned seen Hseen Hnd;
    cbn [tags.cleanLoop].
  - cbv zeta. repeat split; auto. intros v [].
  - cbv zeta. destruct (String.eqb_spec (Go.TrimSpace value) "") as [Hblank|Htag].
    + destruct (IH cleaned seen Hseen Hnd) as (H1 & H2 & H3 & H4).
      refine (conj H1 (conj _ (conj H3 _))).
      * intros t Ht. destruct (H2 t Ht) as [Hc|(Hne & v & Hv & E)]; [now left|].
        right. split; [exact Hne|]. exists v. split; [now right | exact E].
      * intros v [<-|Hv] Hne; [contradiction | now apply H4].
    + destruct (tags.seenBefore (ToLower (Go.TrimSpace value)) seen) eqn:Hs.
      * destruct (IH cleaned seen Hseen Hnd) as (H1 & H2 & H3 & H4).
        refine (conj H1 (conj _ (conj H3 _))).
        -- intros t Ht. destruct (H2 t Ht) as [Hc|(Hne & v & Hv & E)]; [now left|].
           right. split; [exact Hne|]. exists v. split; [now right | exact E].
        -- intros v [<-|Hv] Hne; [|now apply H4].
           apply seenBefore_In, Hseen, in_map_iff in Hs as (c & Ec & Hc).
           rewrite <- Ec. apply in_map, H3, Hc.
      * assert (Hnew : ~ In (ToLower (Go.TrimSpace value)) (map ToLower cleaned)).
        { intros Hin. apply Hseen, seenBefore_In in Hin. congruence. }
        destruct (IH (cleaned ++ [Go.TrimSpace value])%list
                     (ToLower (Go.TrimSpace value) :: seen))
          as (H1 & H2 & H3 & H4).
        { intros k. rewrite map_app, in_app_iff. cbn [map In]. rewrite Hseen. tauto. }
        { rewrite map_app. cbn [map]. now apply NoDup_snoc. }
        refine (conj H1 (conj _ (conj _ _))).
        -- intros t Ht. destruct (H2 t Ht) as [Hc|(Hne & v & Hv & E)].
           ++ apply in_app_iff in Hc as [Hc|[<-|[]]]; [now left|].
              right. split; [exact Htag|]. exists value. split; [now left | reflexivity].
           ++ right. split; [exact Hne|]. exists v. split; [now right | exact E].
        -- intros t Ht. apply H3, in_app_iff. now left.
        -- intros v [<-|Hv] Hne; [|now apply H4].
           apply in_map, H3, in_app_iff. right. now left.
Qed.

(** X21. [cleanSlice] (and [unique]) give clean tags: each tag is an input
    value with the white space around it removed and is not empty; no two
    tags are equal up to case; and no input value is lost: each one that is
    not blank is among the tags up to case. *)
Theorem X21_tags_are_clean values :
  let cleaned := tags.cleanSlice ToLower values in
  (forall t, In t cleaned ->
     t <> "" /\ exists v, In v values /\ t = Go.TrimSpace v)
  /\ NoDup (map ToLower cleaned)
  /\ (forall v, In v values -> Go.TrimSpace v <> "" ->
        In (ToLower (Go.TrimSpace v)) (map ToLower cleaned))
  /\ tags.unique ToLower values = cleaned.
Proof.
  destruct (cleanLoop_spec values [] []) as (H1 & H2 & _ & H4).
  { intros k. reflexivity. }
  { constructor. }
  cbv zeta. unfold tags.unique, tags.cleanSlice.
  refine (conj _ (conj H1 (conj H4 eq_refl))).
  intros t Ht. destruct (H2 t Ht) as [[]|H]. exact H.
Qed.

(** X22. The tags [splitAndClean] reads from one string hold no separator
    (comma, semicolon, line feed), are not empty, and no two of them are
    equal up to case. *)
Theorem X22_split_tags_hold_no_separator value :
  let cleaned := tags.splitAndClean ToLower value in
  (forall t, In t cleaned ->
     t <> "" /\ GoText.noByte tags.isTagSeparator t = true)
  /\ NoDup (map ToLower cleaned).
Proof.
  cbv zeta. unfold tags.splitAndClean.
  destruct (value =? "")%string; [split; [intros t [] | constructor]|].
  destruct (cleanLoop_spec (GoText.FieldsFunc tags.isTagSeparator value) [] [])
    as (H1 & H2 & _ & _).
  { intros k. reflexivity. }
  { constructor. }
  split; [|exact H1].
  intros t Ht. destruct (H2 t Ht) as [[]|(Hne & v & Hv & ->)].
  split; [exact Hne|]. apply noByte_TrimSpace.
  unfold GoText.FieldsFunc in Hv. apply filter_In in Hv as [Hv _].
  pose proof (splitWhere_pieces tags.isTagSeparator value) as Hall.
  rewrite Forall_forall in Hall. now apply Hall.
Qed.

End TagFacts.

(** ** Printing a prompt *)

Section OutputFacts.

Lemma keepTrimmed_spec parts :
  pm.keepTrimmed parts
  = filter (fun part => negb (part =? "")%string) (map Go.TrimSpace parts).
Proof.
  induction parts as [|part rest IH]; [reflexivity|].
  cbn [pm.keepTrimmed map filter]. cbv zeta.
  destruct (negb (Go.TrimSpace part =? "")%string); now rewrite IH.
Qed.

(** X23. [normalizeContent] removes the line ends at the end of the content
    and nothing else: the content is the result followed by carriage returns
    and line feeds only; the result does not end with one; normalizing twice
    changes nothing; so [outputPrompt] prints the normalized content with
    one line feed after it, and copies the normalized content. *)
Theorem X23_content_loses_its_line_ends content :
  let cleaned := pm.normalizeContent content in
  (exists tail, content = (cleaned ++ tail)%string
                /\ GoText.noByte (fun b => negb (pm.isLineEnd b)) tail = true)
  /\ (forall s a, cleaned = (s ++ String a "")%string ->
                  pm.isLineEnd (Go.byteZ a) = false)
  /\ pm.normalizeContent cleaned = cleaned
  /\ pm.outputPrompt content true = ((cleaned ++ render.newline)%string, Some cleaned).
Proof.
  cbv zeta. unfold pm.normalizeContent, GoText.TrimRight.
  assert (Hidem : Go.revString
            (GoText.dropLeading pm.isLineEnd
               (Go.revString
                  (Go.revString
                     (GoText.dropLeading pm.isLineEnd (Go.revString content "")) "") ""))
            ""
          = Go.revString (GoText.dropLeading pm.isLineEnd (Go.revString content "")) "").
  { now rewrite revString_involutive, dropLeading_idem. }
  split; [|split; [|split]].
  - destruct (dropLeading_suffix pm.isLineEnd (Go.revString content ""))
      as (pre & E & Hpre).
    exists (Go.revString pre ""). split.
    + rewrite <- revString_app, <- E. symmetry. apply revString_involutive.
    + now rewrite noByte_rev.
  - intros s a E.
    apply (f_equal (fun x => Go.revString x "")) in E.
    rewrite revString_involutive, revString_app in E. cbn in E.
    now apply dropLeading_head in E.
  - exact Hidem.
  - unfold pm.outputPrompt, pm.writePrompt, pm.normalizeContent, GoText.TrimRight.
    now rewrite Hidem.
Qed.

(** X24. [splitAndTrim] gives the pieces between the commas, trimmed, without
    the blank ones: no entry is empty or holds a comma, and joining the
    pieces it starts from with commas gives the input back. *)
Theorem X24_split_entries_hold_no_comma input :
  let entries := pm.splitAndTrim input in
  entries = filter (fun part => negb (part =? "")%string)
                   (map Go.TrimSpace (GoText.SplitCommas input))
  /\ GoText.Join (GoText.SplitCommas input) "," = input
  /\ (forall x, In x entries -> x <> "" /\ GoText.noByte GoText.isComma x = true).
Proof.
  cbv zeta. unfold pm.splitAndTrim. rewrite keepTrimmed_spec.
  split; [reflexivity|]. split.
  - apply (Join_splitWhere GoText.isComma ","%char).
    intros a H. unfold GoText.isComma in H. apply Z.eqb_eq in H.
    rewrite <- (zbyte_byteZ a), H. reflexivity.
  - intros x Hx. apply filter_In in Hx as [Hx Hne].
    apply in_map_iff in Hx as (piece & <- & Hpiece). split.
    + intros E. rewrite E in Hne. discriminate.
    + apply noByte_TrimSpace.
      pose proof (splitWhere_pieces GoText.isComma input) as Hall.
      rewrite Forall_forall in Hall. now apply Hall.
Qed.

End OutputFacts.

(** ** Words *)

Section WordFacts.

Import render.

(** A word in the making: no byte of it passes the test. *)
Lemma flush_words test word :
  GoText.noByte test word = true ->
  Forall (fun w => w <> "" /\ GoText.noByte test w = true) (GoText.flush word).
Proof.
  intros H. unfold GoText.flush. destruct (String.eqb_spec word ""); [constructor|].
  constructor; [|constructor]. split.
  - intros E. apply (f_equal (fun x => Go.revString x "")) in E.
    rewrite revString_involutive in E. cbn in E. contradiction.
  - now rewrite noByte_rev.
Qed.

(** The words [strings.Fields] gives are not empty and hold no byte that the
    text keeps out of its words: a byte of the test is either absent from
    the text or white space of its own. *)
Lemma fieldsLoop_words test n : forall s word,
  (String.length s <= n)%nat ->
  GoText.noByte test word = true ->
  GoText.noByte (fun b => test b && negb (Go.asciiSpace b)) s = true ->
  Forall (fun w => w <> "" /\ GoText.noByte test w = true) (GoText.fieldsLoop word s).
Proof.
  induction n as [|n IH]; intros s word Hn Hword Hs.
  - destruct s; [now apply flush_words | cbn in Hn; lia].
  - destruct s as [|a0 s1]; [now apply flush_words|].
    cbn [String.length] in Hn. cbn [GoText.noByte] in Hs.
    apply andb_true_iff in Hs as [H0 Hs1].
    assert (Hpush : Go.asciiSpace (Go.byteZ a0) = false ->
                    GoText.noByte test (String a0 word) = true).
    { intros Hsp. cbn [GoText.noByte]. rewrite Hword, Hsp in *.
      cbn [negb] in H0. rewrite andb_true_r in H0. now rewrite H0. }
    cbn [GoText.fieldsLoop].
    destruct (Go.asciiSpace (Go.byteZ a0)) eqn:Hsp.
    + apply Forall_app. split; [now apply flush_words|].
      apply IH; [lia | reflexivity | exact Hs1].
    + specialize (Hpush eq_refl).
      destruct s1 as [|a1 s2]; [apply IH; [cbn; lia | exact Hpush | reflexivity]|].
      cbn [String.length] in Hn.
      assert (Hs2 : GoText.noByte (fun b => test b && negb (Go.asciiSpace b)) s2 = true).
      { cbn [GoText.noByte] in Hs1. now apply andb_true_iff in Hs1 as [_ Hs1]. }
      destruct (Go.space2 (Go.byteZ a0) (Go.byteZ a1)).
      * apply Forall_app. split; [now apply flush_words|].
        apply IH; [lia | reflexivity | exact Hs2].
      * destruct s2 as [|a2 s3];
          [apply IH; [cbn; lia | exact Hpush | exact Hs1]|].
        cbn [String.length] in Hn.
        destruct (Go.space3 (Go.byteZ a0) (Go.byteZ a1) (Go.byteZ a2)).
        -- apply Forall_app. split; [now apply flush_words|].
           apply IH; [lia | reflexivity|].
           cbn [GoText.noByte] in Hs2. now apply andb_true_iff in Hs2 as [_ Hs2].
        -- apply IH; [cbn [String.length]; lia | exact Hpush | exact Hs1].
Qed.

Lemma Fields_words s :
  Forall (fun w => w <> "" /\ GoText.noByte Go.asciiSpace w = true) (GoText.Fields s).
Proof.
  apply (fieldsLoop_words Go.asciiSpace _ s "" (le_n _)); [reflexivity|].
  induction s as [|a s IH]; [reflexivity|]. cbn [GoText.noByte].
  rewrite IH. now destruct (Go.asciiSpace (Go.byteZ a)).
Qed.

Lemma Fields_keeps_out test s :
  GoText.noByte test s = true ->
  Forall (fun w => w <> "" /\ GoText.noByte test w = true) (GoText.Fields s).
Proof.
  intros H. apply (fieldsLoop_words test _ s "" (le_n _)); [reflexivity|].
  induction s as [|a s IH]; [reflexivity|]. cbn [GoText.noByte] in *.
  apply andb_true_iff in H as [Ha Hs]. rewrite (IH Hs).
  apply negb_true_iff in Ha. now rewrite Ha.
Qed.

Lemma noByte_weaken (t1 t2 : Z -> bool) s :
  (forall b, t2 b = true -> t1 b = true) ->
  GoText.noByte t1 s = true -> GoText.noByte t2 s = true.
Proof.
  intros Himp. induction s as [|a s IH]; [reflexivity|]. cbn [GoText.noByte].
  intros H. apply andb_true_iff in H as [Ha Hs]. rewrite (IH Hs), andb_true_r.
  apply negb_true_iff in Ha. apply negb_true_iff.
  destruct (t2 (Go.byteZ a)) eqn:E; [|reflexivity]. apply Himp in E. congruence.
Qed.

Lemma Join_two x y rest sep :
  GoText.Join (x :: y :: rest) sep = (x ++ sep ++ GoText.Join (y :: rest) sep)%string.
Proof. reflexivity. Qed.

Lemma Join_app a b sep :
  a <> [] -> b <> [] ->
  GoText.Join (a ++ b) sep = (GoText.Join a sep ++ sep ++ GoText.Join b sep)%string.
Proof.
  intros Ha Hb. induction a as [|x [|y a] IH]; [contradiction| |].
  - destruct b as [|y b]; [contradiction|]. reflexivity.
  - change ((x :: y :: a) ++ b)%list with (x :: y :: (a ++ b))%list.
    rewrite !Join_two.
    change (y :: (a ++ b))%list with ((y :: a) ++ b)%list.
    rewrite IH by discriminate. now rewrite !append_assoc.
Qed.

Lemma Join_snoc a x sep :
  a <> [] -> GoText.Join (a ++ [x]) sep = (GoText.Join a sep ++ sep ++ x)%string.
Proof. intros Ha. now rewrite Join_app by (assumption || discriminate). Qed.

Lemma Join_noByte test elems sep :
  GoText.noByte test sep = true ->
  Forall (fun w => GoText.noByte test w = true) elems ->
  GoText.noByte test (GoText.Join elems sep) = true.
Proof.
  intros Hsep. induction elems as [|x [|y rest] IH]; intros Hall; [reflexivity| |].
  - now inversion Hall.
  - inversion Hall as [|? ? Hx Hrest]; subst.
    rewrite Join_two, !noByte_app, Hx, Hsep, (IH Hrest). reflexivity.
Qed.

Lemma wrapLoop_spec limit words : forall lines cursor,
  Forall (fun w => w <> "") words ->
  cursor <> "" ->
  exists more,
    wrapLoop limit lines cursor words = (lines ++ more)%list
    /\ more <> []
    /\ GoText.Join more " " = GoText.Join (cursor :: words) " "
    /\ (forall test, GoText.noByte test " " = true ->
          GoText.noByte test cursor = true ->
          Forall (fun w => GoText.noByte test w = true) words ->
          Forall (fun l => GoText.noByte test l = true) more)
    /\ (forall all, lineFits limit all cursor -> incl words all ->
          Forall (lineFits limit all) more).
Proof.
  induction words as [|word rest IH]; intros lines cursor Hwords Hcur.
  - exists [cursor]. cbn [wrapLoop]. apply String.eqb_neq in Hcur. rewrite Hcur.
    cbn [negb]. repeat split; try discriminate.
    + intros test _ Hc _. now constructor.
    + intros all Hc _. now constructor.
  - inversion Hwords as [|? ? Hword Hrest]; subst.
    cbn [wrapLoop].
    assert (Hlen : (Go.slen cursor =? 0) = false).
    { apply Z.eqb_neq. unfold Go.slen. destruct cursor; [contradiction|]. cbn. lia. }
    rewrite Hlen.
    destruct (Z.gtb_spec (displayWidth (cursor ++ " " ++ word)) limit) as [Hwide|Hfit].
    + destruct (IH (lines ++ [cursor])%list word Hrest Hword)
        as (more & E & Hne & Hjoin & Hbytes & Hfits).
      exists (cursor :: more). rewrite E, <- app_assoc. split; [reflexivity|].
      split; [discriminate|]. split; [|split].
      * destruct more as [|m more]; [contradiction|].
        rewrite !Join_two. now rewrite Hjoin.
      * intros test Hsp Hc Hall. inversion Hall; subst.
        constructor; [exact Hc | now apply Hbytes].
      * intros all Hc Hincl. constructor; [exact Hc|].
        apply Hfits; [left; apply Hincl; now left|].
        intros x Hx. apply Hincl. now right.
    + destruct (IH lines (cursor ++ " " ++ word)%string Hrest)
        as (more & E & Hne & Hjoin & Hbytes & Hfits).
      { destruct cursor; [contradiction | discriminate]. }
      exists more. split; [exact E|]. split; [exact Hne|]. split; [|split].
      * rewrite Hjoin. destruct rest as [|r rest]; cbn [GoText.Join];
          now rewrite ?append_assoc.
      * intros test Hsp Hc Hall. inversion Hall; subst. apply Hbytes; try assumption.
        rewrite !noByte_app. rewrite Hc, Hsp. cbn [andb]. assumption.
      * intros all Hc Hincl. apply Hfits; [right; lia|].
        intros x Hx. apply Hincl. now right.
Qed.

(** X25. [wrap] with a positive limit cuts the words of the text into lines:
    the result is lines joined by line feeds, none of which holds a line
    feed; each line is one word of the text or is no wider than the limit;
    and the lines joined by spaces are the words of the text joined by
    spaces, so that no word is lost, split or moved (and the line breaks of
    the text itself are not kept). *)
Theorem X25_wrapped_lines_fit text limit :
  0 < limit ->
  let words := GoText.Fields text in
  exists lines,
    wrap text limit = GoText.Join lines newline
    /\ (lines <> [] -> GoText.SplitLines (wrap text limit) = lines)
    /\ Forall (fun line => In line words \/ displayWidth line <= limit) lines
    /\ GoText.Join lines " " = GoText.Join words " ".
Proof.
  intros Hlimit words. unfold wrap. replace (limit <=? 0) with false by lia.
  fold words. pose proof (Fields_words text) as Hwords. fold words in Hwords.
  destruct words as [|word rest] eqn:Ewords.
  - exists []. cbn. repeat split; [contradiction | constructor].
  - inversion Hwords as [|? ? [Hword Hsp] Hrest]; subst.
    cbn [wrapLoop]. change (Go.slen "" =? 0) with true. cbv iota.
    destruct (wrapLoop_spec limit rest [] word) as (more & E & Hne & Hjoin & Hbytes & Hfits).
    { eapply Forall_impl; [|exact Hrest]. now intros w [Hw _]. }
    { exact Hword. }
    cbn [app] in E. rewrite E. exists more.
    split; [reflexivity|]. split; [|split].
    + intros _. apply (splitWhere_Join GoText.isNewline (Go.zbyte 10));
        [reflexivity | exact Hne|].
      apply (Hbytes GoText.isNewline); [reflexivity| |].
      * eapply noByte_weaken; [|exact Hsp]. intros b Hb.
        unfold GoText.isNewline in Hb. apply Z.eqb_eq in Hb. now subst b.
      * eapply Forall_impl; [|exact Hrest]. intros w [_ Hw]. cbv beta in *.
        eapply noByte_weaken; [|exact Hw]. intros b Hb.
        unfold GoText.isNewline in Hb. apply Z.eqb_eq in Hb. now subst b.
    + apply (Hfits (word :: rest)); [left; now left | apply incl_tl, incl_refl].
    + exact Hjoin.
Qed.

Lemma Replace_clean s : GoText.noByte pm.isQuerySeparator (pm.Replace s) = true.
Proof.
  induction s as [|a s IH]; [reflexivity|]. cbn [pm.Replace GoText.noByte].
  rewrite IH, andb_true_r.
  destruct (pm.isQuerySeparator (Go.byteZ a)) eqn:E; [reflexivity | now rewrite E].
Qed.

(** X26. A normalized query is words joined by single spaces: none of the
    words is empty or holds white space below U+0080, and the text holds
    none of the bytes [_ - / . ,], no line feed, carriage return or tab. A
    blank query normalizes to the empty string. *)
Theorem X26_normalized_query_is_plain_words (ToLower : string -> string) value :
  let query := pm.normalizeQuery ToLower value in
  (exists words,
     query = GoText.Join words " "
     /\ Forall (fun w => w <> "" /\ GoText.noByte Go.asciiSpace w = true
                         /\ GoText.noByte pm.isQuerySeparator w = true) words)
  /\ GoText.noByte pm.isQuerySeparator query = true
  /\ (Go.TrimSpace value = "" -> query = "").
Proof.
  cbv zeta. unfold pm.normalizeQuery.
  destruct (String.eqb_spec (Go.TrimSpace value) "") as [Hblank|Htext].
  { split; [exists []; split; [reflexivity | constructor]|]. now split. }
  set (clean := pm.Replace (ToLower (Go.TrimSpace value))).
  assert (Hwords : Forall (fun w => w <> "" /\ GoText.noByte Go.asciiSpace w = true
                                    /\ GoText.noByte pm.isQuerySeparator w = true)
                          (GoText.Fields clean)).
  { pose proof (Fields_words clean) as H1.
    pose proof (Fields_keeps_out pm.isQuerySeparator clean (Replace_clean _)) as H2.
    rewrite Forall_forall in *. intros w Hw.
    destruct (H1 w Hw) as [Hne Hsp]. destruct (H2 w Hw) as [_ Hsep]. now repeat split. }
  split; [exists (GoText.Fields clean); now split|]. split; [|contradiction].
  apply Join_noByte; [reflexivity|].
  eapply Forall_impl; [|exact Hwords]. now intros w (_ & _ & H).
Qed.

End WordFacts.

(** ** The properties at work *)

Section MoreInstances.

Import prompt ui props sample more render.

(** The ranking engine as specified returns candidates only, and no more of
    them than it was given. *)
Lemma Search_within candidates query opts p :
  In p (search.Search candidates query opts) -> In p candidates.
Proof.
  unfold search.Search. destruct (String.eqb_spec query "") as [_|Hq]; intros Hin.
  - apply truncate_in in Hin.
    now apply (Permutation_in _ (sort_Slice_perm _ _)) in Hin.
  - apply truncate_in, in_map_iff in Hin. destruct Hin as ([p' v] & Hp & Hin).
    cbn [fst] in Hp. subst p'.
    apply (Permutation_in _ (sort_Slice_perm _ _)) in Hin.
    now apply scored_in in Hin.
Qed.

Lemma truncate_len {A} opts (l : list A) : Go.len (search.truncate opts l) <= Go.len l.
Proof.
  unfold search.truncate, Go.len. destruct (0 <? search.MaxResults opts); [|lia].
  apply (proj1 (Nat2Z.inj_le _ _)). rewrite length_firstn. apply Nat.le_min_r.
Qed.

Lemma scored_len query candidates :
  Go.len (search.scored query candidates) <= Go.len candidates.
Proof.
  unfold Go.len. induction candidates as [|c cs IH]; cbn [search.scored List.length]; [lia|].
  destruct (search.score query (Name c)); cbn [List.length]; lia.
Qed.

Lemma Search_len candidates query opts :
  Go.len (search.Search candidates query opts) <= Go.len candidates.
Proof.
  unfold search.Search. destruct (query =? "")%string.
  - etransitivity; [apply truncate_len|]. rewrite sort_Slice_len. lia.
  - etransitivity; [apply truncate_len|]. unfold Go.len at 1.
    rewrite length_map. fold (Go.len (Go.sort_Slice search.better (search.scored query candidates))).
    rewrite sort_Slice_len. apply scored_len.
Qed.

Lemma sample_ranking_fits :
  forall q' o, Go.len (search.Search alphaBetaGamma q' o) <= Go.MaxInt.
Proof.
  intros q' o. etransitivity; [apply Search_len|]. vm_compute. discriminate.
Defined.

Lemma X1_witness :
  mode browsingModel = modeNavigate
  /\ query (fst (ui.Update search.Search (tea.typed [97]) browsingModel)) = ""
  /\ filtered (fst (ui.Update search.Search (tea.typed [97]) browsingModel))
     = filtered browsingModel.
Proof.
  assert (H : mode browsingModel = modeNavigate) by reflexivity.
  split; [exact H|].
  destruct (X1_navigation_never_edits search.Search (tea.typed [97]) browsingModel H)
    as (Hq & Hf & _).
  split; [exact Hq | exact Hf].
Defined.

Lemma X2_witness :
  cancelled cancelledModel = true
  /\ selection (feedAll search.Search alp cancelledModel)
     = Returns prompt.zero (Some ErrInvalidSelection).
Proof.
  assert (H : cancelled cancelledModel = true) by reflexivity.
  split; [exact H|].
  exact (proj2 (X2_cancelled_stays_cancelled search.Search alp cancelledModel H)).
Defined.

Lemma X4_witness :
  Go.len alphaBetaGamma <= Go.MaxInt
  /\ (runInteractiveSelector search.Search alphaBetaGamma "" noCap plain confirm = Panics
      -> False).
Proof.
  assert (H : Go.len alphaBetaGamma <= Go.MaxInt) by (vm_compute; discriminate).
  split; [exact H|].
  exact (X4_selector_never_panics search.Search alphaBetaGamma "" noCap plain confirm
           H sample_ranking_fits).
Defined.

Lemma X5_witness :
  runInteractiveSelector search.Search alphaBetaGamma "" noCap plain confirm
  = Returns (named "alpha") None
  /\ In (named "alpha") alphaBetaGamma.
Proof.
  assert (H : runInteractiveSelector search.Search alphaBetaGamma "" noCap plain confirm
              = Returns (named "alpha") None) by reflexivity.
  split; [exact H|].
  exact (X5_selection_is_a_given_prompt search.Search alphaBetaGamma "" noCap plain
           confirm (named "alpha")
           (fun q' o x => Search_within alphaBetaGamma q' o x) H).
Defined.

Lemma X6_witness :
  cursorInv (model alphaBetaGamma "")
  /\ filtered (model alphaBetaGamma "") <> []
  /\ cancelled (model alphaBetaGamma "") = false
  /\ exists p,
       Go.index (filtered (model alphaBetaGamma "")) (cursor (model alphaBetaGamma ""))
       = Some p
       /\ ui.StartReturningModel search.Search (model alphaBetaGamma "") confirm
          = Some (model alphaBetaGamma "", None)
       /\ selection (model alphaBetaGamma "") = Returns p None.
Proof.
  assert (Hne : filtered (model alphaBetaGamma "") <> []) by (vm_compute; discriminate).
  assert (Hc : cancelled (model alphaBetaGamma "") = false) by reflexivity.
  split; [exact sample_cursor|]. split; [exact Hne|]. split; [exact Hc|].
  exact (X6_confirm_returns_the_cursor_entry search.Search (model alphaBetaGamma "")
           Silent sample_cursor Hne Hc).
Defined.

Lemma X7_witness :
  reachable search.Search (model alphaBetaAlpine "alp")
  /\ mode (model alphaBetaAlpine "alp") = modeFilter
  /\ query (fst (ui.Update search.Search (tea.press tea.KeyCtrlU)
                   (model alphaBetaAlpine "alp"))) = ""
  /\ filtered (fst (ui.Update search.Search (tea.press tea.KeyCtrlU)
                      (model alphaBetaAlpine "alp")))
     = sortPrompts (allPrompts (model alphaBetaAlpine "alp")).
Proof.
  assert (Hr : reachable search.Search (model alphaBetaAlpine "alp"))
    by exact (reach_new search.Search alphaBetaAlpine "alp" noCap plain).
  assert (Hm : mode (model alphaBetaAlpine "alp") = modeFilter) by reflexivity.
  split; [exact Hr|]. split; [exact Hm|].
  exact (X7_clear_shows_everything search.Search (model alphaBetaAlpine "alp") Hr Hm).
Defined.

Lemma X8_witness :
  reachable search.Search (model alphaBetaAlpine "al")
  /\ query (fst (ui.Update search.Search (tea.KeyMsg keyP) (model alphaBetaAlpine "al")))
     = "alp"
  /\ query (fst (ui.Update search.Search (tea.press tea.KeyBackspace)
                   (fst (ui.Update search.Search (tea.KeyMsg keyP)
                           (model alphaBetaAlpine "al")))))
     = "al".
Proof.
  assert (Hr : reachable search.Search (model alphaBetaAlpine "al"))
    by exact (reach_new search.Search alphaBetaAlpine "al" noCap plain).
  split; [exact Hr|].
  destruct (X8_type_and_delete_one search.Search (model alphaBetaAlpine "al") keyP
              112 [97; 108] Hr eq_refl eq_refl eq_refl eq_refl eq_refl)
    as (H1 & _ & H2 & _).
  split; [exact H1 | exact H2].
Defined.

Lemma X9_witness :
  0 <= 12 < 30 /\ 1 <= 10 /\ 2 * 30 <= Go.MaxInt
  /\ (let (s, e) := visibleRange 30 12 10 in
      0 <= s /\ s <= 12 < e /\ e <= 30 /\ e - s = Z.min 30 10).
Proof.
  assert (H1 : 0 <= 12 < 30) by lia.
  assert (H2 : 1 <= 10) by lia.
  assert (H3 : 2 * 30 <= Go.MaxInt) by (unfold Go.MaxInt; lia).
  split; [exact H1|]. split; [exact H2|]. split; [exact H3|].
  exact (X9_window_holds_the_cursor 30 12 10 H1 H2 H3).
Defined.


Lemma X11_witness :
  Go.MinInt + 4 <= 16 <= Go.MaxInt /\ 0 <= Go.MaxInt
  /\ displayWidth (renderPromptTitle tagged 16 0) <= Z.max 0 (16 - 4).
Proof.
  assert (H1 : Go.MinInt + 4 <= 16 <= Go.MaxInt) by (unfold Go.MinInt, Go.MaxInt; lia).
  assert (H2 : 0 <= Go.MaxInt) by (unfold Go.MaxInt; lia).
  split; [exact H1|]. split; [exact H2|].
  exact (proj1 (X11_title_fits_the_width tagged 16 0 H1 H2)).
Defined.

Lemma X14_witness :
  threeLines <> "" /\ GoText.noByte GoText.isNewline "  " = true
  /\ GoText.SplitLines (indent threeLines "  ")
     = map (fun line => ("  " ++ line)%string) (GoText.SplitLines threeLines).
Proof.
  assert (H1 : threeLines <> "") by (vm_compute; discriminate).
  assert (H2 : GoText.noByte GoText.isNewline "  " = true) by reflexivity.
  split; [exact H1|]. split; [exact H2|].
  exact (X14_indent_prefixes_every_line threeLines "  " H1 H2).
Defined.

Lemma X15_witness :
  0 < 2
  /\ GoText.SplitLines (snippet threeLines 2)
     = (firstn (Z.to_nat 2) (GoText.SplitLines (Go.TrimSpace threeLines)) ++ [ellipsis])%list.
Proof.
  assert (H : 0 < 2) by lia.
  split; [exact H|].
  assert (Hlong : 2 < Go.len (GoText.SplitLines (Go.TrimSpace threeLines)))
    by (vm_compute; reflexivity).
  exact (proj2 (X15_snippet_shows_the_first_lines threeLines 2 H) Hlong).
Defined.

Lemma X16_witness :
  Go.ScanLine "gam" = Some "gam" /\ Go.TrimSpace "gam" <> ""
  /\ Go.Atoi (Go.TrimSpace "gam") = None
  /\ selectPromptFallback asciiEqualFold asciiToLower alphaBetaGamma "gam"
     = fallback.nameLoop asciiEqualFold asciiToLower (Go.TrimSpace "gam") alphaBetaGamma [].
Proof.
  assert (H1 : Go.ScanLine "gam" = Some "gam") by reflexivity.
  assert (H2 : Go.TrimSpace "gam" <> "") by (vm_compute; discriminate).
  assert (H3 : Go.Atoi (Go.TrimSpace "gam") = None) by reflexivity.
  split; [exact H1|]. split; [exact H2|]. split; [exact H3|].
  exact (proj1 (X16_fallback_by_name asciiEqualFold asciiToLower alphaBetaGamma
                  "gam" "gam" H1 H2 H3)).
Defined.

Lemma X17_witness :
  Go.ScanLine "2" = Some "2" /\ Go.Atoi (Go.TrimSpace "2") = Some 2
  /\ 1 <= 2 <= Go.len alphaBetaGamma
  /\ exists p, nth_error alphaBetaGamma (Z.to_nat (2 - 1)) = Some p
               /\ selectPromptFallback asciiEqualFold asciiToLower alphaBetaGamma "2"
                  = Returns p None.
Proof.
  assert (H1 : Go.ScanLine "2" = Some "2") by reflexivity.
  assert (H2 : Go.Atoi (Go.TrimSpace "2") = Some 2) by reflexivity.
  assert (H3 : 1 <= 2 <= Go.len alphaBetaGamma) by (vm_compute; split; discriminate).
  split; [exact H1|]. split; [exact H2|]. split; [exact H3|].
  exact (proj1 (X17_fallback_by_number asciiEqualFold asciiToLower alphaBetaGamma
                  "2" "2" 2 H1 H2) H3).
Defined.

Lemma X18_witness :
  alphaBetaGamma <> []
  /\ ((exists p, In p alphaBetaGamma
                 /\ selectPromptFallback asciiEqualFold asciiToLower alphaBetaGamma "zzz"
                    = Returns p None)
      \/ selectPromptFallback asciiEqualFold asciiToLower alphaBetaGamma "zzz"
         = Returns prompt.zero (Some ErrInvalidSelection)).
Proof.
  assert (H : alphaBetaGamma <> []) by discriminate.
  split; [exact H|].
  exact (X18_fallback_answers_from_the_list asciiEqualFold asciiToLower alphaBetaGamma
           "zzz" H).
Defined.


Lemma X25_witness :
  0 < 10
  /\ exists lines,
       wrap "alpha beta gamma" 10 = GoText.Join lines newline
       /\ (lines <> [] -> GoText.SplitLines (wrap "alpha beta gamma" 10) = lines)
       /\ Forall (fun line => In line (GoText.Fields "alpha beta gamma")
                              \/ displayWidth line <= 10) lines
       /\ GoText.Join lines " " = GoText.Join (GoText.Fields "alpha beta gamma") " ".
Proof.
  assert (H : 0 < 10) by lia.
  split; [exact H|].
  exact (X25_wrapped_lines_fit "alpha beta gamma" 10 H).
Defined.

(** What the functions give on the sample data. *)
Example more_samples :
  wrap "alpha beta gamma" 10 = ("alpha beta" ++ render.newline ++ "gamma")%string
  /\ truncate "product-brief" 5 = ("prod" ++ ellipsis)%string
  /\ visibleRange 30 12 10 = (7, 17)
  /\ pm.normalizeQuery asciiToLower " Code_Review.v2 " = "code review v2"
  /\ pm.splitAndTrim "a, b,,c " = ["a"; "b"; "c"]
  /\ tags.splitAndClean asciiToLower "go, Go;cli" = ["go"; "cli"]
  /\ pm.writePrompt ("text" ++ sample.carriageReturn ++ sample.newline ++ sample.newline)
     = ("text" ++ sample.newline)%string
  /\ selectPromptFallback asciiEqualFold asciiToLower alphaBetaGamma "gam"
     = Returns (named "gamma") None.
Proof. vm_compute. repeat split. Qed.

End MoreInstances.
